(** * Order-fulfillment ledger of the shop bot

    A shallow embedding of the payment ledger, the fulfillment guard, the
    fulfillment orchestrator, the key reconciliation, the stored balance and
    the partner cabinet of [shop_bot] ([data_manager/database.py],
    [bot/handlers.py]), with the properties the specification states about
    them and further properties of the code.

    Conventions of the embedding:
    - a SQLite table is a finite map from its primary (or unique) key to a
      record of the columns the code reads or writes;
    - [CURRENT_TIMESTAMP] and [datetime.utcnow()] are read from the
      environment of a call ([env_now]);
    - a [sqlite3.Error] is an event of the environment ([env_faults]); every
      statement group the code runs is one transaction, so a fault leaves the
      tables as they were;
    - Python [float] values and SQLite [REAL] columns are exact rationals [Q];
    - Python [str] values are [string]s of ASCII text. *)

From Stdlib Require Import ZArith QArith Qround Qabs Qminmax String Ascii List Lia Lqa.
From stdpp Require Import base gmap strings list fin_maps.

Set Warnings "-register-all".

(** ** Python text helpers *)

(** [str.isspace] on one ASCII character: tab, line feed, vertical tab, form
    feed, carriage return, the four separators 0x1c-0x1f and the space. *)
Definition is_space (c : ascii) : bool :=
  let n := nat_of_ascii c in
  ((9 <=? n)%nat && (n <=? 13)%nat) || ((28 <=? n)%nat && (n <=? 32)%nat).

Fixpoint lstrip (s : string) : string :=
  match s with
  | EmptyString => EmptyString
  | String c r => if is_space c then lstrip r else s
  end.

Fixpoint rstrip (s : string) : string :=
  match s with
  | EmptyString => EmptyString
  | String c r =>
      match rstrip r with
      | EmptyString => if is_space c then EmptyString else String c EmptyString
      | r' => String c r'
      end
  end.

(** [s.strip()] *)
Definition strip (s : string) : string := rstrip (lstrip s).

(** [str.lower] on one ASCII character. *)
Definition lower_ascii (c : ascii) : ascii :=
  let n := nat_of_ascii c in
  if ((65 <=? n)%nat && (n <=? 90)%nat) then ascii_of_nat (n + 32) else c.

(** [s.lower()] *)
Fixpoint lower (s : string) : string :=
  match s with
  | EmptyString => EmptyString
  | String c r => String (lower_ascii c) (lower r)
  end.

(** ** JSON values and metadata dictionaries *)

Inductive json : Type :=
| JNull
| JBool (b : bool)
| JNum (q : Q)
| JStr (s : string)
| JArr (l : list json)
| JObj (l : list (string * json)).

(** The payment metadata: a Python [dict] with string keys. *)
Abbreviation Meta := (gmap string json).

(** [d.setdefault(k, v)], for its effect on [d]. *)
Definition setdefault (k : string) (v : json) (d : Meta) : Meta :=
  match d !! k with
  | Some _ => d
  | None => <[k := v]> d
  end.

(** ** Tables *)

Inductive status : Type := pending | paid.

#[global] Instance status_eq_dec : EqDecision status.
Proof. solve_decision. Defined.

(** A row of [pending_transactions] (primary key [payment_id]). The
    [metadata] column holds [json.dumps] of a dict; the model keeps the dict
    that [json.loads] gives back. *)
Record pending_row : Type := mkPending {
  p_user_id : Z;
  p_amount_rub : option Q;
  p_metadata : Meta;
  p_status : status;
  p_created_at : Z;
  p_updated_at : Z
}.

(** The text of a [metadata] column of [transactions], by what [json.loads]
    makes of it. *)
Inductive raw_meta : Type :=
| RawNull                (* NULL or the empty string *)
| RawInvalid             (* text [json.loads] rejects *)
| RawDict (d : Meta)     (* the text of a JSON object *)
| RawOther (j : json).   (* the text of any other JSON value *)

(** A row of [transactions] (unique key [payment_id]). *)
Record tx_row : Type := mkTx {
  t_user_id : Z;
  t_status : string;
  t_amount_rub : Q;
  t_amount_currency : option Q;
  t_currency_name : option string;
  t_payment_method : option string;
  t_metadata : raw_meta
}.

(** A row of [partner_commissions]; [UNIQUE(bot_id, payment_id)]. *)
Record commission_row : Type := mkCommission {
  c_bot_id : Z;
  c_payment_id : string;
  c_user_id : Z;
  c_amount_rub : Q;
  c_commission_percent : Q;
  c_commission_rub : Q;
  c_payment_method : option string;
  c_created_at : Z
}.

(** The [missing_from_server_at] column of [vpn_keys]. *)
Inductive missing_col : Type :=
| MissingNull                (* NULL or the empty string *)
| MissingStamp (us : Z)      (* a timestamp, in microseconds since the epoch *)
| MissingGarbage.            (* text [datetime.fromisoformat] rejects *)

(** A row of [vpn_keys] (primary key [key_id]). *)
Record key_row : Type := mkKey {
  k_user_id : Z;
  k_email : option string;
  k_key_email : option string;
  k_expire_at_ms : option Z;     (* [expire_at], parsed; [None]: unset or unparsable *)
  k_missing_from_server_at : missing_col;
  k_updated_at : Z
}.

(** The database file: the tables the modelled functions touch. [users]
    keeps the [balance] column ([None] is NULL) by [telegram_id]. *)
Record Db : Type := mkDb {
  pending_transactions : gmap string pending_row;
  processed_payments : gmap string Z;
  transactions : gmap string tx_row;
  users : gmap Z (option Q);
  partner_commissions : list commission_row;
  vpn_keys : gmap Z key_row
}.

Definition set_pending (t : gmap string pending_row) (db : Db) : Db :=
  mkDb t (processed_payments db) (transactions db) (users db)
       (partner_commissions db) (vpn_keys db).

Definition set_processed (t : gmap string Z) (db : Db) : Db :=
  mkDb (pending_transactions db) t (transactions db) (users db)
       (partner_commissions db) (vpn_keys db).

Definition set_transactions (t : gmap string tx_row) (db : Db) : Db :=
  mkDb (pending_transactions db) (processed_payments db) t (users db)
       (partner_commissions db) (vpn_keys db).

Definition set_users (t : gmap Z (option Q)) (db : Db) : Db :=
  mkDb (pending_transactions db) (processed_payments db) (transactions db) t
       (partner_commissions db) (vpn_keys db).

Definition set_commissions (t : list commission_row) (db : Db) : Db :=
  mkDb (pending_transactions db) (processed_payments db) (transactions db)
       (users db) t (vpn_keys db).

Definition set_keys (t : gmap Z key_row) (db : Db) : Db :=
  mkDb (pending_transactions db) (processed_payments db) (transactions db)
       (users db) (partner_commissions db) t.

Definition empty_db : Db := mkDb ∅ ∅ ∅ ∅ [] ∅.

(** ** Storage faults and [_retry_sqlite] *)

(** What SQLite answers to an attempt that does not go through:
    [Locked] is an [OperationalError] whose text has "locked" in it,
    [Failed] any other [sqlite3.Error]. *)
Inductive sql_fault : Type := Locked | Failed.

(** The environment of one call: the clock, and the faults that meet its
    successive attempts (none left: the attempt goes through). *)
Record env : Type := mkEnv {
  env_now : Z;
  env_faults : list sql_fault
}.

Inductive sql_result (A : Type) : Type :=
| SqlOk (a : A)
| SqlError.
Arguments SqlOk {A} a.
Arguments SqlError {A}.

(** [_retry_sqlite(work, attempts)]: the loop over [range(attempts)], by the
    number of attempts that remain. A locked database is retried unless the
    attempt was the last one; every other fault is raised at once. [none] is
    what the caller makes of the [None] Python returns when the range is
    empty. *)
Fixpoint _retry_sqlite {A : Type} (none : A) (work : Db -> A * Db)
    (remaining : nat) (faults : list sql_fault) (db : Db) : sql_result A * Db :=
  match remaining with
  | O => (SqlOk none, db)
  | S r =>
      match faults with
      | [] => let (a, db') := work db in (SqlOk a, db')
      | Locked :: fs =>
          match r with
          | O => (SqlError, db)
          | S _ => _retry_sqlite none work r fs db
          end
      | Failed :: _ => (SqlError, db)
      end
  end.

(** The default [attempts=5]. *)
Definition attempts : nat := 5.

(** ** Pending ledger *)

(** The upsert of [create_payload_pending]:
    [INSERT ... ON CONFLICT(payment_id) DO UPDATE SET user_id, amount_rub,
    metadata, updated_at WHERE pending_transactions.status = 'pending']. *)
Definition upsert_pending (pid : string) (user_id : Z) (amount_rub : option Q)
    (metadata : Meta) (now : Z) (t : gmap string pending_row)
    : gmap string pending_row :=
  match t !! pid with
  | None => <[pid := mkPending user_id amount_rub metadata pending now now]> t
  | Some r =>
      match p_status r with
      | pending =>
          <[pid := mkPending user_id amount_rub metadata (p_status r)
                             (p_created_at r) now]> t
      | paid => t
      end
  end.

(** [create_payload_pending(payment_id, user_id, amount_rub, metadata)];
    [metadata] is the dict after [metadata or {}]. *)
Definition create_payload_pending (payment_id : string) (user_id : Z)
    (amount_rub : option Q) (metadata : Meta) (e : env) (db : Db) : bool * Db :=
  let pid := strip payment_id in
  if decide (pid = "") then (false, db)
  else
    let _work db :=
      (true, set_pending (upsert_pending pid user_id amount_rub metadata
                            (env_now e) (pending_transactions db)) db) in
    match _retry_sqlite false _work attempts (env_faults e) db with
    | (SqlOk b, db') => (b, db')
    | (SqlError, db') => (false, db')
    end.

(** [UPDATE pending_transactions SET status = 'paid', updated_at =
    CURRENT_TIMESTAMP WHERE payment_id = ? AND status = 'pending'], with its
    [rowcount]. *)
Definition update_paid (pid : string) (now : Z) (t : gmap string pending_row)
    : nat * gmap string pending_row :=
  match t !! pid with
  | Some r =>
      match p_status r with
      | pending =>
          (1%nat, <[pid := mkPending (p_user_id r) (p_amount_rub r) (p_metadata r)
                              paid (p_created_at r) now]> t)
      | paid => (0%nat, t)
      end
  | None => (0%nat, t)
  end.

(** [SELECT metadata FROM pending_transactions WHERE payment_id = ? AND
    status = 'pending'] *)
Definition select_pending_metadata (pid : string) (t : gmap string pending_row)
    : option Meta :=
  match t !! pid with
  | Some r => match p_status r with pending => Some (p_metadata r) | paid => None end
  | None => None
  end.

(** [_get_pending_metadata(payment_id)] *)
Definition _get_pending_metadata (payment_id : string) (e : env) (db : Db)
    : option Meta :=
  let pid := strip payment_id in
  if decide (pid = "") then None
  else
    let _work db :=
      (match select_pending_metadata pid (pending_transactions db) with
       | None => None
       | Some meta => Some (setdefault "payment_id" (JStr pid) meta)
       end, db) in
    match _retry_sqlite None _work attempts (env_faults e) db with
    | (SqlOk r, _) => r
    | (SqlError, _) => None
    end.

(** [get_pending_status(payment_id)] *)
Definition get_pending_status (payment_id : string) (e : env) (db : Db)
    : option status :=
  let pid := strip payment_id in
  if decide (pid = "") then None
  else
    let _work db := (p_status <$> pending_transactions db !! pid, db) in
    match _retry_sqlite None _work attempts (env_faults e) db with
    | (SqlOk r, _) => r
    | (SqlError, _) => None
    end.

(** [_complete_pending(payment_id)] *)
Definition _complete_pending (payment_id : string) (e : env) (db : Db) : bool * Db :=
  let pid := strip payment_id in
  if decide (pid = "") then (false, db)
  else
    let _work db :=
      let (rowcount, t) := update_paid pid (env_now e) (pending_transactions db) in
      (Nat.eqb rowcount 1, set_pending t db) in
    match _retry_sqlite false _work attempts (env_faults e) db with
    | (SqlOk b, db') => (b, db')
    | (SqlError, db') => (false, db')
    end.

(** [find_and_complete_pending_transaction(payment_id)]. The transaction
    opened by [BEGIN IMMEDIATE] is rolled back on both early returns, so the
    tables change only on the path that commits. *)
Definition find_and_complete_pending_transaction (payment_id : string)
    (e : env) (db : Db) : option Meta * Db :=
  let pid := strip payment_id in
  if decide (pid = "") then (None, db)
  else
    let _work db :=
      match select_pending_metadata pid (pending_transactions db) with
      | None => (None, db)
      | Some raw =>
          let (rowcount, t) := update_paid pid (env_now e) (pending_transactions db) in
          if negb (Nat.eqb rowcount 1) then (None, db)
          else (Some (setdefault "payment_id" (JStr pid) raw), set_pending t db)
      end in
    match _retry_sqlite None _work attempts (env_faults e) db with
    | (SqlOk r, db') => (r, db')
    | (SqlError, db') => (None, db')
    end.

(** ** Histories of ledger calls *)

(** The calls the bot and the webhooks make on [pending_transactions]. *)
Inductive ledger_call : Type :=
| CallCreate (payment_id : string) (user_id : Z) (amount_rub : option Q)
             (metadata : Meta)
| CallComplete (payment_id : string)
| CallFindAndComplete (payment_id : string).

(** The database after one call. *)
Definition ledger_exec (c : ledger_call) (e : env) (db : Db) : Db :=
  match c with
  | CallCreate payment_id user_id amount_rub metadata =>
      (create_payload_pending payment_id user_id amount_rub metadata e db).2
  | CallComplete payment_id => (_complete_pending payment_id e db).2
  | CallFindAndComplete payment_id =>
      (find_and_complete_pending_transaction payment_id e db).2
  end.

(** The metadata a call hands to its caller for payment [p], if any. *)
Definition handed_out (p : string) (c : ledger_call) (e : env) (db : Db)
    : option Meta :=
  match c with
  | CallFindAndComplete payment_id =>
      if decide (strip payment_id = p)
      then (find_and_complete_pending_transaction payment_id e db).1
      else None
  | _ => None
  end.

(** The non-[None] results for payment [p] along a history of calls. Each
    call is one [BEGIN IMMEDIATE] transaction or one statement, so calls made
    concurrently take effect in some order: a history is that order. *)
Fixpoint completions (p : string) (calls : list (ledger_call * env)) (db : Db)
    : list Meta :=
  match calls with
  | [] => []
  | (c, e) :: rest =>
      let later := completions p rest (ledger_exec c e db) in
      match handed_out p c e db with
      | Some m => m :: later
      | None => later
      end
  end.

(** ** Fulfillment guard *)

(** [INSERT OR IGNORE INTO processed_payments (payment_id, processed_at)
    VALUES (?, CURRENT_TIMESTAMP)], with its [rowcount]. *)
Definition insert_or_ignore_processed (pid : string) (now : Z) (t : gmap string Z)
    : nat * gmap string Z :=
  match t !! pid with
  | Some _ => (0%nat, t)
  | None => (1%nat, <[pid := now]> t)
  end.

(** [claim_processed_payment(payment_id)] *)
Definition claim_processed_payment (payment_id : string) (e : env) (db : Db)
    : bool * Db :=
  let pid := strip payment_id in
  if decide (pid = "") then (false, db)
  else
    let _work db :=
      let (rowcount, t) :=
        insert_or_ignore_processed pid (env_now e) (processed_payments db) in
      (Nat.eqb rowcount 1, set_processed t db) in
    match _retry_sqlite false _work attempts (env_faults e) db with
    | (SqlOk b, db') => (b, db')
    | (SqlError, db') => (false, db')
    end.

(** A history of claims: the database after the calls, in order. *)
Fixpoint run_claims (calls : list (string * env)) (db : Db) : Db :=
  match calls with
  | [] => db
  | (payment_id, e) :: rest =>
      run_claims rest (claim_processed_payment payment_id e db).2
  end.

(** The attempts of a call go through: the database is locked fewer times
    than [_retry_sqlite] retries, and nothing else fails. *)
Definition storage_ok (e : env) : Prop :=
  exists k, (k < attempts)%nat /\ env_faults e = repeat Locked k.

(** ** Rational helpers for [float] arithmetic *)

Definition Qlt_bool (x y : Q) : bool := negb (Qle_bool y x).

(** [max(a, b)]: the first of the largest. *)
Definition py_max (a b : Q) : Q := if Qlt_bool a b then b else a.

(** *** Binary64 arithmetic

    A finite [float] is the rational it stands for. The result of an
    operation on floats is the binary64 number nearest to the exact result,
    the one with the even last digit of two that are as near; [fl] is that
    rounding, down to the subnormal numbers. A result too large for a
    [float], and the values [inf] and [nan], are not modelled. *)

(** [2 ^ e], for an exponent of either sign. *)
Definition pow2 (e : Z) : Q :=
  if (0 <=? e)%Z then inject_Z (2 ^ e) else 1 # Z.to_pos (2 ^ (- e)).

(** The exponent of the leading bit of [q > 0]: the [k] with
    [2 ^ k <= q < 2 ^ (k + 1)]. *)
Definition Qlog2 (q : Q) : Z :=
  let k := (Z.log2 (Qnum q) - Z.log2 (Zpos (Qden q)))%Z in
  if Qle_bool (pow2 k) q then k else (k - 1)%Z.

(** The integer nearest to [x], the even one of two that are as near. *)
Definition round_half_even (x : Q) : Z :=
  let f := Qfloor x in
  let d := (x - inject_Z f)%Q in
  if Qlt_bool d (1 # 2) then f
  else if Qlt_bool (1 # 2) d then (f + 1)%Z
  else if Z.even f then f else (f + 1)%Z.

(** The rounding of [q > 0]: to 53 digits from the leading bit, and to a
    multiple of [2 ^ -1074] below [2 ^ -1022]. *)
Definition fl_pos (q : Q) : Q :=
  let e := Z.max (Qlog2 q - 52) (-1074) in
  (inject_Z (round_half_even (q / pow2 e)) * pow2 e)%Q.

(** The float nearest to [q]; [q] itself when it is a float. *)
Definition fl (q : Q) : Q :=
  let r :=
    match (q ?= 0)%Q with
    | Eq => 0%Q
    | Gt => fl_pos q
    | Lt => (- fl_pos (- q))%Q
    end in
  if Qeq_bool r q then q else r.

(** [a + b], [a - b], [a * b] and [a / b] on floats. *)
Definition fadd (a b : Q) : Q := fl (a + b).
Definition fsub (a b : Q) : Q := fl (a - b).
Definition fmul (a b : Q) : Q := fl (a * b).
Definition fdiv (a b : Q) : Q := fl (a / b).

(** The hundredth nearest to [x], the even one of two that are as near. *)
Definition round2 (x : Q) : Q :=
  let y := (x * 100)%Q in
  let f := Qfloor y in
  let d := (y - inject_Z f)%Q in
  let n :=
    if Qlt_bool d (1 # 2) then f
    else if Qlt_bool (1 # 2) d then (f + 1)%Z
    else if Z.even f then f else (f + 1)%Z in
  (inject_Z n / 100)%Q.

(** [round(x, 2)] on a float: the float nearest to the hundredth nearest to
    the exact value of [x]. *)
Definition py_round2 (x : Q) : Q := fl (round2 x).

(** ** Partner commissions *)

Definition FRANCHISE_PERCENT_DEFAULT : Q := 35.

(** [_is_card_payment_method(method)]. The set of the second test also holds
    a non-ASCII spelling of "balance"; both of its members are outside the
    set of the last line, so the test changes no result. *)
Definition _is_card_payment_method (method : option string) : bool :=
  let m := lower (strip (default "" method)) in
  if decide (m = "") then false
  else if decide (m = "balance") then false
  else bool_decide (m ∈ ["yookassa"; "platega"; "heleket"; "yoomoney"]).

(** [(s or None)] *)
Definition or_none (s : option string) : option string :=
  match s with
  | Some EmptyString => None
  | _ => s
  end.

(** Does [partner_commissions] hold a row for [(bot_id, payment_id)]? *)
Definition has_commission (b : Z) (pid : string) (t : list commission_row) : bool :=
  existsb (fun r => bool_decide (c_bot_id r = b) && bool_decide (c_payment_id r = pid)) t.

(** [accrue_partner_commission(bot_id, payment_id, user_id, amount_rub,
    payment_method, percent)]. The [AUTOINCREMENT] id of the row is not
    kept. *)
Definition accrue_partner_commission (bot_id : Z) (payment_id : string)
    (user_id : Z) (amount_rub : Q) (payment_method : option string)
    (percent : option Q) (e : env) (db : Db) : bool * Db :=
  let b := bot_id in
  if (b <=? 0)%Z then (false, db)
  else if negb (_is_card_payment_method payment_method) then (false, db)
  else
    let pid := strip payment_id in
    if decide (pid = "") then (false, db)
    else
      let u := user_id in
      let amt := amount_rub in
      if Qle_bool amt 0 then (false, db)
      else
        let p := default FRANCHISE_PERCENT_DEFAULT percent in
        if Qle_bool p 0 then (false, db)
        else
          let com := py_round2 (fdiv (fmul amt p) 100) in
          if Qle_bool com 0 then (false, db)
          else
            match env_faults e with
            | _ :: _ => (false, db)
            | [] =>
                if has_commission b pid (partner_commissions db) then (false, db)
                else
                  (true,
                   set_commissions
                     (partner_commissions db ++
                        [mkCommission b pid u amt p com (or_none payment_method)
                                      (env_now e)])
                     db)
            end.

(** ** Stored balance *)

(** [deduct_from_balance(user_id, amount)] *)
Definition deduct_from_balance (user_id : Z) (amount : Q) (e : env) (db : Db)
    : bool * Db :=
  if Qle_bool amount 0 then (true, db)
  else
    match env_faults e with
    | _ :: _ => (false, db)
    | [] =>
        let current :=
          match users db !! user_id with
          | Some (Some balance) => balance
          | _ => 0%Q
          end in
        if Qlt_bool current amount then (false, db)
        else
          (true,
           set_users
             (match users db !! user_id with
              | Some balance =>
                  <[user_id := Some (default 0%Q balance - amount)%Q]> (users db)
              | None => users db
              end) db)
    end.

(** ** Python conversions of JSON values *)

(** [d.get(k)], with [None] as [JNull]. *)
Definition dict_get (k : string) (d : Meta) : json := default JNull (d !! k).

(** [bool(v)] *)
Definition json_truthy (v : json) : bool :=
  match v with
  | JNull => false
  | JBool b => b
  | JNum q => negb (Qeq_bool q 0)
  | JStr s => negb (bool_decide (s = ""))
  | JArr l => negb (bool_decide (l = []))
  | JObj l => negb (bool_decide (l = []))
  end.

(** [v == s] for a string [s] *)
Definition json_is_str (v : json) (s : string) : bool :=
  match v with
  | JStr t => bool_decide (t = s)
  | _ => false
  end.

(** [int(x)] on a number: towards zero. *)
Definition Qtruncate (q : Q) : Z :=
  if Qle_bool 0 q then Qfloor q else Qceiling q.

(** The conversions of a Python [str] to a number are not part of the
    program: [float_of_str] and [int_of_str] stand for [float(s)] and
    [int(s)], [None] when they raise [ValueError]. *)
Section Conversions.
Context (float_of_str : string -> option Q) (int_of_str : string -> option Z).

(** [float(v)]; [None] when it raises. *)
Definition py_float (v : json) : option Q :=
  match v with
  | JNum q => Some q
  | JBool b => Some (if b then 1%Q else 0%Q)
  | JStr s => float_of_str s
  | _ => None
  end.

(** [int(v)]; [None] when it raises. *)
Definition py_int (v : json) : option Z :=
  match v with
  | JNum q => Some (Qtruncate q)
  | JBool b => Some (if b then 1%Z else 0%Z)
  | JStr s => int_of_str s
  | _ => None
  end.

(** ** TON transactions *)

(** The expected amount of [find_and_complete_ton_transaction]: the first
    of the three keys that is not [None], through [float]. *)
Definition expected_amount_ton (meta : Meta) : option Q :=
  let expected := dict_get "expected_amount_ton" meta in
  let expected :=
    match expected with JNull => dict_get "ton_amount" meta | _ => expected end in
  let expected :=
    match expected with JNull => dict_get "amount_ton" meta | _ => expected end in
  match expected with
  | JNull => None
  | _ => py_float expected
  end.
End Conversions.

(** What a function that can let an exception through gives back. *)
Inductive outcome (A : Type) : Type :=
| Returned (a : A)
| Raised.
Arguments Returned {A} a.
Arguments Raised {A}.

(** [json.loads(raw or "{}")], with [{}] when it raises; [None] when the
    value is not a dict. *)
Definition load_meta (raw : raw_meta) : option Meta :=
  match raw with
  | RawNull | RawInvalid => Some ∅
  | RawDict d => Some d
  | RawOther _ => None
  end.

(** The tolerance on a TON amount, [max(0.001, exp_val * 0.01)]: the two
    literals are the floats nearest to them, and the product is rounded. *)
Definition ton_tolerance (exp_val : Q) : Q :=
  py_max (fl (1 # 1000)) (fmul exp_val (fl (1 # 100))).

(** [find_and_complete_ton_transaction(payment_id, amount_ton)].
    [amount_ton] is [None] when the caller passes [None]. A metadata that is
    not a dict makes [meta.get] raise; the connection then rolls back and the
    exception leaves the function. *)
Definition find_and_complete_ton_transaction (float_of_str : string -> option Q)
    (payment_id : string) (amount_ton : option Q) (e : env) (db : Db)
    : outcome (option Meta) * Db :=
  let pid := strip payment_id in
  if decide (pid = "") then (Returned None, db)
  else
    match env_faults e with
    | _ :: _ => (Returned None, db)
    | [] =>
        match transactions db !! pid with
        | None => (Returned None, db)
        | Some row =>
            if negb (bool_decide (t_status row = "pending")) then (Returned None, db)
            else
              match load_meta (t_metadata row) with
              | None => (Raised, db)
              | Some meta =>
                  let exp_val := expected_amount_ton float_of_str meta in
                  let amt_val := amount_ton in
                  let rejected :=
                    match exp_val with
                    | None => false
                    | Some exp_val =>
                        match amt_val with
                        | None => true
                        | Some amt_val =>
                            let tol := ton_tolerance exp_val in
                            Qlt_bool tol (Qabs (fsub amt_val exp_val))
                        end
                    end in
                  if rejected then (Returned None, db)
                  else
                    (Returned (Some (setdefault "payment_id" (JStr pid) meta)),
                     set_transactions
                       (<[pid := mkTx (t_user_id row) "paid" (t_amount_rub row)
                                      amt_val (Some "TON") (Some "TON")
                                      (t_metadata row)]> (transactions db)) db)
              end
        end
    end.

(** ** Duration of a purchase *)

(** [_compute_days_to_add(months, duration_days)] *)
Definition _compute_days_to_add (months duration_days : option Z) : Z :=
  let dd := default 0%Z duration_days in
  if (0 <? dd)%Z then dd
  else
    let mm := default 0%Z months in
    (mm * 30)%Z.

(** The day count [process_successful_payment] passes to the provisioning
    client: from the plan, else from the metadata, else 30 days a month and
    30 days when there is no month count. *)
Definition resolve_days_to_add (plan_months plan_days months duration_days_meta : Z)
    : Z :=
  let days_to_add := _compute_days_to_add (Some plan_months) (Some plan_days) in
  let days_to_add :=
    if (days_to_add <=? 0)%Z
    then _compute_days_to_add (Some months) (Some duration_days_meta)
    else days_to_add in
  if (days_to_add <=? 0)%Z
  then (if (months =? 0)%Z then 30%Z else (months * 30)%Z)
  else days_to_add.

(** ** Reconciliation of keys with the panel *)

(** What one existence check of [sync_user_keys_with_remnawave] yields:
    the three answers of [_remnawave_key_exists] ([True], [False], [None])
    and the exception [asyncio.gather] hands back in place of a result. *)
Inductive exists_result : Type :=
| ExistsTrue
| ExistsFalse
| ExistsUnknown
| CheckRaised.

(** The environment of one pass: [datetime.utcnow()] in microseconds, the
    answers of the panel, the storage faults that meet the write for a key,
    and the clock [_now_str] reads at that write. *)
Record sync_env : Type := mkSyncEnv {
  se_now_dt : Z;
  se_exists : Z -> key_row -> exists_result;
  se_write_fails : Z -> bool;
  se_write_now : Z -> Z
}.

Definition second_us : Z := 1000000.

(** [timedelta(hours=24)], in microseconds. *)
Definition grace : Z := 24 * 3600 * second_us.

(** The instant [strftime("%Y-%m-%d %H:%M:%S")] writes and
    [datetime.fromisoformat] reads back: [t] without its microseconds. *)
Definition stamp_us (t : Z) : Z := (t / second_us * second_us)%Z.

(** [_parse_missing_dt(value)] *)
Definition _parse_missing_dt (value : missing_col) : option Z :=
  match value with
  | MissingStamp us => Some us
  | MissingNull | MissingGarbage => None
  end.

(** The truth value of the column as Python reads it. *)
Definition missing_truthy (value : missing_col) : bool :=
  match value with
  | MissingNull => false
  | MissingStamp _ | MissingGarbage => true
  end.

(** [delete_key_by_id(key_id)] *)
Definition delete_key_by_id (key_id : Z) (fails : bool) (db : Db) : bool * Db :=
  if fails then (false, db)
  else
    match vpn_keys db !! key_id with
    | Some _ => (true, set_keys (delete key_id (vpn_keys db)) db)
    | None => (false, db)
    end.

(** [update_key_fields(key_id, missing_from_server_at=value)]: the column
    and [updated_at] of the row with that id, if there is one. *)
Definition update_key_missing (key_id : Z) (value : missing_col) (now : Z)
    (fails : bool) (db : Db) : bool * Db :=
  if fails then (false, db)
  else
    match vpn_keys db !! key_id with
    | Some r =>
        (true,
         set_keys (<[key_id := mkKey (k_user_id r) (k_email r) (k_key_email r) (k_expire_at_ms r)
                                     value now]> (vpn_keys db)) db)
    | None => (false, db)
    end.

(** [a or b] on two nullable strings. *)
Definition str_or (a b : option string) : option string :=
  match a with
  | Some (String _ _) => a
  | _ => b
  end.

(** [_normalize_email(value)] *)
Definition _normalize_email (value : option string) : option string :=
  match value with
  | None => None
  | Some v => or_none (Some (lower (strip v)))
  end.

(** [_normalize_key_row(row)] on a row that is there, for the columns kept:
    the e-mail, from [email] or else [key_email], is written to both. *)
Definition _normalize_key_row (row : key_row) : key_row :=
  match _normalize_email (str_or (k_email row) (k_key_email row)) with
  | Some email =>
      mkKey (k_user_id row) (Some email) (Some email) (k_expire_at_ms row)
            (k_missing_from_server_at row) (k_updated_at row)
  | None => row
  end.

(** [get_key_by_id(key_id)]; [fails] says that the read raises
    [sqlite3.Error], which the function answers with [None]. *)
Definition get_key_by_id (key_id : Z) (fails : bool) (db : Db) : option key_row :=
  if fails then None else _normalize_key_row <$> vpn_keys db !! key_id.

(** [get_user_keys(user_id)]: the rows of the user, as read before the
    checks. The order of the rows plays no part in what follows. *)
Definition get_user_keys (user_id : Z) (db : Db) : list (Z * key_row) :=
  filter (fun kr => k_user_id kr.2 = user_id) (map_to_list (vpn_keys db)).

(** One turn of the loop over the results: the count of removed keys and
    the database, after the result for [key]. *)
Definition sync_step (se : sync_env) (acc : nat * Db) (key : Z * key_row)
    : nat * Db :=
  let '(removed, db) := acc in
  let '(key_id, row) := key in
  match se_exists se key_id row with
  | CheckRaised => acc
  | _ =>
      if (key_id =? 0)%Z then acc
      else
        match se_exists se key_id row with
        | ExistsFalse =>
            let missing_dt := _parse_missing_dt (k_missing_from_server_at row) in
            let expired :=
              match missing_dt with
              | Some t => (grace <? se_now_dt se - t)%Z
              | None => false
              end in
            if expired then
              let (ok, db') := delete_key_by_id key_id (se_write_fails se key_id) db in
              (if ok then S removed else removed, db')
            else
              (removed,
               (update_key_missing key_id (MissingStamp (stamp_us (se_now_dt se)))
                  (se_write_now se key_id) (se_write_fails se key_id) db).2)
        | ExistsTrue =>
            if missing_truthy (k_missing_from_server_at row) then
              (removed,
               (update_key_missing key_id MissingNull (se_write_now se key_id)
                  (se_write_fails se key_id) db).2)
            else acc
        | _ => acc
        end
  end.

(** [sync_user_keys_with_remnawave(user_id)]: the number of keys removed,
    and the database after the pass. *)
Definition sync_user_keys_with_remnawave (user_id : Z) (se : sync_env) (db : Db)
    : nat * Db :=
  fold_left (sync_step se) (get_user_keys user_id db) (0%nat, db).

(** A history of passes for one user. *)
Fixpoint run_syncs (user_id : Z) (passes : list sync_env) (db : Db) : Db :=
  match passes with
  | [] => db
  | se :: rest =>
      run_syncs user_id rest (sync_user_keys_with_remnawave user_id se db).2
  end.

(** What a pass makes of the row [row] of key [key_id]: the row after the
    pass, [None] when the key was deleted. *)
Definition key_after (se : sync_env) (key_id : Z) (row : key_row) : option key_row :=
  match se_exists se key_id row with
  | ExistsFalse =>
      if (key_id =? 0)%Z || se_write_fails se key_id then Some row
      else
        match _parse_missing_dt (k_missing_from_server_at row) with
        | Some t =>
            if (grace <? se_now_dt se - t)%Z then None
            else Some (mkKey (k_user_id row) (k_email row) (k_key_email row) (k_expire_at_ms row)
                             (MissingStamp (stamp_us (se_now_dt se)))
                             (se_write_now se key_id))
        | None =>
            Some (mkKey (k_user_id row) (k_email row) (k_key_email row) (k_expire_at_ms row)
                        (MissingStamp (stamp_us (se_now_dt se)))
                        (se_write_now se key_id))
        end
  | ExistsTrue =>
      if (key_id =? 0)%Z || se_write_fails se key_id then Some row
      else if missing_truthy (k_missing_from_server_at row)
           then Some (mkKey (k_user_id row) (k_email row) (k_key_email row) (k_expire_at_ms row)
                            MissingNull (se_write_now se key_id))
           else Some row
  | ExistsUnknown | CheckRaised => Some row
  end.

(** The panel gives the answer [res] for key [key_id], whatever the row. *)
Definition reports (se : sync_env) (key_id : Z) (res : exists_result) : Prop :=
  forall row, se_exists se key_id row = res.

(** The pass [se] comes no earlier than [T] and no later than 24 hours after
    the mark a pass at [T] writes. *)
Definition in_window (T : Z) (se : sync_env) : Prop :=
  (T <= se_now_dt se)%Z /\ (se_now_dt se - stamp_us T <= grace)%Z.

(** The mark of the row, if any, was written at [T] or later. *)
Definition marked_since (T : Z) (row : key_row) : Prop :=
  match _parse_missing_dt (k_missing_from_server_at row) with
  | Some s => (stamp_us T <= s)%Z
  | None => True
  end.

(** The row with its mark set by a pass [se]. *)
Definition restamped (se : sync_env) (key_id : Z) (row : key_row) : key_row :=
  mkKey (k_user_id row) (k_email row) (k_key_email row) (k_expire_at_ms row)
        (MissingStamp (stamp_us (se_now_dt se))) (se_write_now se key_id).

(** A pass at [now_dt], microseconds, in which the panel has no key and the
    storage works. *)
Definition all_missing_at (now_dt : Z) : sync_env :=
  mkSyncEnv now_dt (fun _ _ => ExistsFalse) (fun _ => false) (fun _ => now_dt / second_us)%Z.

Definition hour_us : Z := 3600 * second_us.

Definition keys_example : Db :=
  set_keys (<[1%Z := mkKey 7 None (Some "u7@bot.local") None MissingNull 0]> ∅) empty_db.

(** A pass at [now_dt] in which the panel has every key. *)
Definition all_present_at (now_dt : Z) : sync_env :=
  mkSyncEnv now_dt (fun _ _ => ExistsTrue) (fun _ => false) (fun _ => now_dt / second_us)%Z.

Definition key_row_example : key_row :=
  mkKey 7 None (Some "u7@bot.local") None MissingNull 0.

(** ** Key creation errors *)

(** [s.startswith(p)] *)
Fixpoint starts_with (p s : string) : bool :=
  match p, s with
  | EmptyString, _ => true
  | String a p', String b s' => bool_decide (a = b) && starts_with p' s'
  | String _ _, EmptyString => false
  end.

(** [sub in s] *)
Fixpoint contains (sub s : string) : bool :=
  starts_with sub s ||
  match s with
  | EmptyString => false
  | String _ r => contains sub r
  end.

Definition is_digit (c : ascii) : bool :=
  let n := nat_of_ascii c in (48 <=? n)%nat && (n <=? 57)%nat.

(** The digits a string begins with, and what follows them. *)
Fixpoint take_digits (s : string) : string * string :=
  match s with
  | EmptyString => (EmptyString, EmptyString)
  | String c r =>
      if is_digit c then let (d, rest) := take_digits r in (String c d, rest)
      else (EmptyString, s)
  end.

(** The string up to its first line feed. *)
Fixpoint take_line (s : string) : string :=
  match s with
  | EmptyString => EmptyString
  | String c r => if (nat_of_ascii c =? 10)%nat then EmptyString else String c (take_line r)
  end.

Fixpoint drop_str (n : nat) (s : string) : string :=
  match n, s with
  | O, _ => s
  | S n', String _ r => drop_str n' r
  | S _, EmptyString => EmptyString
  end.

(** The pattern of [_classify_key_creation_error] is the literal
    "request failed:", white space, one digit or more (group 1), white space,
    and the rest of the line (group 2). This is the pattern on what follows
    the literal: the two groups. *)
Definition match_after_literal (s : string) : option (string * string) :=
  let (digits, rest) := take_digits (lstrip s) in
  if decide (digits = "") then None
  else Some (digits, take_line (lstrip rest)).

(** [re.search] of that pattern in [raw], with [re.IGNORECASE]: the groups
    of the leftmost match. *)
Fixpoint search_request_failed (raw : string) : option (string * string) :=
  let here :=
    if starts_with "request failed:" (lower raw)
    then match_after_literal (drop_str 15 raw)
    else None in
  match here with
  | Some groups => Some groups
  | None =>
      match raw with
      | EmptyString => None
      | String _ r => search_request_failed r
      end
  end.

(** The table [errors]. *)
Definition errors : list (string * string) :=
  [("A019", "username уже занят"); ("400", "неверные данные");
   ("404", "ресурс не найден")].

Definition errors_get (code : string) (default_ : string) : string :=
  match List.find (fun kv => bool_decide (kv.1 = code)) errors with
  | Some kv => kv.2
  | None => default_
  end.

(** [_classify_key_creation_error(exc)]: code, description, short detail.
    [exc] is the text of the exception, [None] when there is none. *)
Definition _classify_key_creation_error (exc : option string)
    : string * string * string :=
  let raw := default "" exc in
  let found := search_request_failed raw in
  let status : option string := fst <$> found in
  let detail :=
    match found with
    | Some (_, group2) => if decide (strip group2 = "") then raw else strip group2
    | None => raw
    end in
  let detail_l := lower detail in
  let code :=
    if contains "username" detail_l &&
       existsb (fun word => contains word detail_l)
               ["already"; "exists"; "occupied"; "taken"; "занят"]
    then "A019"
    else default "400" status in
  let description := errors_get code "неизвестная ошибка" in
  let short_detail := strip detail in
  let short_detail :=
    if (200 <? String.length short_detail)%nat
    then String.append (substring 0 200 short_detail) "..."
    else short_detail in
  (code, description, short_detail).

(** The text [_format_key_action_label] builds, by its template and the
    values it puts in. *)
Inductive action_label : Type :=
| LabelPurchase (price : option Q)                (* "покупка тарифа ..." *)
| LabelExtend (key_id : Z) (price : option Q)     (* "продление ключа #..." *)
| LabelTrial                                      (* "пробный ключ" *)
| LabelGift (price : option Q)                    (* "подарочный ключ ..." *)
| LabelOther (text : string).                     (* the action, or "операция" *)

(** [_format_key_action_label(action, price=price, key_id=key_id)];
    [None] when [action] is neither a string nor falsy, and [.strip] raises. *)
Definition _format_key_action_label (action : json) (price : option Q) (key_id : Z)
    : option action_label :=
  let label action_s raw :=
    if decide (action_s = "new") then LabelPurchase price
    else if decide (action_s = "extend") then LabelExtend key_id price
    else if decide (action_s = "trial") then LabelTrial
    else if decide (action_s = "gift") then LabelGift price
    else LabelOther (if decide (raw = "") then "операция" else raw) in
  match action with
  | JStr s => Some (label (lower (strip s)) s)
  | _ => if json_truthy action then None else Some (label "" "")
  end.

(** ** Fulfillment of a paid order *)

(** The texts the bot sends, by template and values. *)
Inductive message : Type :=
| MsgProcessing (host_name : json)   (* "Оплата получена! Обрабатываю ..." *)
| MsgKeyNotFoundForExtend            (* "Не удалось найти ключ для продления." *)
| MsgKeyCreationFailed               (* "Не удалось создать ключ." *)
| MsgIssueError                      (* "Ошибка при выдаче ключа." *)
| MsgUserKeyCreationError (refund : bool) (code : string)
| MsgAdminKeyCreationError (user_id : Z) (code description : string)
                           (label : action_label).

(** The arguments of [remnawave_api.create_or_update_key_on_host]. *)
Record provision_args : Type := mkProvisionArgs {
  pa_host_name : json;
  pa_email : option string;
  pa_days_to_add : Z;
  pa_expiry_timestamp_ms : option Z;
  pa_traffic_limit_bytes : option Z;
  pa_traffic_limit_strategy : option string;
  pa_hwid_device_limit : option Z
}.

(** What a run does outside the database, in order. *)
Inductive action_out : Type :=
| DeleteMessage (chat_id message_id : json)
| SendMessage (chat_id : Z) (text : message)
| EditProcessingMessage (text : message)
| LogKeyCreationError (user_id : Z) (label : action_label) (code detail : string)
| CreateOrUpdateKey (args : provision_args).

(** What the panel returns for a key. *)
Record payload : Type := mkPayload {
  client_uuid : string;
  expiry_timestamp_ms : Z;
  connection_string : option string
}.

(** How the call to the provisioning client ends: with an exception of the
    given text, or with a result ([None]: an empty one). *)
Inductive provision_outcome : Type :=
| ProvisionRaised (exc : string)
| ProvisionReturned (result : option payload).

(** A row of [plans], for the columns the fulfillment reads. *)
Record plan_row : Type := mkPlan {
  pl_months : option Z;
  pl_duration_days : option Z;
  pl_traffic_limit_bytes : option Z;
  pl_traffic_limit_strategy : option string;
  pl_hwid_device_limit : option Z
}.

(** What a run of [process_successful_payment] meets outside the tables of
    [Db]: the environments of its two writes, the bot it runs in, the tables
    [managed_bots] (active bots, by Telegram id) and [plans], the e-mail
    generated for a new key, the clock, the provisioning client, the admin
    ids, and whether the read of the key to extend and the later read of
    its expiry fail. *)
Record pay_env : Type := mkPayEnv {
  pe_claim : env;
  pe_accrue : env;
  pe_bot_id : option Z;
  pe_managed_bots : gmap Z Z;
  pe_plans : gmap Z plan_row;
  pe_generated_email : string;
  pe_now_ms : Z;
  pe_provision : provision_outcome;
  pe_admin_ids : list Z;
  pe_key_read_fails : bool;
  pe_expiry_read_fails : bool
}.

(** [resolve_factory_bot_id(telegram_bot_user_id)] *)
Definition resolve_factory_bot_id (telegram_bot_user_id : option Z)
    (managed_bots : gmap Z Z) : Z :=
  let tg_id := default 0%Z telegram_bot_user_id in
  if (tg_id <=? 0)%Z then 0%Z
  else default 0%Z (managed_bots !! tg_id).

(** How a run ends. The top-up branch (from line 5849) and what follows a
    provisioning that returned (from line 6161) are not followed: a run that
    gets there ends with [EndTopUp] or [EndProvisioned]. *)
Inductive ending : Type :=
| EndBadMetadata           (* [user_id] or [price] does not convert *)
| EndRaised                (* an exception left the function *)
| EndMissingPaymentId
| EndDuplicate             (* the claim returned [False] *)
| EndKeyNotFound           (* no key, or no e-mail, to extend *)
| EndKeyCreationFailed     (* the provisioning failed *)
| EndIssueError            (* the last handler of the function *)
| EndTopUp
| EndProvisioned (result : option payload) (key_id : Z) (days_to_add : Z).

Record run : Type := mkRun {
  run_db : Db;
  run_actions : list action_out;
  run_end : ending
}.

(** [_handle_key_creation_failure] after the label was built, and the
    [edit_text] that follows it: the actions of a failed provisioning. *)
Definition key_creation_failure (admin_ids : list Z) (user_id : Z)
    (action : json) (price : Q) (key_id : Z) (exc : string)
    : list action_out * ending :=
  match _format_key_action_label action (Some price) key_id with
  | None => ([EditProcessingMessage MsgIssueError], EndIssueError)
  | Some action_label =>
      let '(code, description, detail) := _classify_key_creation_error (Some exc) in
      ([LogKeyCreationError user_id action_label code detail;
        SendMessage user_id (MsgUserKeyCreationError true code)]
       ++ map (fun aid =>
                 SendMessage aid (MsgAdminKeyCreationError user_id code description
                                    action_label)) admin_ids
       ++ [EditProcessingMessage MsgKeyCreationFailed],
       EndKeyCreationFailed)
  end.

(** The limits sent to the panel, from the plan (lines 6015-6069). *)
Definition plan_limits (plan : option plan_row)
    : option Z * option string * option Z :=
  let traffic_limit_bytes :=
    match plan with
    | Some pl => Some (default 0%Z (pl_traffic_limit_bytes pl))
    | None => None
    end in
  let traffic_limit_strategy := plan ≫= pl_traffic_limit_strategy in
  let hwid_device_limit :=
    match plan with
    | Some pl => Some (default 0%Z (pl_hwid_device_limit pl))
    | None => None
    end in
  let traffic_limit_bytes := (fun b => if (b <? 0)%Z then 0%Z else b) <$> traffic_limit_bytes in
  let hwid_device_limit := (fun b => if (b <? 0)%Z then 0%Z else b) <$> hwid_device_limit in
  let traffic_limit_strategy :=
    match traffic_limit_bytes with
    | None => None
    | Some b =>
        if (b =? 0)%Z then None
        else match or_none traffic_limit_strategy with
             | None => Some "NO_RESET"
             | Some s => Some s
             end
    end in
  (traffic_limit_bytes, traffic_limit_strategy, hwid_device_limit).

(** What follows the call to the provisioning client (lines 6121-6159):
    the actions and the ending. An exception, or an empty result for an
    action other than [gift], is a failure. *)
Definition after_provision (pe : pay_env) (user_id : Z) (action : json)
    (price : Q) (key_id days_to_add : Z) : list action_out * ending :=
  match pe_provision pe with
  | ProvisionRaised exc =>
      key_creation_failure (pe_admin_ids pe) user_id action price key_id exc
  | ProvisionReturned result =>
      match result with
      | None =>
          if json_is_str action "gift"
          then ([], EndProvisioned result key_id days_to_add)
          else key_creation_failure (pe_admin_ids pe) user_id action price key_id
                 "key creation returned empty response"
      | Some _ => ([], EndProvisioned result key_id days_to_add)
      end
  end.

Section Orchestrator.
Context (float_of_str : string -> option Q) (int_of_str : string -> option Z).

(** The inner [_to_int(val, default)] *)
Definition _to_int (val : json) (default_ : Z) : Z :=
  match val with
  | JNull => default_
  | JStr s =>
      if decide (s = "" \/ s = "None" \/ s = "null") then default_
      else default default_ (int_of_str s)
  | _ => default default_ (py_int int_of_str val)
  end.

(** [(metadata.get("payment_id") or metadata.get("transaction_id") or
    "").strip()]; [None] when the value has no [strip]. *)
Definition payment_id_of (metadata : Meta) : option string :=
  let a := dict_get "payment_id" metadata in
  let b := dict_get "transaction_id" metadata in
  match (if json_truthy a then a else if json_truthy b then b else JStr "") with
  | JStr s => Some (strip s)
  | _ => None
  end.

(** The commission of a payment made through a managed bot (lines
    5820-5833); every exception is swallowed. *)
Definition accrue_for_payment (pe : pay_env) (metadata : Meta)
    (payment_id : string) (user_id : Z) (price : Q) (db : Db) : Db :=
  let v := dict_get "factory_bot_id" metadata in
  let factory_bot_id :=
    if json_truthy v then default 0%Z (py_int int_of_str v) else 0%Z in
  let factory_bot_id :=
    if (factory_bot_id <=? 0)%Z
    then resolve_factory_bot_id (pe_bot_id pe) (pe_managed_bots pe)
    else factory_bot_id in
  if (0 <? factory_bot_id)%Z then
    match dict_get "payment_method" metadata with
    | JStr s =>
        (accrue_partner_commission factory_bot_id payment_id user_id price
           (Some s) (Some 35%Q) (pe_accrue pe) db).2
    | m =>
        if json_truthy m then db
        else (accrue_partner_commission factory_bot_id payment_id user_id price
                None (Some 35%Q) (pe_accrue pe) db).2
    end
  else db.

(** The plan of the order, its month and day counts, and the month and
    day counts of the metadata, as [process_successful_payment] reads
    them. *)
Definition order_months (metadata : Meta) : Z :=
  _to_int (dict_get "months" metadata) 0.

Definition order_duration_days (metadata : Meta) : Z :=
  _to_int (dict_get "duration_days" metadata) 0.

Definition order_plan (pe : pay_env) (metadata : Meta) : option plan_row :=
  let plan_id := _to_int (dict_get "plan_id" metadata) 0 in
  if (plan_id =? 0)%Z then None else pe_plans pe !! plan_id.

Definition order_plan_months (pe : pay_env) (metadata : Meta) : Z :=
  match order_plan pe metadata with
  | Some pl => default 0%Z (pl_months pl)
  | None => order_months metadata
  end.

Definition order_plan_days (pe : pay_env) (metadata : Meta) : Z :=
  match order_plan pe metadata with
  | Some pl => default 0%Z (pl_duration_days pl)
  | None => order_duration_days metadata
  end.

(** [process_successful_payment(bot, metadata)], up to the end of the
    provisioning. The calls to Telegram that stand outside every [try] are
    taken to return. *)
Definition process_successful_payment (pe : pay_env) (metadata : Meta) (db : Db)
    : run :=
  let action := dict_get "action" metadata in
  match py_int int_of_str (dict_get "user_id" metadata),
        py_float float_of_str (dict_get "price" metadata) with
  | None, _ | _, None => mkRun db [] EndBadMetadata
  | Some user_id, Some price =>
      let months := _to_int (dict_get "months" metadata) 0 in
      let key_id := _to_int (dict_get "key_id" metadata) 0 in
      let host_name := default (JStr "") (metadata !! "host_name") in
      let plan_id := _to_int (dict_get "plan_id" metadata) 0 in
      let duration_days_meta := _to_int (dict_get "duration_days" metadata) 0 in
      match payment_id_of metadata with
      | None => mkRun db [] EndRaised
      | Some payment_id =>
          if decide (payment_id = "") then mkRun db [] EndMissingPaymentId
          else
            let (claimed, db) := claim_processed_payment payment_id (pe_claim pe) db in
            if negb claimed then mkRun db [] EndDuplicate
            else
              let db := accrue_for_payment pe metadata payment_id user_id price db in
              let chat_id_to_delete := dict_get "chat_id" metadata in
              let message_id_to_delete := dict_get "message_id" metadata in
              let deleted :=
                if json_truthy chat_id_to_delete && json_truthy message_id_to_delete
                then [DeleteMessage chat_id_to_delete message_id_to_delete]
                else [] in
              if json_is_str action "top_up" then mkRun db deleted EndTopUp
              else
                let sent := deleted ++ [SendMessage user_id (MsgProcessing host_name)] in
                let candidate :=
                  if json_is_str action "new"
                  then Some (Some (pe_generated_email pe))
                  else if json_is_str action "gift" then Some None
                  else
                    match get_key_by_id key_id (pe_key_read_fails pe) db
                          ≫= k_key_email with
                    | Some email => if decide (email = "") then None else Some (Some email)
                    | None => None
                    end in
                match candidate with
                | None =>
                    mkRun db (sent ++ [EditProcessingMessage MsgKeyNotFoundForExtend])
                          EndKeyNotFound
                | Some candidate_email =>
                    let plan :=
                      if (plan_id =? 0)%Z then None else pe_plans pe !! plan_id in
                    let plan_months :=
                      match plan with
                      | Some pl => default 0%Z (pl_months pl)
                      | None => months
                      end in
                    let plan_days :=
                      match plan with
                      | Some pl => default 0%Z (pl_duration_days pl)
                      | None => duration_days_meta
                      end in
                    let '(traffic_limit_bytes, traffic_limit_strategy,
                          hwid_device_limit) := plan_limits plan in
                    let days_to_add :=
                      resolve_days_to_add plan_months plan_days months
                        duration_days_meta in
                    let expiry_timestamp_ms :=
                      if json_is_str action "extend" && negb (key_id =? 0)%Z then
                        let exp_ms :=
                          get_key_by_id key_id (pe_expiry_read_fails pe) db
                          ≫= k_expire_at_ms in
                        let base_ms := Z.max (default 0%Z exp_ms) (pe_now_ms pe) in
                        Some (base_ms + days_to_add * 86400000)%Z
                      else None in
                    let called :=
                      sent ++
                      [CreateOrUpdateKey
                         (mkProvisionArgs host_name candidate_email days_to_add
                            expiry_timestamp_ms traffic_limit_bytes
                            traffic_limit_strategy hwid_device_limit)] in
                    let (notes, how) :=
                      after_provision pe user_id action price key_id days_to_add in
                    mkRun db (called ++ notes) how
                end
      end
  end.
End Orchestrator.

(** ** Examples of orders *)

(** Conversions of strings that reject every string. *)
Definition no_float (s : string) : option Q := None.
Definition no_int (s : string) : option Z := None.

(** A card payment of 300 RUB for a new key, made through managed bot 3. *)
Definition metadata_example : Meta :=
  list_to_map
    [("action", JStr "new"); ("user_id", JNum 42); ("price", JNum 300);
     ("payment_id", JStr "p9"); ("payment_method", JStr "yookassa");
     ("factory_bot_id", JNum 3); ("months", JNum 1)].

(** An environment in which the panel answers with an error. *)
Definition pay_env_example : pay_env :=
  mkPayEnv (mkEnv 1 []) (mkEnv 2 []) None ∅ ∅ "42-1@bot.local" 1000
           (ProvisionRaised "request failed: 500 boom") [900%Z] false false.

(** A database in which payment [p9] was claimed. *)
Definition claimed_example : Db := set_processed (<["p9" := 1%Z]> ∅) empty_db.

(** An order for a plan of 45 days, with a month count of 3 on the plan. *)
Definition plan_example : plan_row := mkPlan (Some 3%Z) (Some 45%Z) None None None.

Definition metadata_plan_example : Meta :=
  list_to_map
    [("action", JStr "new"); ("user_id", JNum 42); ("price", JNum 300);
     ("payment_id", JStr "p10"); ("payment_method", JStr "balance");
     ("plan_id", JNum 5); ("months", JNum 1)].

Definition pay_env_plan_example : pay_env :=
  mkPayEnv (mkEnv 1 []) (mkEnv 2 []) None ∅ (<[5%Z := plan_example]> ∅)
           "42-1@bot.local" 1000
           (ProvisionReturned (Some (mkPayload "uuid-1" 5000 None))) [] false false.

(** The call that order makes. *)
Definition provision_args_example : provision_args :=
  mkProvisionArgs (JStr "") (Some "42-1@bot.local") 45 None (Some 0%Z) None (Some 0%Z).

(** ** Examples and predicates of the properties *)

Definition is_paid (p : string) (db : Db) : Prop :=
  exists r, pending_transactions db !! p = Some r /\ p_status r = paid.

Definition ledger_row_example : pending_row :=
  mkPending 42 (Some 300%Q) {["action" := JStr "new"]} pending 10 10.

Definition ledger_example : Db :=
  set_pending (<["p1" := ledger_row_example]> ∅) empty_db.

Definition paid_example : Db :=
  set_pending
    (<["p1" := mkPending 42 (Some 300%Q) {["action" := JStr "new"]} paid 10 20]> ∅)
    empty_db.

Definition users_example : Db := set_users (<[42%Z := Some 500%Q]> ∅) empty_db.

Definition ton_row_example : tx_row :=
  mkTx 42 "pending" 300 None None None
       (RawDict {["expected_amount_ton" := JNum 2%Q]}).

Definition ton_example : Db :=
  set_transactions (<["t1" := ton_row_example]> ∅) empty_db.

(** ** Further histories of the ledger *)

(** The database after a history of ledger calls. *)
Fixpoint run_ledger (calls : list (ledger_call * env)) (db : Db) : Db :=
  match calls with
  | [] => db
  | (c, e) :: rest => run_ledger rest (ledger_exec c e db)
  end.

(** Did the call complete payment [p]: [_complete_pending] returned [True],
    or [find_and_complete_pending_transaction] returned metadata? *)
Definition completed (p : string) (c : ledger_call) (e : env) (db : Db) : bool :=
  match c with
  | CallCreate _ _ _ _ => false
  | CallComplete payment_id =>
      bool_decide (strip payment_id = p) && (_complete_pending payment_id e db).1
  | CallFindAndComplete payment_id =>
      bool_decide (strip payment_id = p) &&
      bool_decide (is_Some (find_and_complete_pending_transaction payment_id e db).1)
  end.

(** The number of calls of a history that completed payment [p]. *)
Fixpoint completed_count (p : string) (calls : list (ledger_call * env)) (db : Db)
    : nat :=
  match calls with
  | [] => 0%nat
  | (c, e) :: rest =>
      ((if completed p c e db then 1 else 0) +
       completed_count p rest (ledger_exec c e db))%nat
  end.

(** The keys of a table are payment ids as the functions store them:
    trimmed and not empty. *)
Definition trimmed_keys {A : Type} (t : gmap string A) : Prop :=
  forall k, is_Some (t !! k) -> k <> "" /\ strip k = k.

(** ** More of the stored balance *)


(** [add_to_balance(user_id, amount)] *)
Definition add_to_balance (user_id : Z) (amount : Q) (e : env) (db : Db)
    : bool * Db :=
  match env_faults e with
  | _ :: _ => (false, db)
  | [] =>
      match users db !! user_id with
      | None => (false, db)
      | Some balance =>
          (true,
           set_users (<[user_id := Some (default 0%Q balance + amount)%Q]> (users db)) db)
      end
  end.

(** The calls that move a stored balance up or down. *)
Inductive balance_call : Type :=
| CallAdd (user_id : Z) (amount : Q)
| CallDeduct (user_id : Z) (amount : Q).

Definition balance_exec (c : balance_call) (e : env) (db : Db) : Db :=
  match c with
  | CallAdd user_id amount => (add_to_balance user_id amount e db).2
  | CallDeduct user_id amount => (deduct_from_balance user_id amount e db).2
  end.

Fixpoint run_balance (calls : list (balance_call * env)) (db : Db) : Db :=
  match calls with
  | [] => db
  | (c, e) :: rest => run_balance rest (balance_exec c e db)
  end.

(** A top-up by a negative amount is a deduction without a check. *)
Definition credit_only (c : balance_call) : Prop :=
  match c with
  | CallAdd _ amount => (0 <= amount)%Q
  | CallDeduct _ _ => True
  end.

(** No stored balance is below zero. *)
Definition balances_nonneg (db : Db) : Prop :=
  forall user_id balance,
    users db !! user_id = Some (Some balance) -> (0 <= balance)%Q.

(** ** The table of commissions *)

(** The pairs [(bot_id, payment_id)] of the rows. *)
Definition commission_keys (t : list commission_row) : list (Z * string) :=
  map (fun r => (c_bot_id r, c_payment_id r)) t.

(** What [accrue_partner_commission] lets into the table: one row for each
    pair, of a managed bot, with a payment id and a commission above zero. *)
Definition commissions_wf (t : list commission_row) : Prop :=
  NoDup (commission_keys t) /\
  Forall (fun r => (0 < c_bot_id r)%Z /\ c_payment_id r <> "" /\
                   (0 < c_commission_rub r)%Q) t.

(** ** TON transactions, from intent to completion *)

(** [create_pending_transaction(payment_id, user_id, amount_rub, metadata)].
    [metadata] is the dict after [metadata or {}]; [rowid] is the
    [transaction_id] SQLite gives a new row, which [lastrowid] reads. *)
Definition create_pending_transaction (payment_id : string) (user_id : Z)
    (amount_rub : Q) (metadata : Meta) (rowid : Z) (e : env) (db : Db) : Z * Db :=
  let pid := strip payment_id in
  if decide (pid = "") then (0%Z, db)
  else
    match env_faults e with
    | _ :: _ => (0%Z, db)
    | [] =>
        match transactions db !! pid with
        | Some _ => (0%Z, db)
        | None =>
            (rowid,
             set_transactions
               (<[pid := mkTx user_id "pending" amount_rub None None None
                              (RawDict metadata)]> (transactions db)) db)
        end
    end.

(** ** Counting the calls to the panel *)

Definition is_provision_call (a : action_out) : bool :=
  match a with
  | CreateOrUpdateKey _ => true
  | _ => false
  end.

(** The number of calls to the provisioning client in a run. *)
Definition provision_calls (r : run) : nat :=
  length (List.filter is_provision_call (run_actions r)).

(** The run went past the claim. *)
Definition past_claim (how : ending) : bool :=
  match how with
  | EndBadMetadata | EndRaised | EndMissingPaymentId | EndDuplicate => false
  | _ => true
  end.

(** The run ended at the provisioning: the call was made, and the run went
    on to the result or to the handling of the failure. *)
Definition at_provisioning (how : ending) : bool :=
  match how with
  | EndKeyCreationFailed | EndIssueError | EndProvisioned _ _ _ => true
  | _ => false
  end.

(** An order that extends key 1, and a database in which that key runs out
    at 5000 ms. *)
Definition metadata_extend_example : Meta :=
  list_to_map
    [("action", JStr "extend"); ("user_id", JNum 7); ("price", JNum 100);
     ("payment_id", JStr "p11"); ("payment_method", JStr "balance");
     ("key_id", JNum 1); ("months", JNum 1)].

Definition extend_db_example : Db :=
  set_keys (<[1%Z := mkKey 7 None (Some "u7@bot.local") (Some 5000%Z) MissingNull 0]> ∅)
           empty_db.

Definition provision_args_extend_example : provision_args :=
  mkProvisionArgs (JStr "") (Some "u7@bot.local") 30 (Some (5000 + 30 * 86400000)%Z)
                  None None None.

(** ** The partner cabinet and the withdrawals *)

Definition FRANCHISE_MIN_WITHDRAW_RUB : Q := 1500.

(** A row of [partner_withdraw_requests]; the [AUTOINCREMENT] id and
    [created_at] are not kept. *)
Record withdraw_row : Type := mkWithdraw {
  w_bot_id : Z;
  w_owner_telegram_id : Z;
  w_amount_rub : Q;
  w_status : option string;
  w_comment : option string;
  w_bank : option string;
  w_requisite_type : option string;
  w_requisite_value : option string;
  w_requisite_id : option Z
}.

(** The two tables of the franchise that are not in [Db]:
    [factory_user_activity], for its key [(bot_id, user_id)], and
    [partner_withdraw_requests]. *)
Record partner_tables : Type := mkPartner {
  factory_user_activity : list (Z * Z);
  partner_withdraw_requests : list withdraw_row
}.

(** The rows the three queries of [get_partner_cabinet] select. *)
Definition count_users (b : Z) (t : list (Z * Z)) : Z :=
  Z.of_nat (length (List.filter (fun a => (a.1 =? b)%Z) t)).

Definition commissions_of (b : Z) (t : list commission_row) : list commission_row :=
  List.filter (fun r => (c_bot_id r =? b)%Z) t.

Definition counted_status (s : option string) : bool :=
  match s with
  | Some s => bool_decide (s = "pending") || bool_decide (s = "approved") ||
              bool_decide (s = "paid")
  | None => false
  end.

Definition requests_of (b : Z) (t : list withdraw_row) : list withdraw_row :=
  List.filter (fun w => (w_bot_id w =? b)%Z && counted_status (w_status w)) t.

(** The dict [get_partner_cabinet] returns. *)
Record cabinet : Type := mkCabinet {
  total_users : Z;
  gross_paid_card : Q;
  commission_total : Q;
  commission_percent : Q;
  requested_withdraw : Q;
  available : Q
}.

(** The query of [get_partner_cabinet] that raises, if one does; a
    connection that fails is the first query failing. *)
Inductive cabinet_query : Type := QueryUsers | QueryCommissions | QueryWithdrawals.

(** What [create_withdraw_request] answers, beside the flag. *)
Inductive withdraw_reply : Type :=
| ReplyClonesOnly
| ReplyBelowMinimum
| ReplyInsufficient (available : Q)
| ReplyCreated
| ReplyError.

(** The order in which SQLite adds the values of a [REAL] column, and the
    rounding of its running sum, are not part of the program: [sql_sum]
    stands for [SUM] over the values of the selected rows, one at least. *)
Section Cabinet.
Context (sql_sum : list Q -> Q).

(** [COALESCE(SUM(column), 0)] *)
Definition coalesce_sum (l : list Q) : Q :=
  match l with
  | [] => 0%Q
  | _ => sql_sum l
  end.

(** [get_partner_cabinet(bot_id)]. The dict is filled query by query, so an
    exception leaves in it what the queries before it wrote. *)
Definition get_partner_cabinet (bot_id : Z) (fails : option cabinet_query)
    (pt : partner_tables) (db : Db) : cabinet :=
  let b := bot_id in
  let res := mkCabinet 0 0 0 FRANCHISE_PERCENT_DEFAULT 0 0 in
  if (b <=? 0)%Z then res
  else
    match fails with
    | Some QueryUsers => res
    | _ =>
        let users_ := count_users b (factory_user_activity pt) in
        match fails with
        | Some QueryCommissions =>
            mkCabinet users_ 0 0 FRANCHISE_PERCENT_DEFAULT 0 0
        | _ =>
            let rows := commissions_of b (partner_commissions db) in
            let gross := coalesce_sum (map c_amount_rub rows) in
            let total := coalesce_sum (map c_commission_rub rows) in
            match fails with
            | Some QueryWithdrawals =>
                mkCabinet users_ gross total FRANCHISE_PERCENT_DEFAULT 0 0
            | _ =>
                let requested :=
                  coalesce_sum
                    (map w_amount_rub (requests_of b (partner_withdraw_requests pt))) in
                mkCabinet users_ gross total FRANCHISE_PERCENT_DEFAULT requested
                          (py_max 0 (fsub total requested))
            end
        end
    end.

(** [create_withdraw_request(bot_id, owner_telegram_id, amount_rub, comment,
    bank=, requisite_type=, requisite_value=, requisite_id=)], for an
    integer [bot_id] and [owner_telegram_id] and a float [amount_rub], on
    which the conversions of the first lines do not raise. [cabinet_fails]
    is the failing query of the cabinet, [insert_fails] says that the
    [INSERT] raises. *)
Definition create_withdraw_request (bot_id owner_telegram_id : Z) (amount_rub : Q)
    (comment bank requisite_type requisite_value : option string)
    (requisite_id : option Z) (cabinet_fails : option cabinet_query)
    (insert_fails : bool) (pt : partner_tables) (db : Db)
    : (bool * withdraw_reply) * partner_tables :=
  let b := bot_id in
  let owner := owner_telegram_id in
  let amt := amount_rub in
  if (b <=? 0)%Z then ((false, ReplyClonesOnly), pt)
  else if Qlt_bool amt FRANCHISE_MIN_WITHDRAW_RUB then ((false, ReplyBelowMinimum), pt)
  else
    let stats := get_partner_cabinet b cabinet_fails pt db in
    let available_ := available stats in
    if Qlt_bool (fadd available_ (fl (1 # 1000000000))) amt
    then ((false, ReplyInsufficient available_), pt)
    else if insert_fails then ((false, ReplyError), pt)
    else
      ((true, ReplyCreated),
       mkPartner (factory_user_activity pt)
         (partner_withdraw_requests pt ++
            [mkWithdraw b owner amt (Some "pending") (or_none comment) (or_none bank)
                        (or_none requisite_type) (or_none requisite_value)
                        requisite_id])).
End Cabinet.

(** A [SUM] that adds the values in the order of the rows, as floats. *)
Definition sum_in_order (l : list Q) : Q := fold_left fadd l 0%Q.

Definition commissions_example : Db :=
  set_commissions
    [mkCommission 3 "p9" 42 10000 35 3500 (Some "yookassa") 2] empty_db.

Definition no_partner_rows : partner_tables := mkPartner [] [].

(** * Properties *)

(** ** [_retry_sqlite] *)

(** With at least one attempt, the retry loop either raises and leaves the
    database alone, or runs [work] once on it. *)
Lemma retry_sqlite_cases {A : Type} (none : A) (work : Db -> A * Db)
    (n : nat) (faults : list sql_fault) (db : Db) :
  (0 < n)%nat ->
  _retry_sqlite none work n faults db = (SqlError, db) \/
  _retry_sqlite none work n faults db = (SqlOk (work db).1, (work db).2).
Proof.
  revert faults. induction n as [|n IH]; intros faults Hn; [lia|].
  simpl. destruct faults as [|[|] fs].
  - right. by destruct (work db).
  - destruct n as [|n']; [by left|]. apply IH. lia.
  - by left.
Qed.

Lemma retry_sqlite_locked {A : Type} (none : A) (work : Db -> A * Db)
    (k n : nat) (db : Db) :
  (k < n)%nat ->
  _retry_sqlite none work n (repeat Locked k) db = (SqlOk (work db).1, (work db).2).
Proof.
  revert n. induction k as [|k IH]; intros n Hk.
  - destruct n as [|n]; [lia|]. simpl. by destruct (work db).
  - destruct n as [|[|n]]; [lia|lia|]. simpl repeat.
    change (_retry_sqlite none work (S (S n)) (Locked :: repeat Locked k) db)
      with (_retry_sqlite none work (S n) (repeat Locked k) db).
    apply IH. lia.
Qed.

Lemma retry_sqlite_storage_ok {A : Type} (none : A) (work : Db -> A * Db)
    (e : env) (db : Db) :
  storage_ok e ->
  _retry_sqlite none work attempts (env_faults e) db = (SqlOk (work db).1, (work db).2).
Proof. intros (k & Hk & ->). by apply retry_sqlite_locked. Qed.

Lemma storage_ok_no_fault now : storage_ok (mkEnv now []).
Proof. exists 0%nat. split; [unfold attempts; lia|done]. Qed.

(** ** Pending ledger *)

Lemma update_paid_spec pid now t :
  update_paid pid now t =
  match select_pending_metadata pid t with
  | Some _ => (1%nat, (update_paid pid now t).2)
  | None => (0%nat, t)
  end.
Proof.
  unfold update_paid, select_pending_metadata.
  destruct (t !! pid) as [r|]; [|done]. by destruct (p_status r).
Qed.

(** What a call of [find_and_complete_pending_transaction] does, by the row
    it finds. *)
Lemma find_and_complete_cases payment_id e db :
  let pid := strip payment_id in
  find_and_complete_pending_transaction payment_id e db = (None, db) \/
  exists r,
    pending_transactions db !! pid = Some r /\ p_status r = pending /\
    find_and_complete_pending_transaction payment_id e db =
      (Some (setdefault "payment_id" (JStr pid) (p_metadata r)),
       set_pending (<[pid := mkPending (p_user_id r) (p_amount_rub r)
                               (p_metadata r) paid (p_created_at r) (env_now e)]>
                      (pending_transactions db)) db).
Proof.
  intros pid. unfold find_and_complete_pending_transaction. fold pid.
  destruct (decide (pid = "")); [by left|].
  match goal with |- context [_retry_sqlite ?n ?w ?a ?f ?d] =>
    destruct (retry_sqlite_cases n w a f d) as [-> | ->]; [unfold attempts; lia| |] end;
    [by left|].
  unfold select_pending_metadata, update_paid.
  destruct (pending_transactions db !! pid) as [r|] eqn:Hr; simpl; [|by left].
  destruct (p_status r) eqn:Hs; simpl; [|by left].
  right. exists r. by rewrite Hs.
Qed.

Lemma create_payload_pending_cases payment_id user_id amount_rub metadata e db :
  let pid := strip payment_id in
  create_payload_pending payment_id user_id amount_rub metadata e db = (false, db) \/
  create_payload_pending payment_id user_id amount_rub metadata e db =
    (true, set_pending (upsert_pending pid user_id amount_rub metadata (env_now e)
                          (pending_transactions db)) db).
Proof.
  intros pid. unfold create_payload_pending. fold pid.
  destruct (decide (pid = "")); [by left|].
  match goal with |- context [_retry_sqlite ?n ?w ?a ?f ?d] =>
    destruct (retry_sqlite_cases n w a f d) as [-> | ->]; [unfold attempts; lia| |] end;
    [by left|by right].
Qed.

Lemma complete_pending_cases payment_id e db :
  let pid := strip payment_id in
  _complete_pending payment_id e db = (false, db) \/
  exists b, _complete_pending payment_id e db =
    (b, set_pending (update_paid pid (env_now e) (pending_transactions db)).2 db).
Proof.
  intros pid. unfold _complete_pending. fold pid.
  destruct (decide (pid = "")); [by left|].
  match goal with |- context [_retry_sqlite ?n ?w ?a ?f ?d] =>
    destruct (retry_sqlite_cases n w a f d) as [-> | ->]; [unfold attempts; lia| |] end;
    [by left|].
  right. destruct (update_paid pid (env_now e) (pending_transactions db)); simpl. eauto.
Qed.

(** A row that is paid stays as it is under the upsert and under the
    completing update. *)
Lemma upsert_pending_paid pid user_id amount_rub metadata now t id r :
  t !! id = Some r -> p_status r = paid ->
  upsert_pending pid user_id amount_rub metadata now t !! id = Some r.
Proof.
  intros Hr Hs. unfold upsert_pending.
  destruct (t !! pid) as [r'|] eqn:Hp.
  - destruct (p_status r') eqn:Hs'; [|done].
    rewrite lookup_insert_ne; [done|]. intros ->. congruence.
  - rewrite lookup_insert_ne; [done|]. intros ->. congruence.
Qed.

Lemma update_paid_paid pid now t id r :
  t !! id = Some r -> p_status r = paid ->
  (update_paid pid now t).2 !! id = Some r.
Proof.
  intros Hr Hs. unfold update_paid.
  destruct (t !! pid) as [r'|] eqn:Hp; [|done].
  destruct (p_status r') eqn:Hs'; [|done]. simpl.
  rewrite lookup_insert_ne; [done|]. intros ->. congruence.
Qed.

Lemma ledger_exec_keeps_paid c e db p :
  is_paid p db -> is_paid p (ledger_exec c e db).
Proof.
  intros (r & Hr & Hs). destruct c as [pid u a m | pid | pid]; simpl.
  - destruct (create_payload_pending_cases pid u a m e db) as [-> | ->]; simpl.
    + by exists r.
    + exists r. split; [|done]. by apply upsert_pending_paid.
  - destruct (complete_pending_cases pid e db) as [-> | [b ->]]; simpl.
    + by exists r.
    + exists r. split; [|done]. by apply update_paid_paid.
  - destruct (find_and_complete_cases pid e db) as [-> | (r' & Hr' & Hs' & ->)]; simpl.
    + by exists r.
    + exists r. split; [|done]. cbn [pending_transactions set_pending].
      rewrite lookup_insert_ne; [done|].
      intros Heq. rewrite Heq in Hr'. congruence.
Qed.

Lemma handed_out_paid p c e db :
  is_paid p db -> handed_out p c e db = None.
Proof.
  intros (r & Hr & Hs). destruct c as [| |pid]; simpl; try done.
  destruct (decide (strip pid = p)) as [<-|]; [|done].
  destruct (find_and_complete_cases pid e db) as [-> | (r' & Hr' & Hs' & _)]; [done|].
  congruence.
Qed.

Lemma handed_out_then_paid p c e db m :
  handed_out p c e db = Some m -> is_paid p (ledger_exec c e db).
Proof.
  destruct c as [| |pid]; simpl; try done.
  destruct (decide (strip pid = p)) as [<-|]; [|done].
  destruct (find_and_complete_cases pid e db) as [-> | (r' & Hr' & Hs' & ->)]; [done|].
  simpl. intros _. eexists. split; [apply lookup_insert_eq|done].
Qed.

Lemma completions_paid p calls db :
  is_paid p db -> completions p calls db = [].
Proof.
  revert db. induction calls as [|[c e] rest IH]; intros db Hp; [done|].
  simpl. rewrite (handed_out_paid _ _ _ _ Hp).
  apply IH. by apply ledger_exec_keeps_paid.
Qed.

Lemma completions_at_most_one p calls db :
  (length (completions p calls db) <= 1)%nat.
Proof.
  revert db. induction calls as [|[c e] rest IH]; intros db; simpl; [lia|].
  destruct (handed_out p c e db) as [m|] eqn:Hh; [|apply IH].
  rewrite completions_paid; [simpl; lia|].
  by eapply handed_out_then_paid.
Qed.

Lemma find_and_complete_no_fault payment_id e db r :
  strip payment_id <> "" ->
  storage_ok e ->
  pending_transactions db !! strip payment_id = Some r ->
  p_status r = pending ->
  (find_and_complete_pending_transaction payment_id e db).1 =
    Some (setdefault "payment_id" (JStr (strip payment_id)) (p_metadata r)).
Proof.
  intros Hne Hf Hr Hs. unfold find_and_complete_pending_transaction.
  destruct (decide (strip payment_id = "")); [done|].
  rewrite retry_sqlite_storage_ok by done. cbv beta.
  unfold select_pending_metadata, update_paid. rewrite Hr, Hs. simpl.
  by rewrite ?Hr, ?Hs.
Qed.

(** C1. Exactly-once completion. Along every history of ledger calls, from
    every database, at most one call of
    [find_and_complete_pending_transaction] for a payment id returns
    metadata; a call for an id whose row is paid or unknown returns [None]
    and changes nothing; a call that returns metadata found the row pending,
    returns the metadata that row held (with the [payment_id] default) and
    leaves the row paid; and when the row is pending and the attempts of the
    calls go through, any number of calls for the id, one at least, hand the
    metadata out exactly once. *)
Theorem find_and_complete_exactly_once (p : string) (db : Db) :
  (forall calls, (length (completions p calls db) <= 1)%nat)
  /\ (forall payment_id e,
        strip payment_id = p ->
        is_paid p db \/ pending_transactions db !! p = None ->
        find_and_complete_pending_transaction payment_id e db = (None, db))
  /\ (forall payment_id e m db',
        strip payment_id = p ->
        find_and_complete_pending_transaction payment_id e db = (Some m, db') ->
        exists r,
          pending_transactions db !! p = Some r /\ p_status r = pending /\
          m = setdefault "payment_id" (JStr p) (p_metadata r) /\
          is_paid p db')
  /\ (forall r (tries : list (string * env)),
        p <> "" ->
        pending_transactions db !! p = Some r -> p_status r = pending ->
        tries <> [] ->
        Forall (fun t => strip t.1 = p /\ storage_ok t.2) tries ->
        completions p (map (fun t => (CallFindAndComplete t.1, t.2)) tries) db =
          [setdefault "payment_id" (JStr p) (p_metadata r)]).
Proof.
  split; [intros calls; apply completions_at_most_one|].
  split; [|split].
  - intros payment_id e <- Hp.
    destruct (find_and_complete_cases payment_id e db)
      as [-> | (r & Hr & Hs & _)]; [done|].
    destruct Hp as [(r' & Hr' & Hs') | Hnone]; congruence.
  - intros payment_id e m db' <- Hcall.
    destruct (find_and_complete_cases payment_id e db)
      as [Hn | (r & Hr & Hs & Heq)]; [congruence|].
    rewrite Heq in Hcall. injection Hcall as <- <-.
    exists r. repeat split; try done.
    eexists. split; [apply lookup_insert_eq|done].
  - intros r tries Hne Hr Hs Hnil Hall.
    destruct tries as [|[id e] rest]; [done|].
    apply Forall_cons in Hall as [[Hid Hf] _]. simpl in Hid, Hf. subst p.
    simpl. destruct (decide (strip id = strip id)); [|done].
    rewrite (find_and_complete_no_fault id e db r) by done.
    f_equal. apply completions_paid.
    eapply (handed_out_then_paid _ (CallFindAndComplete id) e db). simpl.
    destruct (decide (strip id = strip id)); [|done].
    by apply find_and_complete_no_fault.
Qed.

Lemma find_and_complete_exactly_once_witness :
  completions "p1"
    (map (fun t : string * env => (CallFindAndComplete t.1, t.2))
       [("p1", mkEnv 20 []); (" p1 ", mkEnv 21 [])])
    ledger_example
  = [setdefault "payment_id" (JStr "p1") (p_metadata ledger_row_example)].
Proof.
  destruct (find_and_complete_exactly_once "p1" ledger_example) as (_ & _ & _ & H).
  apply H.
  - done.
  - reflexivity.
  - reflexivity.
  - done.
  - repeat constructor; apply storage_ok_no_fault.
Defined.

(** C4. No premature ledger revival. A call of [create_payload_pending]
    leaves every paid row as it is; when the row of its payment id is paid
    the whole database is unchanged; a row still pending gets the new owner,
    amount, metadata and [updated_at] and keeps its status and [created_at];
    rows of other payment ids are never touched. *)
Theorem create_payload_pending_no_revival
    (payment_id : string) (user_id : Z) (amount_rub : option Q)
    (metadata : Meta) (e : env) (db db' : Db) (ok : bool) :
  create_payload_pending payment_id user_id amount_rub metadata e db = (ok, db') ->
  (forall id r,
      pending_transactions db !! id = Some r -> p_status r = paid ->
      pending_transactions db' !! id = Some r)
  /\ (forall r,
        pending_transactions db !! strip payment_id = Some r ->
        p_status r = paid -> db' = db)
  /\ (forall r,
        pending_transactions db !! strip payment_id = Some r ->
        p_status r = pending -> ok = true ->
        pending_transactions db' !! strip payment_id =
          Some (mkPending user_id amount_rub metadata pending
                          (p_created_at r) (env_now e)))
  /\ (forall id,
        id <> strip payment_id ->
        pending_transactions db' !! id = pending_transactions db !! id).
Proof.
  intros Hcall.
  destruct (create_payload_pending_cases payment_id user_id amount_rub metadata e db)
    as [Heq | Heq]; rewrite Heq in Hcall; injection Hcall as <- <-.
  - repeat split; try done.
  - cbn [pending_transactions set_pending]. repeat split.
    + intros id r Hr Hs. by apply upsert_pending_paid.
    + intros r Hr Hs. unfold upsert_pending. rewrite Hr, Hs. by destruct db.
    + intros r Hr Hs _. unfold upsert_pending. rewrite Hr, Hs.
      by rewrite lookup_insert_eq.
    + intros id Hid. unfold upsert_pending.
      destruct (pending_transactions db !! strip payment_id) as [r|].
      * destruct (p_status r); [|done]. by rewrite lookup_insert_ne.
      * by rewrite lookup_insert_ne.
Qed.

Lemma create_payload_pending_no_revival_witness :
  (create_payload_pending "p1" 7 (Some 1%Q) ∅ (mkEnv 30 []) paid_example).2
  = paid_example.
Proof.
  destruct (create_payload_pending "p1" 7 (Some 1%Q) ∅ (mkEnv 30 []) paid_example)
    as [ok db'] eqn:Hcall.
  destruct (create_payload_pending_no_revival _ _ _ _ _ _ _ _ Hcall) as (_ & H & _).
  apply (H (mkPending 42 (Some 300%Q) {["action" := JStr "new"]} paid 10 20));
    reflexivity.
Defined.

(** ** Fulfillment guard *)

Lemma claim_cases payment_id e db :
  let pid := strip payment_id in
  claim_processed_payment payment_id e db = (false, db) \/
  (processed_payments db !! pid = None /\ pid <> "" /\
   claim_processed_payment payment_id e db =
     (true, set_processed (<[pid := env_now e]> (processed_payments db)) db)).
Proof.
  intros pid. unfold claim_processed_payment. fold pid.
  destruct (decide (pid = "")); [by left|].
  match goal with |- context [_retry_sqlite ?n ?w ?a ?f ?d] =>
    destruct (retry_sqlite_cases n w a f d) as [-> | ->]; [unfold attempts; lia| |] end;
    [by left|].
  unfold insert_or_ignore_processed.
  destruct (processed_payments db !! pid) as [t|] eqn:Ht; simpl.
  - left. by destruct db.
  - by right.
Qed.

(** A payment id that was claimed gets [false] and no change. *)
Lemma claim_taken payment_id e db t :
  processed_payments db !! strip payment_id = Some t ->
  claim_processed_payment payment_id e db = (false, db).
Proof.
  intros Ht. destruct (claim_cases payment_id e db) as [-> | (Hn & _)]; [done|].
  congruence.
Qed.

(** Claims never remove or change an entry of [processed_payments]. *)
Lemma claim_keeps payment_id e db p t :
  processed_payments db !! p = Some t ->
  processed_payments (claim_processed_payment payment_id e db).2 !! p = Some t.
Proof.
  intros Ht. destruct (claim_cases payment_id e db) as [-> | (Hn & _ & ->)]; [done|].
  cbn [snd processed_payments set_processed].
  rewrite lookup_insert_ne; [done|]. intros Heq. rewrite Heq in Hn. congruence.
Qed.

Lemma run_claims_keeps calls db p t :
  processed_payments db !! p = Some t ->
  processed_payments (run_claims calls db) !! p = Some t.
Proof.
  revert db. induction calls as [|[id e] rest IH]; intros db Ht; [done|].
  simpl. apply IH. by apply claim_keeps.
Qed.

(** C3. The guard claims exactly once. For a payment id that is not empty
    once trimmed and not yet in [processed_payments], a call whose attempts
    go through returns [True] and inserts the id; after it, and after any
    further history of claims, every call with the same id returns [False]
    and leaves the database as it is. *)
Theorem claim_processed_payment_exactly_once
    (payment_id : string) (e : env) (db : Db) :
  strip payment_id <> "" ->
  processed_payments db !! strip payment_id = None ->
  storage_ok e ->
  let db1 := set_processed
               (<[strip payment_id := env_now e]> (processed_payments db)) db in
  claim_processed_payment payment_id e db = (true, db1)
  /\ (forall calls payment_id' e',
        strip payment_id' = strip payment_id ->
        claim_processed_payment payment_id' e' (run_claims calls db1) =
          (false, run_claims calls db1)).
Proof.
  intros Hne Hfresh Hok db1. split.
  - unfold claim_processed_payment.
    destruct (decide (strip payment_id = "")); [done|].
    rewrite retry_sqlite_storage_ok by done. cbv beta.
    unfold insert_or_ignore_processed. by rewrite Hfresh.
  - intros calls payment_id' e' Hid.
    apply (claim_taken _ _ _ (env_now e)). rewrite Hid.
    apply run_claims_keeps. subst db1. cbn [processed_payments set_processed].
    apply lookup_insert_eq.
Qed.

Lemma claim_processed_payment_exactly_once_witness :
  claim_processed_payment "p2" (mkEnv 5 [Locked]) empty_db =
    (true, set_processed (<[strip "p2" := 5%Z]> ∅) empty_db)
  /\ claim_processed_payment " p2" (mkEnv 9 [])
       (run_claims [("p3", mkEnv 6 []); ("p2", mkEnv 7 [])]
          (set_processed (<[strip "p2" := 5%Z]> ∅) empty_db)) =
     (false, run_claims [("p3", mkEnv 6 []); ("p2", mkEnv 7 [])]
               (set_processed (<[strip "p2" := 5%Z]> ∅) empty_db)).
Proof.
  assert (Hok : storage_ok (mkEnv 5 [Locked])).
  { exists 1%nat. split; [unfold attempts; lia|reflexivity]. }
  destruct (claim_processed_payment_exactly_once "p2" (mkEnv 5 [Locked]) empty_db)
    as [H1 H2]; [done|reflexivity|exact Hok|].
  split; [exact H1|].
  apply (H2 [("p3", mkEnv 6 []); ("p2", mkEnv 7 [])] " p2" (mkEnv 9 [])).
  reflexivity.
Defined.

(** ** Partner commissions *)

Lemma has_commission_app b pid t r :
  has_commission b pid (t ++ [r]) =
  has_commission b pid t ||
    (bool_decide (c_bot_id r = b) && bool_decide (c_payment_id r = pid)).
Proof. unfold has_commission. rewrite existsb_app. simpl. by rewrite orb_false_r. Qed.

Lemma accrue_cases bot_id payment_id user_id amount_rub payment_method percent e db :
  accrue_partner_commission bot_id payment_id user_id amount_rub payment_method
    percent e db = (false, db) \/
  (has_commission bot_id (strip payment_id) (partner_commissions db) = false /\
   exists row,
     c_bot_id row = bot_id /\ c_payment_id row = strip payment_id /\
     accrue_partner_commission bot_id payment_id user_id amount_rub payment_method
       percent e db = (true, set_commissions (partner_commissions db ++ [row]) db)).
Proof.
  unfold accrue_partner_commission.
  repeat (match goal with
          | |- context [if ?c then _ else _] => destruct c eqn:?
          | |- context [match env_faults e with _ => _ end] => destruct (env_faults e)
          end; try (by left)).
  right. split; [done|]. eexists. split; [|split]; [| |reflexivity]; done.
Qed.

Lemma accrue_taken bot_id payment_id user_id amount_rub payment_method percent e db :
  has_commission bot_id (strip payment_id) (partner_commissions db) = true ->
  accrue_partner_commission bot_id payment_id user_id amount_rub payment_method
    percent e db = (false, db).
Proof.
  intros Hh.
  destruct (accrue_cases bot_id payment_id user_id amount_rub payment_method percent e db)
    as [-> | (Hn & _)]; [done|congruence].
Qed.

(** C7. Idempotent commission accrual. After a call of
    [accrue_partner_commission] that the storage did not fail, a second call
    with the same arguments returns [False] and leaves the database as the
    first call left it; and once a call has returned [True], every call for
    the same [(bot_id, payment_id)], whatever its other arguments, returns
    [False] and inserts nothing. *)
Theorem accrue_partner_commission_idempotent
    (bot_id : Z) (payment_id : string) (user_id : Z) (amount_rub : Q)
    (payment_method : option string) (percent : option Q) (e1 : env) (db : Db) :
  env_faults e1 = [] ->
  let first := accrue_partner_commission bot_id payment_id user_id amount_rub
                 payment_method percent e1 db in
  (forall e2,
      accrue_partner_commission bot_id payment_id user_id amount_rub
        payment_method percent e2 first.2 = (false, first.2))
  /\ (first.1 = true ->
      forall payment_id' user_id' amount_rub' payment_method' percent' e2,
        strip payment_id' = strip payment_id ->
        accrue_partner_commission bot_id payment_id' user_id' amount_rub'
          payment_method' percent' e2 first.2 = (false, first.2)).
Proof.
  intros Hf first. subst first.
  destruct (accrue_cases bot_id payment_id user_id amount_rub payment_method percent
              e1 db) as [Heq | (Hn & row & Hb & Hp & Heq)].
  - rewrite Heq. cbn [fst snd]. split; [|done].
    intros e2. revert Heq. unfold accrue_partner_commission. rewrite Hf.
    repeat (match goal with
            | |- context [if ?c then _ else _] => destruct c eqn:?
            end; try (by intros)).
  - rewrite Heq. cbn [fst snd]. split.
    + intros e2. apply accrue_taken. cbn [partner_commissions set_commissions].
      rewrite has_commission_app, Hb, Hp, !bool_decide_eq_true_2 by done.
      apply orb_true_r.
    + intros _ payment_id' user_id' amount_rub' payment_method' percent' e2 Hid.
      apply accrue_taken. cbn [partner_commissions set_commissions].
      rewrite has_commission_app, Hb, Hp, Hid, !bool_decide_eq_true_2 by done.
      apply orb_true_r.
Qed.

Lemma accrue_partner_commission_idempotent_witness :
  let first := accrue_partner_commission 3 "pay-1" 42 300 (Some "YooKassa") None
                 (mkEnv 50 []) empty_db in
  first.1 = true
  /\ accrue_partner_commission 3 " pay-1 " 43 500 (Some "platega") (Some 10%Q)
       (mkEnv 60 []) first.2 = (false, first.2).
Proof.
  intros first. split; [reflexivity|].
  destruct (accrue_partner_commission_idempotent 3 "pay-1" 42 300 (Some "YooKassa")
              None (mkEnv 50 []) empty_db) as [_ H]; [reflexivity|].
  apply H; reflexivity.
Defined.

(** ** Stored balance *)

Lemma Qlt_bool_iff x y : Qlt_bool x y = true <-> (x < y)%Q.
Proof.
  unfold Qlt_bool. rewrite negb_true_iff, <- not_true_iff_false, Qle_bool_iff.
  split; [apply Qnot_le_lt|apply Qlt_not_le].
Qed.

Lemma Qlt_bool_false_iff x y : Qlt_bool x y = false <-> (y <= x)%Q.
Proof.
  unfold Qlt_bool. by rewrite negb_false_iff, Qle_bool_iff.
Qed.



(** ** TON transactions *)

Lemma ton_tolerance_max exp_val :
  (fl (1 # 1000) <= ton_tolerance exp_val)%Q /\
  (fmul exp_val (fl (1 # 100)) <= ton_tolerance exp_val)%Q /\
  (ton_tolerance exp_val = fl (1 # 1000) \/
   ton_tolerance exp_val = fmul exp_val (fl (1 # 100))).
Proof.
  unfold ton_tolerance, py_max.
  destruct (Qlt_bool (fl (1 # 1000)) (fmul exp_val (fl (1 # 100)))) eqn:Hlt.
  - apply Qlt_bool_iff in Hlt. repeat split; [lra|lra|by right].
  - apply Qlt_bool_false_iff in Hlt. repeat split; [lra|lra|by left].
Qed.

(** C10. TON completion amount tolerance, in the arithmetic of the code. The
    difference [amount - expected] and the product [expected * 0.01] are
    floats, each the float nearest to the exact result, and [0.001] and
    [0.01] are the floats nearest to those numbers. For a pending TON
    transaction whose metadata gives an expected amount, the tolerance is
    the larger of [0.001] and that product; a call of
    [find_and_complete_ton_transaction] that returns metadata was given an
    amount whose difference from the expected one is within the tolerance,
    returns the metadata of the row (with the [payment_id] default) and
    leaves the row paid; a call without an amount, or with an amount whose
    difference is outside the tolerance, returns [None] and leaves the
    database as it was, the row still pending; and a call with an amount
    within the tolerance that the storage does not fail completes the
    transaction. *)
Theorem find_and_complete_ton_tolerance
    (float_of_str : string -> option Q) (payment_id : string)
    (amount_ton : option Q) (e : env) (db : Db)
    (row : tx_row) (meta : Meta) (exp_val : Q) :
  strip payment_id <> "" ->
  transactions db !! strip payment_id = Some row ->
  t_status row = "pending" ->
  load_meta (t_metadata row) = Some meta ->
  expected_amount_ton float_of_str meta = Some exp_val ->
  let call := find_and_complete_ton_transaction float_of_str payment_id amount_ton e db in
  let tol := ton_tolerance exp_val in
  ((fl (1 # 1000) <= tol)%Q /\ (fmul exp_val (fl (1 # 100)) <= tol)%Q /\
   (tol = fl (1 # 1000) \/ tol = fmul exp_val (fl (1 # 100))))
  /\ (forall m,
        call.1 = Returned (Some m) ->
        exists amt,
          amount_ton = Some amt /\ (Qabs (fsub amt exp_val) <= tol)%Q /\
          m = setdefault "payment_id" (JStr (strip payment_id)) meta /\
          t_status <$> transactions call.2 !! strip payment_id = Some "paid")
  /\ (amount_ton = None \/
      (exists amt, amount_ton = Some amt /\ (tol < Qabs (fsub amt exp_val))%Q) ->
      call = (Returned None, db))
  /\ (forall amt,
        amount_ton = Some amt -> (Qabs (fsub amt exp_val) <= tol)%Q ->
        env_faults e = [] ->
        call.1 = Returned (Some (setdefault "payment_id" (JStr (strip payment_id)) meta))).
Proof.
  intros Hne Hrow Hst Hmeta Hexp call tol.
  split; [apply ton_tolerance_max|].
  subst call. unfold find_and_complete_ton_transaction.
  destruct (decide (strip payment_id = "")); [done|].
  rewrite Hrow, Hmeta, Hexp, Hst. rewrite bool_decide_eq_true_2 by done.
  cbn [negb]. fold tol.
  split; [|split].
  - intros m. destruct (env_faults e); [|done].
    destruct amount_ton as [amt|]; [|done].
    destruct (Qlt_bool tol (Qabs (fsub amt exp_val))) eqn:Hlt; [done|].
    apply Qlt_bool_false_iff in Hlt. cbn [fst snd]. intros [= <-].
    exists amt. repeat split; try done.
    cbn [transactions set_transactions]. by rewrite lookup_insert_eq.
  - intros Hbad. destruct (env_faults e); [|done].
    destruct Hbad as [-> | (amt & -> & Hlt)]; [done|].
    apply Qlt_bool_iff in Hlt. by rewrite Hlt.
  - intros amt -> Hle ->. apply Qlt_bool_false_iff in Hle. by rewrite Hle.
Qed.

Lemma find_and_complete_ton_tolerance_witness :
  find_and_complete_ton_transaction (fun _ => None) "t1" (Some (5 # 2)%Q)
    (mkEnv 3 []) ton_example = (Returned None, ton_example)
  /\ (find_and_complete_ton_transaction (fun _ => None) "t1" (Some (fl (201 # 100)))
        (mkEnv 3 []) ton_example).1 =
     Returned (Some (setdefault "payment_id" (JStr (strip "t1"))
                       {["expected_amount_ton" := JNum 2%Q]})).
Proof.
  split.
  - refine (proj1 (proj2 (proj2 (find_and_complete_ton_tolerance (fun _ => None) "t1"
              (Some (5 # 2)%Q) (mkEnv 3 []) ton_example ton_row_example
              {["expected_amount_ton" := JNum 2%Q]} 2%Q _ _ _ _ _))) _);
      try reflexivity; [done|].
    right. exists (5 # 2)%Q. split; [reflexivity|]. vm_compute. reflexivity.
  - refine (proj2 (proj2 (proj2 (find_and_complete_ton_tolerance (fun _ => None) "t1"
              (Some (fl (201 # 100))) (mkEnv 3 []) ton_example ton_row_example
              {["expected_amount_ton" := JNum 2%Q]} 2%Q _ _ _ _ _))) _ _ _ _);
      try reflexivity; [done|].
    vm_compute. discriminate.
Defined.

(** At the edge of the tolerance the rounding decides. With 2 TON expected,
    the float nearest to 2.02 is refused: its difference from 2 is a float
    above the float nearest to 0.02. With the float nearest to 0.004
    expected, the float nearest to 0.005 is accepted: the difference rounds
    to the float nearest to 0.001, although the exact difference of the two
    floats is above one thousandth. *)
Lemma ton_tolerance_at_the_edge :
  let two := set_transactions
               (<["t1" := mkTx 42 "pending" 300 None None None
                            (RawDict {["expected_amount_ton" := JNum 2%Q]})]> ∅)
               empty_db in
  let small := set_transactions
                 (<["t1" := mkTx 42 "pending" 300 None None None
                              (RawDict {["expected_amount_ton" :=
                                           JNum (fl (4 # 1000))]})]> ∅)
                 empty_db in
  find_and_complete_ton_transaction (fun _ => None) "t1" (Some (fl (202 # 100)))
    (mkEnv 3 []) two = (Returned None, two)
  /\ (exists m,
        (find_and_complete_ton_transaction (fun _ => None) "t1"
           (Some (fl (5 # 1000))) (mkEnv 3 []) small).1 = Returned (Some m))
  /\ (1 # 1000 < fl (5 # 1000) - fl (4 # 1000))%Q.
Proof.
  intros two small. split; [|split].
  - vm_compute. reflexivity.
  - eexists. vm_compute. reflexivity.
  - vm_compute. reflexivity.
Qed.

(** ** Reconciliation of keys with the panel *)

Lemma delete_key_by_id_other key_id fails db k :
  k <> key_id ->
  vpn_keys (delete_key_by_id key_id fails db).2 !! k = vpn_keys db !! k.
Proof.
  intros Hk. unfold delete_key_by_id. destruct fails; [done|].
  destruct (vpn_keys db !! key_id); [|done].
  cbn [snd vpn_keys set_keys]. by rewrite lookup_delete_ne.
Qed.

Lemma update_key_missing_other key_id value now fails db k :
  k <> key_id ->
  vpn_keys (update_key_missing key_id value now fails db).2 !! k = vpn_keys db !! k.
Proof.
  intros Hk. unfold update_key_missing. destruct fails; [done|].
  destruct (vpn_keys db !! key_id); [|done].
  cbn [snd vpn_keys set_keys]. by rewrite lookup_insert_ne.
Qed.

(** A turn of the loop touches the row of its own key only. *)
Lemma sync_step_other se acc key k :
  k <> key.1 ->
  vpn_keys (sync_step se acc key).2 !! k = vpn_keys acc.2 !! k.
Proof.
  destruct acc as [removed db], key as [key_id row]. cbn [fst snd]. intros Hk.
  unfold sync_step.
  destruct (se_exists se key_id row); try done;
    destruct (key_id =? 0)%Z; try done.
  - destruct (missing_truthy _); [|done]. cbn [snd].
    by apply update_key_missing_other.
  - destruct (_parse_missing_dt _) as [t|].
    + destruct (grace <? se_now_dt se - t)%Z.
      * pose proof (delete_key_by_id_other key_id (se_write_fails se key_id) db k Hk) as H.
        destruct (delete_key_by_id key_id (se_write_fails se key_id) db). done.
      * cbn [snd]. by apply update_key_missing_other.
    + cbn [snd]. by apply update_key_missing_other.
Qed.

(** On the row it read, a turn of the loop does what [key_after] says. *)
Lemma sync_step_at se acc key_id row :
  vpn_keys acc.2 !! key_id = Some row ->
  vpn_keys (sync_step se acc (key_id, row)).2 !! key_id = key_after se key_id row.
Proof.
  destruct acc as [removed db]. cbn [fst snd]. intros Hrow.
  unfold sync_step, key_after.
  destruct (se_exists se key_id row); try done;
    destruct (key_id =? 0)%Z; try done; cbn [orb].
  - unfold update_key_missing.
    destruct (se_write_fails se key_id); [by destruct (missing_truthy _)|].
    destruct (missing_truthy _); [|done]. rewrite Hrow.
    cbn [snd vpn_keys set_keys]. by rewrite lookup_insert_eq.
  - unfold update_key_missing, delete_key_by_id.
    destruct (se_write_fails se key_id).
    { destruct (_parse_missing_dt _) as [t|]; [|done].
      by destruct (grace <? se_now_dt se - t)%Z. }
    rewrite Hrow.
    destruct (_parse_missing_dt _) as [t|].
    + destruct (grace <? se_now_dt se - t)%Z; cbn [snd vpn_keys set_keys].
      * by rewrite lookup_delete_eq.
      * by rewrite lookup_insert_eq.
    + cbn [snd vpn_keys set_keys]. by rewrite lookup_insert_eq.
Qed.

Lemma sync_fold_other se (l : list (Z * key_row)) acc k :
  k ∉ l.*1 ->
  vpn_keys (fold_left (sync_step se) l acc).2 !! k = vpn_keys acc.2 !! k.
Proof.
  revert acc. induction l as [|key l IH]; intros acc Hk; [done|].
  rewrite fmap_cons, not_elem_of_cons in Hk. destruct Hk as [Hk1 Hk2].
  simpl. rewrite IH by done. by apply sync_step_other.
Qed.

Lemma sync_fold_at se (l : list (Z * key_row)) acc k row :
  NoDup l.*1 -> (k, row) ∈ l ->
  vpn_keys acc.2 !! k = Some row ->
  vpn_keys (fold_left (sync_step se) l acc).2 !! k = key_after se k row.
Proof.
  revert acc. induction l as [|[k1 r1] l IH]; intros acc Hnd Hin Hrow.
  { by apply elem_of_nil in Hin. }
  rewrite fmap_cons, NoDup_cons in Hnd. destruct Hnd as [Hk1 Hnd].
  apply elem_of_cons in Hin as [[= -> ->] | Hin]; simpl.
  - rewrite sync_fold_other by done. by apply sync_step_at.
  - assert (k <> k1) as Hne.
    { intros ->. apply Hk1. apply list_elem_of_fmap. by exists (k1, row). }
    apply IH; [done|done|]. by rewrite sync_step_other.
Qed.

(** A pass, row by row: the keys of the user go through [key_after], the
    other rows stay. *)
Lemma sync_lookup user_id se db k :
  vpn_keys (sync_user_keys_with_remnawave user_id se db).2 !! k =
  match vpn_keys db !! k with
  | Some row => if decide (k_user_id row = user_id) then key_after se k row else Some row
  | None => None
  end.
Proof.
  unfold sync_user_keys_with_remnawave, get_user_keys.
  destruct (vpn_keys db !! k) as [row|] eqn:Hrow.
  - destruct (decide (k_user_id row = user_id)) as [Hu|Hu].
    + apply sync_fold_at; [| |done].
      * eapply sublist_NoDup; [apply (NoDup_fst_map_to_list (vpn_keys db))|].
        apply fmap_sublist, sublist_filter.
      * apply list_elem_of_filter. split; [done|]. by apply elem_of_map_to_list.
    + rewrite sync_fold_other; [done|].
      intros Hin. apply list_elem_of_fmap in Hin as ([k' r'] & -> & Hin).
      apply list_elem_of_filter in Hin as [Hu' Hin].
      apply elem_of_map_to_list in Hin. simpl in *. congruence.
  - rewrite sync_fold_other; [done|].
    intros Hin. apply list_elem_of_fmap in Hin as ([k' r'] & -> & Hin).
    apply list_elem_of_filter in Hin as [_ Hin].
    apply elem_of_map_to_list in Hin. simpl in *. congruence.
Qed.

Lemma stamp_us_mono (a b : Z) : (a <= b)%Z -> (stamp_us a <= stamp_us b)%Z.
Proof.
  intros Hab. unfold stamp_us, second_us.
  apply Z.mul_le_mono_nonneg_r; [lia|]. apply Z.div_le_mono; lia.
Qed.

Lemma stamp_us_le (a : Z) : (stamp_us a <= a)%Z.
Proof.
  unfold stamp_us, second_us.
  pose proof (Z.mul_div_le a 1000000). lia.
Qed.

Lemma stamp_us_near (a : Z) : (a - stamp_us a < second_us)%Z.
Proof.
  unfold stamp_us, second_us.
  pose proof (Z.div_mod a 1000000 ltac:(lia)).
  pose proof (Z.mod_pos_bound a 1000000 ltac:(lia)). lia.
Qed.

Lemma key_after_user se k row row' :
  key_after se k row = Some row' -> k_user_id row' = k_user_id row.
Proof.
  unfold key_after.
  destruct (se_exists se k row); destruct ((k =? 0)%Z || se_write_fails se k);
    try (by intros [= <-]).
  - destruct (missing_truthy _); by intros [= <-].
  - destruct (_parse_missing_dt _) as [t|]; [|by intros [= <-]].
    destruct (grace <? se_now_dt se - t)%Z; [done|by intros [= <-]].
Qed.

(** Inside the window no pass deletes the key, and every mark it leaves was
    written inside the window. *)
Lemma key_after_in_window T se k row :
  in_window T se -> marked_since T row ->
  exists row', key_after se k row = Some row' /\ marked_since T row'.
Proof.
  intros [Hlo Hhi] Hm. unfold key_after.
  assert (marked_since T (mkKey (k_user_id row) (k_email row) (k_key_email row) (k_expire_at_ms row)
                                (MissingStamp (stamp_us (se_now_dt se)))
                                (se_write_now se k))) as Hnew.
  { unfold marked_since. simpl. by apply stamp_us_mono. }
  destruct (se_exists se k row); destruct ((k =? 0)%Z || se_write_fails se k);
    eauto.
  - destruct (missing_truthy _); [|eauto].
    eexists. split; [reflexivity|]. by unfold marked_since.
  - unfold marked_since in Hm.
    destruct (_parse_missing_dt _) as [t|]; [|eauto].
    assert ((grace <? se_now_dt se - t)%Z = false) as -> by lia. eauto.
Qed.

Lemma sync_in_window user_id T se k db row :
  in_window T se ->
  vpn_keys db !! k = Some row -> marked_since T row ->
  exists row',
    vpn_keys (sync_user_keys_with_remnawave user_id se db).2 !! k = Some row' /\
    marked_since T row' /\ k_user_id row' = k_user_id row.
Proof.
  intros Hw Hrow Hm. rewrite sync_lookup, Hrow.
  destruct (decide (k_user_id row = user_id)); [|eauto].
  destruct (key_after_in_window T se k row Hw Hm) as (row' & Hk & Hm').
  exists row'. repeat split; try done. by eapply key_after_user.
Qed.

Lemma run_syncs_in_window user_id T passes k db row :
  Forall (in_window T) passes ->
  vpn_keys db !! k = Some row -> marked_since T row ->
  exists row',
    vpn_keys (run_syncs user_id passes db) !! k = Some row' /\
    marked_since T row' /\ k_user_id row' = k_user_id row.
Proof.
  revert db row. induction passes as [|se rest IH]; intros db row Hall Hrow Hm.
  { simpl. eauto. }
  apply Forall_cons in Hall as [Hse Hall]. simpl.
  destruct (sync_in_window user_id T se k db row Hse Hrow Hm) as (r1 & H1 & Hm1 & Hu1).
  destruct (IH _ _ Hall H1 Hm1) as (r2 & H2 & Hm2 & Hu2).
  exists r2. repeat split; try done. congruence.
Qed.

Lemma run_syncs_app user_id l1 l2 db :
  run_syncs user_id (l1 ++ l2) db = run_syncs user_id l2 (run_syncs user_id l1 db).
Proof. revert db. induction l1 as [|se l1 IH]; intros db; [done|]. simpl. apply IH. Qed.

(** A key that is gone stays gone. *)
Lemma run_syncs_absent user_id passes k db :
  vpn_keys db !! k = None -> vpn_keys (run_syncs user_id passes db) !! k = None.
Proof.
  revert db. induction passes as [|se rest IH]; intros db Hk; [done|].
  simpl. apply IH. by rewrite sync_lookup, Hk.
Qed.

Lemma sync_missing_report user_id se db k row :
  vpn_keys db !! k = Some row -> k_user_id row = user_id -> k <> 0%Z ->
  reports se k ExistsFalse -> se_write_fails se k = false ->
  vpn_keys (sync_user_keys_with_remnawave user_id se db).2 !! k =
    match _parse_missing_dt (k_missing_from_server_at row) with
    | Some s =>
        if (grace <? se_now_dt se - s)%Z then None else Some (restamped se k row)
    | None => Some (restamped se k row)
    end.
Proof.
  intros Hrow Hu Hk0 Hrep Hw. rewrite sync_lookup, Hrow.
  destruct (decide (k_user_id row = user_id)); [|done].
  unfold key_after. rewrite (Hrep row), Hw.
  assert ((k =? 0)%Z = false) as -> by lia. done.
Qed.

Lemma sync_present_report user_id se db k row :
  vpn_keys db !! k = Some row -> k_user_id row = user_id -> k <> 0%Z ->
  reports se k ExistsTrue -> se_write_fails se k = false ->
  exists row',
    vpn_keys (sync_user_keys_with_remnawave user_id se db).2 !! k = Some row' /\
    k_missing_from_server_at row' = MissingNull.
Proof.
  intros Hrow Hu Hk0 Hrep Hw. rewrite sync_lookup, Hrow.
  destruct (decide (k_user_id row = user_id)); [|done].
  unfold key_after. rewrite (Hrep row), Hw.
  assert ((k =? 0)%Z = false) as -> by lia. cbn [orb].
  destruct (k_missing_from_server_at row) eqn:Hm; simpl; eauto.
Qed.

Lemma sync_first_missing user_id se db k row :
  vpn_keys db !! k = Some row -> k_user_id row = user_id ->
  _parse_missing_dt (k_missing_from_server_at row) = None ->
  exists row',
    vpn_keys (sync_user_keys_with_remnawave user_id se db).2 !! k = Some row' /\
    marked_since (se_now_dt se) row' /\ k_user_id row' = user_id.
Proof.
  intros Hrow Hu Hun.
  destruct (sync_in_window user_id (se_now_dt se) se k db row) as (r & Hr & Hm & Hu');
    [| done | | ].
  - split; [lia|]. pose proof (stamp_us_near (se_now_dt se)).
    unfold grace, second_us in *. lia.
  - unfold marked_since. by rewrite Hun.
  - exists r. repeat split; try done. congruence.
Qed.

(** C6, as the specification states it, fails: reports of a missing key at
    T, T + 12 h and T + 25 h, every check of the key from T to past the
    grace window, leave the row in place, because each report that finds a
    mark younger than 24 hours moves the mark to its own time. *)
Lemma reconciliation_continuous_missing_not_deleted :
  is_Some (vpn_keys (run_syncs 7 [all_missing_at 0;
                                  all_missing_at (12 * hour_us);
                                  all_missing_at (25 * hour_us)] keys_example) !! 1%Z).
Proof. vm_compute. eexists. reflexivity. Qed.

(** C6 (amended). Reconciliation hysteresis of
    [sync_user_keys_with_remnawave], for a key of the user with a non-zero
    id.
    - After a report that the key is missing, through any passes made within
      24 hours of the mark that report wrote, the row is never deleted, and a
      pass that then reports the key present clears the mark.
    - A pass that reports the key missing and can write deletes the row when
      the stored mark is more than 24 hours older than the pass, and sets the
      mark to its own time otherwise.
    - A report of a missing key that comes more than 24 hours after the
      mark of the previous one, with no pass in between, deletes the row; a
      deleted row stays deleted through all later passes.
    - A check that fails or gives no answer leaves the row as it is. *)
Theorem reconciliation_hysteresis (user_id k : Z) (db : Db) (row : key_row) :
  vpn_keys db !! k = Some row ->
  k_user_id row = user_id ->
  k <> 0%Z ->
  (forall se1 mid se2,
      _parse_missing_dt (k_missing_from_server_at row) = None ->
      reports se1 k ExistsFalse ->
      Forall (in_window (se_now_dt se1)) (mid ++ [se2]) ->
      reports se2 k ExistsTrue -> se_write_fails se2 k = false ->
      (forall n, is_Some (vpn_keys (run_syncs user_id (take n (se1 :: mid ++ [se2])) db) !! k))
      /\ exists row',
           vpn_keys (run_syncs user_id (se1 :: mid ++ [se2]) db) !! k = Some row' /\
           k_missing_from_server_at row' = MissingNull)
  /\ (forall se,
        reports se k ExistsFalse -> se_write_fails se k = false ->
        vpn_keys (sync_user_keys_with_remnawave user_id se db).2 !! k =
          match _parse_missing_dt (k_missing_from_server_at row) with
          | Some s =>
              if (grace <? se_now_dt se - s)%Z then None
              else Some (restamped se k row)
          | None => Some (restamped se k row)
          end)
  /\ (forall se1 se2 later,
        _parse_missing_dt (k_missing_from_server_at row) = None ->
        reports se1 k ExistsFalse -> se_write_fails se1 k = false ->
        reports se2 k ExistsFalse -> se_write_fails se2 k = false ->
        (grace < se_now_dt se2 - stamp_us (se_now_dt se1))%Z ->
        vpn_keys (run_syncs user_id [se1] db) !! k = Some (restamped se1 k row) /\
        vpn_keys (run_syncs user_id (se1 :: se2 :: later) db) !! k = None)
  /\ (forall se,
        reports se k ExistsUnknown \/ reports se k CheckRaised ->
        vpn_keys (sync_user_keys_with_remnawave user_id se db).2 !! k = Some row).
Proof.
  intros Hrow Hu Hk0. split; [|split; [|split]].
  - intros se1 mid se2 Hun Hrep1 Hwin Hrep2 Hw2.
    destruct (sync_first_missing user_id se1 db k row Hrow Hu Hun)
      as (r1 & Hr1 & Hm1 & Hu1).
    split.
    + intros [|n]; [simpl; by rewrite Hrow|].
      cbn [take run_syncs].
      destruct (run_syncs_in_window user_id (se_now_dt se1)
                  (take n (mid ++ [se2])) k
                  (sync_user_keys_with_remnawave user_id se1 db).2 r1)
        as (r & Hr & _); [|done|done|].
      * by apply Forall_take.
      * by rewrite Hr.
    + cbn [run_syncs]. rewrite run_syncs_app.
      apply Forall_app in Hwin as [Hmid _].
      destruct (run_syncs_in_window user_id (se_now_dt se1) mid k
                  (sync_user_keys_with_remnawave user_id se1 db).2 r1 Hmid Hr1 Hm1)
        as (rm & Hrm & _ & Hum).
      cbn [run_syncs].
      apply (sync_present_report user_id se2 _ k rm); try done. congruence.
  - intros se Hrep Hw. by apply sync_missing_report.
  - intros se1 se2 later Hun Hrep1 Hw1 Hrep2 Hw2 Hlate.
    assert (vpn_keys (sync_user_keys_with_remnawave user_id se1 db).2 !! k =
              Some (restamped se1 k row)) as H1.
    { rewrite (sync_missing_report user_id se1 db k row) by done. by rewrite Hun. }
    split; [exact H1|].
    cbn [run_syncs]. apply run_syncs_absent.
    rewrite (sync_missing_report user_id se2 _ k (restamped se1 k row)) by done.
    cbn [restamped k_missing_from_server_at _parse_missing_dt].
    assert ((grace <? se_now_dt se2 - stamp_us (se_now_dt se1))%Z = true) as -> by lia.
    done.
  - intros se Hrep. rewrite sync_lookup, Hrow.
    destruct (decide (k_user_id row = user_id)); [|done].
    unfold key_after. by destruct Hrep as [Hrep | Hrep]; rewrite (Hrep row).
Qed.

Lemma reconciliation_hysteresis_witness :
  (exists row',
      vpn_keys (run_syncs 7 (all_missing_at 0 :: [] ++ [all_present_at hour_us])
                  keys_example) !! 1%Z = Some row' /\
      k_missing_from_server_at row' = MissingNull)
  /\ vpn_keys (run_syncs 7 [all_missing_at 0; all_missing_at (25 * hour_us)]
                 keys_example) !! 1%Z = None.
Proof.
  destruct (reconciliation_hysteresis 7 1 keys_example key_row_example)
    as (H1 & _ & H3 & _); [reflexivity|reflexivity|lia|].
  split.
  - apply H1; try done.
    simpl. constructor; [|constructor].
    split; vm_compute; discriminate.
  - apply H3; done.
Defined.

(** ** Text helpers *)

Lemma lstrip_idem s : lstrip (lstrip s) = lstrip s.
Proof.
  induction s as [|c r IH]; [done|]. simpl.
  destruct (is_space c) eqn:Hc; [done|]. simpl. by rewrite Hc.
Qed.

Lemma rstrip_idem s : rstrip (rstrip s) = rstrip s.
Proof.
  induction s as [|c r IH]; [done|]. simpl.
  destruct (rstrip r) as [|a r'] eqn:Hr.
  - destruct (is_space c) eqn:Hc; [done|]. simpl. by rewrite Hc.
  - change (rstrip (String c (String a r'))) with
      (match rstrip (String a r') with
       | EmptyString => if is_space c then EmptyString else String c EmptyString
       | x => String c x
       end).
    by rewrite IH.
Qed.

Lemma lstrip_rstrip s : lstrip (rstrip (lstrip s)) = rstrip (lstrip s).
Proof.
  destruct (lstrip s) as [|c r] eqn:Hs; [done|].
  assert (is_space c = false) as Hc.
  { clear -Hs. induction s as [|a s IH]; [done|]. revert Hs. simpl.
    destruct (is_space a) eqn:Ha; [exact IH|]. by intros [= <- _]. }
  simpl. destruct (rstrip r); rewrite ?Hc; simpl; by rewrite ?Hc.
Qed.

Lemma strip_idem s : strip (strip s) = strip s.
Proof. unfold strip. by rewrite lstrip_rstrip, rstrip_idem. Qed.

(** ** Fulfillment of a paid order *)

Lemma payment_id_of_stripped metadata payment_id :
  payment_id_of metadata = Some payment_id -> strip payment_id = payment_id.
Proof.
  unfold payment_id_of. repeat case_match; try done; intros [= <-]; apply strip_idem.
Qed.

(** C2. Duplicate fulfillment is a no-op. When the claim of the payment id
    of the metadata returns [False], and so whenever that id is already in
    [processed_payments], [process_successful_payment] returns with the
    database as it was and without a single action outside it: no message,
    no provisioning call. *)
Theorem duplicate_fulfillment_is_noop
    (float_of_str : string -> option Q) (int_of_str : string -> option Z)
    (pe : pay_env) (metadata : Meta) (db : Db) (payment_id : string) :
  payment_id_of metadata = Some payment_id ->
  (claim_processed_payment payment_id (pe_claim pe) db).1 = false \/
  is_Some (processed_payments db !! payment_id) ->
  let r := process_successful_payment float_of_str int_of_str pe metadata db in
  run_db r = db /\ run_actions r = [] /\
  (run_end r = EndDuplicate \/ run_end r = EndBadMetadata \/
   run_end r = EndMissingPaymentId).
Proof.
  intros Hpid Hdup r.
  assert (claim_processed_payment payment_id (pe_claim pe) db = (false, db)) as Hclaim.
  { destruct Hdup as [Hfalse | [t Ht]].
    - destruct (claim_cases payment_id (pe_claim pe) db) as [-> | (_ & _ & Heq)];
        [done|]. rewrite Heq in Hfalse. done.
    - apply (claim_taken _ _ _ t). by rewrite (payment_id_of_stripped metadata). }
  subst r. unfold process_successful_payment. rewrite Hpid, Hclaim.
  repeat case_match; simpl in *; try discriminate; auto.
Qed.

Lemma key_creation_failure_no_call admin_ids user_id action price key_id exc a :
  ~ In (CreateOrUpdateKey a)
       (key_creation_failure admin_ids user_id action price key_id exc).1.
Proof.
  unfold key_creation_failure.
  destruct (_format_key_action_label action (Some price) key_id) as [label|].
  - destruct (_classify_key_creation_error (Some exc)) as [[code description] detail].
    cbn [fst]. rewrite !in_app_iff, in_map_iff. simpl.
    intros [[H|[H|[]]] | [(aid & H & _) | [H|[]]]]; discriminate.
  - simpl. intros [H|[]]; discriminate.
Qed.

Lemma after_provision_no_call pe user_id action price key_id days_to_add a :
  ~ In (CreateOrUpdateKey a)
       (after_provision pe user_id action price key_id days_to_add).1.
Proof.
  unfold after_provision.
  destruct (pe_provision pe) as [exc|[p|]];
    [apply key_creation_failure_no_call|simpl; tauto|].
  destruct (json_is_str action "gift"); [simpl; tauto|].
  apply key_creation_failure_no_call.
Qed.

(** A run that calls the provisioning client: what came before the call,
    and what the run is from there. *)
Lemma provisioning_call_inv
    (float_of_str : string -> option Q) (int_of_str : string -> option Z)
    (pe : pay_env) (metadata : Meta) (db : Db) (args : provision_args) :
  let r := process_successful_payment float_of_str int_of_str pe metadata db in
  In (CreateOrUpdateKey args) (run_actions r) ->
  exists user_id price payment_id before,
    py_int int_of_str (dict_get "user_id" metadata) = Some user_id /\
    py_float float_of_str (dict_get "price" metadata) = Some price /\
    payment_id_of metadata = Some payment_id /\
    (claim_processed_payment payment_id (pe_claim pe) db).1 = true /\
    run_db r =
      accrue_for_payment int_of_str pe metadata payment_id user_id price
        (claim_processed_payment payment_id (pe_claim pe) db).2 /\
    pa_days_to_add args =
      resolve_days_to_add (order_plan_months int_of_str pe metadata)
        (order_plan_days int_of_str pe metadata)
        (order_months int_of_str metadata)
        (order_duration_days int_of_str metadata) /\
    (forall a, ~ In (CreateOrUpdateKey a) before) /\
    let tail :=
      after_provision pe user_id (dict_get "action" metadata) price
        (_to_int int_of_str (dict_get "key_id" metadata) 0) (pa_days_to_add args) in
    run_actions r = before ++ CreateOrUpdateKey args :: tail.1 /\
    run_end r = tail.2.
Proof.
  intros r. subst r. unfold process_successful_payment.
  destruct (py_int int_of_str (dict_get "user_id" metadata)) as [user_id|];
    [|by destruct (py_float _ _)].
  destruct (py_float float_of_str (dict_get "price" metadata)) as [price|]; [|done].
  destruct (payment_id_of metadata) as [payment_id|]; [|done].
  destruct (decide (payment_id = "")); [done|].
  destruct (claim_processed_payment payment_id (pe_claim pe) db)
    as [claimed db1] eqn:Hclaim.
  destruct claimed; [|done]. cbn [negb].
  set (deleted := if json_truthy (dict_get "chat_id" metadata) &&
                     json_truthy (dict_get "message_id" metadata)
                  then _ else _).
  assert (forall a, ~ In (CreateOrUpdateKey a) deleted) as Hdel.
  { intros a. subst deleted. destruct (_ && _); simpl; [|tauto].
    intros [H|[]]; discriminate. }
  destruct (json_is_str (dict_get "action" metadata) "top_up").
  { simpl. intros Hin. by apply Hdel in Hin. }
  set (sent := deleted ++ [_]).
  assert (forall a, ~ In (CreateOrUpdateKey a) sent) as Hsent.
  { intros a. subst sent. rewrite in_app_iff. simpl.
    intros [H | [H|[]]]; [by apply Hdel in H|discriminate]. }
  match goal with |- context [match ?c with Some _ => _ | None => _ end] =>
    destruct c as [candidate_email|] end.
  2:{ simpl. rewrite in_app_iff. simpl.
      intros [H | [H|[]]]; [by apply Hsent in H|discriminate]. }
  destruct (plan_limits _) as [[traffic_limit_bytes traffic_limit_strategy] hwid].
  match goal with |- context [after_provision ?a ?b ?c ?d ?e ?f] =>
    pose proof (after_provision_no_call a b c d e f) as Htail;
    destruct (after_provision a b c d e f) as [notes how] eqn:Hafter end.
  cbn [run_actions run_db run_end fst snd] in *.
  rewrite <- !app_assoc. rewrite !in_app_iff. simpl.
  intros [H | [[H|[]] | H]]; [by apply Hsent in H| |by apply Htail in H].
  injection H as H. subst args. cbn [pa_days_to_add].
  exists user_id, price, payment_id, sent. rewrite Hclaim.
  repeat split; try done.
  all: unfold order_plan_months, order_plan_days, order_plan, order_months,
         order_duration_days in *; try by rewrite Hafter.
Qed.

Lemma duplicate_fulfillment_is_noop_witness :
  let r := process_successful_payment no_float no_int pay_env_example
             metadata_example claimed_example in
  run_db r = claimed_example /\ run_actions r = [] /\
  (run_end r = EndDuplicate \/ run_end r = EndBadMetadata \/
   run_end r = EndMissingPaymentId).
Proof.
  apply (duplicate_fulfillment_is_noop no_float no_int pay_env_example
           metadata_example claimed_example "p9").
  - reflexivity.
  - left. reflexivity.
Defined.

(** The claim and the commission leave the other tables alone. *)
Lemma claim_frame payment_id e db :
  let db' := (claim_processed_payment payment_id e db).2 in
  pending_transactions db' = pending_transactions db /\
  transactions db' = transactions db /\ users db' = users db /\
  partner_commissions db' = partner_commissions db /\ vpn_keys db' = vpn_keys db.
Proof.
  intros db'. subst db'.
  by destruct (claim_cases payment_id e db) as [-> | (_ & _ & ->)].
Qed.

Lemma accrue_frame bot_id payment_id user_id amount_rub payment_method percent e db :
  let db' := (accrue_partner_commission bot_id payment_id user_id amount_rub
                payment_method percent e db).2 in
  pending_transactions db' = pending_transactions db /\
  processed_payments db' = processed_payments db /\
  transactions db' = transactions db /\ users db' = users db /\
  vpn_keys db' = vpn_keys db.
Proof.
  intros db'. subst db'.
  by destruct (accrue_cases bot_id payment_id user_id amount_rub payment_method
                 percent e db) as [-> | (_ & row & _ & _ & ->)].
Qed.

Lemma accrue_for_payment_frame int_of_str pe metadata payment_id user_id price db :
  let db' := accrue_for_payment int_of_str pe metadata payment_id user_id price db in
  pending_transactions db' = pending_transactions db /\
  processed_payments db' = processed_payments db /\
  transactions db' = transactions db /\ users db' = users db /\
  vpn_keys db' = vpn_keys db.
Proof.
  intros db'. subst db'. unfold accrue_for_payment.
  repeat case_match; try done; apply accrue_frame.
Qed.

(** C5, as the specification states it, fails: a card payment made through
    a managed bot has its partner commission recorded right after the claim,
    before the provisioning client is called, and the failure of the
    provisioning leaves that row in [partner_commissions]. *)
Lemma provisioning_failure_keeps_commission :
  let r := process_successful_payment no_float no_int pay_env_example
             metadata_example empty_db in
  run_end r = EndKeyCreationFailed /\
  partner_commissions empty_db = [] /\
  partner_commissions (run_db r) =
    [mkCommission 3 "p9" 42 300 35 (round2 (300 * 35 / 100)) (Some "yookassa") 2].
Proof. vm_compute. repeat split. Qed.

(** C5 (amended). Provisioning-failure handling. In a run for the action
    [new] or [extend] that calls the provisioning client, when the call
    raises or returns an empty result, the run stops there: the tables of
    keys, balances and transactions are as before the run, the database is
    the one the claim and the commission accrual left, and after the call
    come, in order, the log entry with the code and the detail of the upstream
    error, the message to the payer with the refund line and the code, one
    message to each admin with the code, its description and the label of
    the action, and the edit of the progress message. *)
Theorem provisioning_failure_handling
    (float_of_str : string -> option Q) (int_of_str : string -> option Z)
    (pe : pay_env) (metadata : Meta) (db : Db) (args : provision_args)
    (exc : string) :
  let r := process_successful_payment float_of_str int_of_str pe metadata db in
  let action := dict_get "action" metadata in
  let key_id := _to_int int_of_str (dict_get "key_id" metadata) 0 in
  action = JStr "new" \/ action = JStr "extend" ->
  In (CreateOrUpdateKey args) (run_actions r) ->
  pe_provision pe = ProvisionRaised exc \/
  (pe_provision pe = ProvisionReturned None /\
   exc = "key creation returned empty response") ->
  exists user_id price payment_id before,
    py_int int_of_str (dict_get "user_id" metadata) = Some user_id /\
    py_float float_of_str (dict_get "price" metadata) = Some price /\
    payment_id_of metadata = Some payment_id /\
    run_end r = EndKeyCreationFailed /\
    run_db r =
      accrue_for_payment int_of_str pe metadata payment_id user_id price
        (claim_processed_payment payment_id (pe_claim pe) db).2 /\
    vpn_keys (run_db r) = vpn_keys db /\ users (run_db r) = users db /\
    pending_transactions (run_db r) = pending_transactions db /\
    transactions (run_db r) = transactions db /\
    (forall a, ~ In (CreateOrUpdateKey a) before) /\
    let label :=
      if json_is_str action "new" then LabelPurchase (Some price)
      else LabelExtend key_id (Some price) in
    let '(code, description, detail) := _classify_key_creation_error (Some exc) in
    run_actions r =
      before ++
      [CreateOrUpdateKey args;
       LogKeyCreationError user_id label code detail;
       SendMessage user_id (MsgUserKeyCreationError true code)]
      ++ map (fun aid =>
                SendMessage aid (MsgAdminKeyCreationError user_id code description
                                   label)) (pe_admin_ids pe)
      ++ [EditProcessingMessage MsgKeyCreationFailed].
Proof.
  intros r action key_id Hact Hin Hfail.
  destruct (provisioning_call_inv float_of_str int_of_str pe metadata db args Hin)
    as (user_id & price & payment_id & before & Hu & Hp & Hpid & Hclaim & Hdb &
        Hdays & Hbefore & Hactions & Hend).
  fold r action key_id in Hdb, Hactions, Hend.
  exists user_id, price, payment_id, before.
  destruct (accrue_for_payment_frame int_of_str pe metadata payment_id user_id price
              (claim_processed_payment payment_id (pe_claim pe) db).2)
    as (Hf1 & Hf2 & Hf3 & Hf4 & Hf5).
  destruct (claim_frame payment_id (pe_claim pe) db) as (Hc1 & Hc2 & Hc3 & Hc4 & Hc5).
  assert (after_provision pe user_id action price key_id (pa_days_to_add args) =
            key_creation_failure (pe_admin_ids pe) user_id action price key_id exc)
    as Hafter.
  { unfold after_provision.
    destruct Hfail as [-> | [-> ->]]; [done|].
    by destruct Hact as [-> | ->]. }
  rewrite Hafter in Hactions, Hend.
  assert (_format_key_action_label action (Some price) key_id =
            Some (if json_is_str action "new" then LabelPurchase (Some price)
                  else LabelExtend key_id (Some price))) as Hlabel.
  { by destruct Hact as [-> | ->]. }
  unfold key_creation_failure in Hactions, Hend. rewrite Hlabel in Hactions, Hend.
  destruct (_classify_key_creation_error (Some exc)) as [[code description] detail].
  cbn [fst snd] in Hactions, Hend.
  repeat split; try done; congruence.
Qed.

Lemma provisioning_failure_handling_witness :
  exists before,
    run_actions (process_successful_payment no_float no_int pay_env_example
                   metadata_example empty_db) =
      before ++
      [CreateOrUpdateKey
         (mkProvisionArgs (JStr "") (Some "42-1@bot.local") 30 None None None None);
       LogKeyCreationError 42 (LabelPurchase (Some 300%Q)) "500" "boom";
       SendMessage 42 (MsgUserKeyCreationError true "500")]
      ++ [SendMessage 900
            (MsgAdminKeyCreationError 42 "500" "неизвестная ошибка"
               (LabelPurchase (Some 300%Q)))]
      ++ [EditProcessingMessage MsgKeyCreationFailed].
Proof.
  destruct (provisioning_failure_handling no_float no_int pay_env_example
              metadata_example empty_db
              (mkProvisionArgs (JStr "") (Some "42-1@bot.local") 30 None None None None)
              "request failed: 500 boom")
    as (user_id & price & payment_id & before & Hu & Hp & _ & _ & _ & _ & _ & _ & _ &
        _ & Hactions).
  - left. reflexivity.
  - vm_compute. tauto.
  - left. reflexivity.
  - exists before. injection Hu as <-. injection Hp as <-. exact Hactions.
Defined.

(** ** Duration of a purchase *)

Lemma compute_days_to_add_days months d :
  (0 < d)%Z -> _compute_days_to_add months (Some d) = d.
Proof.
  intros Hd. unfold _compute_days_to_add. simpl.
  by assert ((0 <? d)%Z = true) as -> by lia.
Qed.

Lemma compute_days_to_add_months months duration_days :
  (default 0 duration_days <= 0)%Z ->
  _compute_days_to_add months duration_days = (default 0 months * 30)%Z.
Proof.
  intros Hd. unfold _compute_days_to_add.
  by assert ((0 <? default 0 duration_days)%Z = false) as -> by lia.
Qed.

(** C8. Duration resolution. The day count a run passes to the provisioning
    client is resolved from the day and month counts of the plan (of the
    metadata, when the order has no plan): a positive day count is taken as
    it is, whatever the month count; with no positive day count, a positive
    month count gives 30 days a month. [_compute_days_to_add] itself returns
    a positive day count as it is, and 30 days a month otherwise. *)
Theorem duration_resolution
    (float_of_str : string -> option Q) (int_of_str : string -> option Z)
    (pe : pay_env) (metadata : Meta) (db : Db) (args : provision_args) :
  In (CreateOrUpdateKey args)
     (run_actions (process_successful_payment float_of_str int_of_str pe metadata db)) ->
  let plan_months := order_plan_months int_of_str pe metadata in
  let plan_days := order_plan_days int_of_str pe metadata in
  pa_days_to_add args =
    resolve_days_to_add plan_months plan_days (order_months int_of_str metadata)
      (order_duration_days int_of_str metadata)
  /\ ((0 < plan_days)%Z -> pa_days_to_add args = plan_days)
  /\ ((plan_days <= 0)%Z -> (0 < plan_months)%Z ->
      pa_days_to_add args = (plan_months * 30)%Z)
  /\ (forall months d, (0 < d)%Z -> _compute_days_to_add months (Some d) = d)
  /\ (forall months duration_days,
        (default 0 duration_days <= 0)%Z ->
        _compute_days_to_add months duration_days = (default 0 months * 30)%Z).
Proof.
  intros Hin plan_months plan_days.
  destruct (provisioning_call_inv float_of_str int_of_str pe metadata db args Hin)
    as (_ & _ & _ & _ & _ & _ & _ & _ & _ & Hdays & _).
  fold plan_months plan_days in Hdays.
  split; [exact Hdays|]. rewrite Hdays. unfold resolve_days_to_add.
  split; [|split; [|split]].
  - intros Hpos. rewrite compute_days_to_add_days by done.
    assert ((plan_days <=? 0)%Z = false) as Hle by lia.
    rewrite Hle. cbn iota. by rewrite Hle.
  - intros Hd Hm. rewrite (compute_days_to_add_months (Some plan_months) (Some plan_days))
      by done. simpl.
    assert ((plan_months * 30 <=? 0)%Z = false) as Hle by lia.
    rewrite Hle. cbn iota. by rewrite Hle.
  - apply compute_days_to_add_days.
  - apply compute_days_to_add_months.
Qed.

Lemma duration_resolution_witness :
  In (CreateOrUpdateKey provision_args_example)
     (run_actions (process_successful_payment no_float no_int pay_env_plan_example
                     metadata_plan_example empty_db))
  /\ (0 < order_plan_days no_int pay_env_plan_example metadata_plan_example)%Z
  /\ pa_days_to_add provision_args_example =
       order_plan_days no_int pay_env_plan_example metadata_plan_example.
Proof.
  assert (In (CreateOrUpdateKey provision_args_example)
            (run_actions (process_successful_payment no_float no_int
                            pay_env_plan_example metadata_plan_example empty_db)))
    as Hin by (vm_compute; tauto).
  split; [exact Hin|]. split; [reflexivity|].
  apply (duration_resolution no_float no_int pay_env_plan_example
           metadata_plan_example empty_db provision_args_example Hin).
  reflexivity.
Defined.

(** * Further properties of the code *)

(** ** [_retry_sqlite] *)

Lemma retry_sqlite_ok_inv {A : Type} (none : A) (work : Db -> A * Db)
    (n : nat) (faults : list sql_fault) (db : Db) (a : A) (db' : Db) :
  (0 < n)%nat ->
  _retry_sqlite none work n faults db = (SqlOk a, db') ->
  exists k, (k < n)%nat /\ faults = repeat Locked k.
Proof.
  revert faults. induction n as [|n IH]; intros faults Hn; [lia|].
  simpl. destruct faults as [|[|] fs].
  - intros _. exists 0%nat. split; [lia|done].
  - destruct n as [|n']; [done|]. intros H.
    destruct (IH fs ltac:(lia) H) as (k & Hk & ->).
    exists (S k). split; [lia|done].
  - done.
Qed.

(** X1. [_retry_sqlite] with at least one attempt runs [work] exactly when
    the database is locked fewer times than there are attempts and nothing
    else fails, and then runs it once, on the database as it was; in every
    other case it raises and the database is unchanged. *)
Theorem retry_sqlite_outcome {A : Type} (none : A) (work : Db -> A * Db)
    (n : nat) (faults : list sql_fault) (db : Db) :
  (0 < n)%nat ->
  ((exists k, (k < n)%nat /\ faults = repeat Locked k) ->
   _retry_sqlite none work n faults db = (SqlOk (work db).1, (work db).2))
  /\ (~ (exists k, (k < n)%nat /\ faults = repeat Locked k) ->
      _retry_sqlite none work n faults db = (SqlError, db)).
Proof.
  intros Hn. split.
  - intros (k & Hk & ->). by apply retry_sqlite_locked.
  - intros Hno.
    destruct (retry_sqlite_cases none work n faults db Hn) as [H | H]; [done|].
    exfalso. apply Hno. by eapply retry_sqlite_ok_inv.
Qed.

Lemma retry_sqlite_outcome_witness :
  _retry_sqlite false (fun db => (true, db)) attempts [Locked; Locked] empty_db =
    (SqlOk true, empty_db)
  /\ _retry_sqlite false (fun db => (true, db)) attempts
       [Locked; Locked; Locked; Locked; Locked] empty_db = (SqlError, empty_db)
  /\ _retry_sqlite false (fun db => (true, db)) attempts [Locked; Failed] empty_db =
       (SqlError, empty_db).
Proof.
  assert (0 < attempts)%nat as Hn by (unfold attempts; lia).
  split; [|split].
  - apply (retry_sqlite_outcome false (fun db => (true, db)) attempts
             [Locked; Locked] empty_db Hn).
    exists 2%nat. split; [unfold attempts; lia|reflexivity].
  - apply (retry_sqlite_outcome false (fun db => (true, db)) attempts
             [Locked; Locked; Locked; Locked; Locked] empty_db Hn).
    intros (k & Hk & Heq). apply (f_equal (@length _)) in Heq.
    rewrite repeat_length in Heq. simpl in Heq. unfold attempts in Hk. lia.
  - apply (retry_sqlite_outcome false (fun db => (true, db)) attempts
             [Locked; Failed] empty_db Hn).
    intros (k & Hk & Heq). destruct k as [|[|k]]; discriminate.
Defined.

(** ** The ledger, from intent to completion *)

Lemma create_payload_pending_ok payment_id user_id amount_rub metadata e db :
  strip payment_id <> "" -> storage_ok e ->
  create_payload_pending payment_id user_id amount_rub metadata e db =
    (true, set_pending (upsert_pending (strip payment_id) user_id amount_rub metadata
                          (env_now e) (pending_transactions db)) db).
Proof.
  intros Hne Hok. unfold create_payload_pending.
  destruct (decide (strip payment_id = "")); [done|].
  by rewrite retry_sqlite_storage_ok.
Qed.

Lemma upsert_pending_not_paid pid user_id amount_rub metadata now t :
  (forall r, t !! pid = Some r -> p_status r = pending) ->
  exists created,
    upsert_pending pid user_id amount_rub metadata now t !! pid =
      Some (mkPending user_id amount_rub metadata pending created now).
Proof.
  intros Hnp. unfold upsert_pending.
  destruct (t !! pid) as [r|] eqn:Hr.
  - rewrite (Hnp r eq_refl). exists (p_created_at r). by rewrite lookup_insert_eq.
  - exists now. by rewrite lookup_insert_eq.
Qed.

(** X2. From intent to completion. After [create_payload_pending] for an id
    whose row is absent or pending, with a working storage,
    [get_pending_status] says pending and [_get_pending_metadata] returns the
    metadata just stored, with the id under [payment_id] when the metadata
    has no such key; [find_and_complete_pending_transaction] then returns the
    same metadata, and after it the status is paid, the metadata can no
    longer be peeked and a second completion returns [None]. *)
Theorem ledger_intent_to_completion
    (payment_id : string) (user_id : Z) (amount_rub : option Q) (metadata : Meta)
    (e1 e2 e3 : env) (db : Db) :
  strip payment_id <> "" ->
  (forall r, pending_transactions db !! strip payment_id = Some r ->
             p_status r = pending) ->
  storage_ok e1 -> storage_ok e2 -> storage_ok e3 ->
  let meta := setdefault "payment_id" (JStr (strip payment_id)) metadata in
  let db1 := (create_payload_pending payment_id user_id amount_rub metadata e1 db).2 in
  let done_ := find_and_complete_pending_transaction payment_id e2 db1 in
  get_pending_status payment_id e2 db1 = Some pending
  /\ _get_pending_metadata payment_id e2 db1 = Some meta
  /\ done_.1 = Some meta
  /\ get_pending_status payment_id e3 done_.2 = Some paid
  /\ _get_pending_metadata payment_id e3 done_.2 = None
  /\ find_and_complete_pending_transaction payment_id e3 done_.2 = (None, done_.2).
Proof.
  intros Hne Hnp Hok1 Hok2 Hok3 meta db1 done_.
  destruct (upsert_pending_not_paid (strip payment_id) user_id amount_rub metadata
              (env_now e1) (pending_transactions db) Hnp) as (created & Hrow).
  assert (pending_transactions db1 !! strip payment_id =
            Some (mkPending user_id amount_rub metadata pending created (env_now e1)))
    as Hrow1.
  { subst db1. by rewrite create_payload_pending_ok. }
  assert (done_ = (Some meta,
                   set_pending (<[strip payment_id :=
                                    mkPending user_id amount_rub metadata paid created
                                              (env_now e2)]>
                                  (pending_transactions db1)) db1)) as Hdone.
  { subst done_. unfold find_and_complete_pending_transaction.
    destruct (decide (strip payment_id = "")); [done|].
    rewrite retry_sqlite_storage_ok by done. cbv beta.
    unfold select_pending_metadata, update_paid. rewrite Hrow1. simpl.
    by rewrite ?Hrow1. }
  assert (pending_transactions done_.2 !! strip payment_id =
            Some (mkPending user_id amount_rub metadata paid created (env_now e2)))
    as Hrow2.
  { rewrite Hdone. cbn [snd pending_transactions set_pending].
    apply lookup_insert_eq. }
  repeat split.
  - unfold get_pending_status. destruct (decide (strip payment_id = "")); [done|].
    rewrite retry_sqlite_storage_ok by done. cbv beta. cbn [fst]. by rewrite Hrow1.
  - unfold _get_pending_metadata. destruct (decide (strip payment_id = "")); [done|].
    rewrite retry_sqlite_storage_ok by done. cbv beta. cbn [fst].
    unfold select_pending_metadata. by rewrite Hrow1.
  - by rewrite Hdone.
  - unfold get_pending_status. destruct (decide (strip payment_id = "")); [done|].
    rewrite retry_sqlite_storage_ok by done. cbv beta. cbn [fst]. by rewrite Hrow2.
  - unfold _get_pending_metadata. destruct (decide (strip payment_id = "")); [done|].
    rewrite retry_sqlite_storage_ok by done. cbv beta. cbn [fst].
    unfold select_pending_metadata. by rewrite Hrow2.
  - destruct (find_and_complete_cases payment_id e3 done_.2)
      as [-> | (r & Hr & Hs & _)]; [done|].
    rewrite Hrow2 in Hr. injection Hr as <-. done.
Qed.

Lemma ledger_intent_to_completion_witness :
  let db1 := (create_payload_pending "p1" 42 (Some 300%Q) {["action" := JStr "new"]}
                (mkEnv 1 []) empty_db).2 in
  let done_ := find_and_complete_pending_transaction "p1" (mkEnv 2 []) db1 in
  done_.1 = Some (setdefault "payment_id" (JStr (strip "p1")) {["action" := JStr "new"]})
  /\ get_pending_status "p1" (mkEnv 3 []) done_.2 = Some paid
  /\ find_and_complete_pending_transaction "p1" (mkEnv 3 []) done_.2 = (None, done_.2).
Proof.
  destruct (ledger_intent_to_completion "p1" 42 (Some 300%Q) {["action" := JStr "new"]}
              (mkEnv 1 []) (mkEnv 2 []) (mkEnv 3 []) empty_db)
    as (_ & _ & H3 & H4 & _ & H6);
    [done|done|apply storage_ok_no_fault|apply storage_ok_no_fault
     |apply storage_ok_no_fault|].
  by repeat split.
Defined.

Lemma set_pending_same db : set_pending (pending_transactions db) db = db.
Proof. by destruct db. Qed.

(** What [_complete_pending] does, by the row it finds. *)
Lemma complete_pending_spec payment_id e db :
  let pid := strip payment_id in
  _complete_pending payment_id e db = (false, db) \/
  exists r,
    pid <> "" /\ pending_transactions db !! pid = Some r /\ p_status r = pending /\
    _complete_pending payment_id e db =
      (true,
       set_pending (<[pid := mkPending (p_user_id r) (p_amount_rub r) (p_metadata r)
                               paid (p_created_at r) (env_now e)]>
                      (pending_transactions db)) db).
Proof.
  intros pid. unfold _complete_pending. fold pid.
  destruct (decide (pid = "")); [by left|].
  match goal with |- context [_retry_sqlite ?n ?w ?a ?f ?d] =>
    destruct (retry_sqlite_cases n w a f d) as [-> | ->]; [unfold attempts; lia| |] end;
    [by left|].
  unfold update_paid.
  destruct (pending_transactions db !! pid) as [r|] eqn:Hr; simpl;
    [|left; by rewrite set_pending_same].
  destruct (p_status r) eqn:Hs; simpl; [|left; by rewrite set_pending_same].
  right. exists r. by rewrite Hs.
Qed.

Lemma create_payload_pending_spec payment_id user_id amount_rub metadata e db :
  let pid := strip payment_id in
  create_payload_pending payment_id user_id amount_rub metadata e db = (false, db) \/
  (pid <> "" /\
   create_payload_pending payment_id user_id amount_rub metadata e db =
     (true, set_pending (upsert_pending pid user_id amount_rub metadata (env_now e)
                           (pending_transactions db)) db)).
Proof.
  intros pid. unfold create_payload_pending. fold pid.
  destruct (decide (pid = "")); [by left|].
  match goal with |- context [_retry_sqlite ?n ?w ?a ?f ?d] =>
    destruct (retry_sqlite_cases n w a f d) as [-> | ->]; [unfold attempts; lia| |] end;
    [by left|by right].
Qed.

Lemma completed_paid p c e db :
  is_paid p db -> completed p c e db = false.
Proof.
  intros (r & Hr & Hs). destruct c as [| pid | pid]; simpl; [done| |].
  - destruct (decide (strip pid = p)) as [<-|];
      [|by rewrite bool_decide_eq_false_2].
    destruct (complete_pending_spec pid e db) as [-> | (r' & _ & Hr' & Hs' & _)];
      [by rewrite andb_false_r|congruence].
  - destruct (decide (strip pid = p)) as [<-|];
      [|by rewrite bool_decide_eq_false_2].
    destruct (find_and_complete_cases pid e db) as [-> | (r' & Hr' & Hs' & _)];
      [|congruence].
    apply andb_false_iff. right. apply bool_decide_eq_false_2. by intros [? ?].
Qed.

Lemma completed_then_paid p c e db :
  completed p c e db = true -> is_paid p (ledger_exec c e db).
Proof.
  destruct c as [| pid | pid]; simpl; [done| |];
    intros [Hp Hc]%andb_true_iff; apply bool_decide_eq_true in Hp; subst p.
  - destruct (complete_pending_spec pid e db) as [Heq | (r & _ & Hr & Hs & Heq)];
      rewrite Heq in Hc |- *; [done|].
    eexists. split; [apply lookup_insert_eq|done].
  - destruct (find_and_complete_cases pid e db) as [Heq | (r & Hr & Hs & Heq)];
      rewrite Heq in Hc |- *.
    + apply bool_decide_eq_true in Hc. by destruct Hc.
    + eexists. split; [apply lookup_insert_eq|done].
Qed.

Lemma completed_count_paid p calls db :
  is_paid p db -> completed_count p calls db = 0%nat.
Proof.
  revert db. induction calls as [|[c e] rest IH]; intros db Hp; [done|].
  simpl. rewrite (completed_paid _ _ _ _ Hp).
  rewrite IH; [done|]. by apply ledger_exec_keeps_paid.
Qed.

(** X3. One completion for each payment, whichever function makes it. Along
    every history of ledger calls, from every database and under any storage
    faults, at most one call completes a payment id, counting both
    [_complete_pending] returning [True] and
    [find_and_complete_pending_transaction] returning metadata. *)
Theorem completed_at_most_once (p : string) (calls : list (ledger_call * env))
    (db : Db) :
  (completed_count p calls db <= 1)%nat.
Proof.
  revert db. induction calls as [|[c e] rest IH]; intros db; simpl; [lia|].
  destruct (completed p c e db) eqn:Hc.
  - rewrite completed_count_paid; [lia|]. by apply completed_then_paid.
  - specialize (IH (ledger_exec c e db)). lia.
Qed.

(** A ledger call keeps every row, keeps its creation time, never changes a
    paid row and never turns a paid row back to pending. *)
Lemma ledger_exec_row c e db id r :
  pending_transactions db !! id = Some r ->
  exists r',
    pending_transactions (ledger_exec c e db) !! id = Some r' /\
    p_created_at r' = p_created_at r /\
    (p_status r = paid -> r' = r).
Proof.
  intros Hr. destruct c as [pid u a m | pid | pid]; simpl.
  - destruct (create_payload_pending_spec pid u a m e db) as [-> | (_ & ->)]; simpl;
      [by exists r|].
    unfold upsert_pending.
    destruct (decide (id = strip pid)) as [->|Hne].
    + rewrite Hr. destruct (p_status r) eqn:Hs.
      * rewrite lookup_insert_eq. eexists. by repeat split.
      * exists r. by rewrite Hr.
    + destruct (pending_transactions db !! strip pid) as [r0|].
      * destruct (p_status r0); [rewrite lookup_insert_ne by done|]; by exists r.
      * rewrite lookup_insert_ne by done. by exists r.
  - destruct (complete_pending_spec pid e db) as [-> | (r0 & _ & Hr0 & Hs0 & ->)];
      simpl; [by exists r|].
    destruct (decide (id = strip pid)) as [->|Hne].
    + rewrite lookup_insert_eq. rewrite Hr in Hr0. injection Hr0 as <-.
      eexists. repeat split; try done. congruence.
    + rewrite lookup_insert_ne by done. by exists r.
  - destruct (find_and_complete_cases pid e db) as [-> | (r0 & Hr0 & Hs0 & ->)];
      simpl; [by exists r|].
    destruct (decide (id = strip pid)) as [->|Hne].
    + rewrite lookup_insert_eq. rewrite Hr in Hr0. injection Hr0 as <-.
      eexists. repeat split; try done. congruence.
    + rewrite lookup_insert_ne by done. by exists r.
Qed.

(** X4. The ledger is an audit trail. Through every history of ledger calls
    a row, once there, stays there with the creation time it had, and a row
    that is paid is never changed again in any column. *)
Theorem ledger_rows_persist (calls : list (ledger_call * env)) (db : Db)
    (id : string) (r : pending_row) :
  pending_transactions db !! id = Some r ->
  exists r',
    pending_transactions (run_ledger calls db) !! id = Some r' /\
    p_created_at r' = p_created_at r /\
    (p_status r = paid -> r' = r).
Proof.
  revert db r. induction calls as [|[c e] rest IH]; intros db r Hr.
  { exists r. by repeat split. }
  simpl. destruct (ledger_exec_row c e db id r Hr) as (r1 & Hr1 & Hc1 & Hp1).
  destruct (IH _ _ Hr1) as (r2 & Hr2 & Hc2 & Hp2).
  exists r2. repeat split; [done|congruence|].
  intros Hs. specialize (Hp1 Hs). subst r1. by apply Hp2.
Qed.

Lemma ledger_rows_persist_witness :
  exists r',
    pending_transactions
      (run_ledger [(CallCreate "p1" 7 (Some 1%Q) ∅, mkEnv 30 []);
                   (CallComplete "p1", mkEnv 31 []);
                   (CallFindAndComplete "p1", mkEnv 32 [])] paid_example) !! "p1"
      = Some r' /\
    p_created_at r' = 10%Z /\
    (paid = paid ->
     r' = mkPending 42 (Some 300%Q) {["action" := JStr "new"]} paid 10 20).
Proof.
  apply (ledger_rows_persist
           [(CallCreate "p1" 7 (Some 1%Q) ∅, mkEnv 30 []);
            (CallComplete "p1", mkEnv 31 []);
            (CallFindAndComplete "p1", mkEnv 32 [])] paid_example "p1"
           (mkPending 42 (Some 300%Q) {["action" := JStr "new"]} paid 10 20)).
  reflexivity.
Defined.

(** X5. Stored payment ids are trimmed. When the payment ids in
    [pending_transactions] and [processed_payments] are trimmed and not
    empty, they still are after every history of ledger calls and of claims:
    no call stores a blank id or an id with white space around it. *)
Theorem stored_payment_ids_trimmed (calls : list (ledger_call * env))
    (claims : list (string * env)) (db : Db) :
  trimmed_keys (pending_transactions db) ->
  trimmed_keys (processed_payments db) ->
  trimmed_keys (pending_transactions (run_ledger calls db)) /\
  trimmed_keys (processed_payments (run_claims claims db)).
Proof.
  intros Hpend Hproc. split.
  - revert db Hpend Hproc. induction calls as [|[c e] rest IH]; intros db Hpend Hproc;
      [done|].
    simpl. apply IH; [|].
    + intros k Hk.
      destruct (decide (is_Some (pending_transactions db !! k))) as [Hold|Hnew];
        [by apply Hpend|].
      assert (exists pid, k = strip pid /\ strip pid <> "") as (pid & -> & Hne).
      { destruct c as [pid u a m | pid | pid]; simpl in Hk.
        - destruct (create_payload_pending_spec pid u a m e db) as [Heq | (Hne & Heq)];
            rewrite Heq in Hk; simpl in Hk; [done|].
          exists pid. split; [|done].
          destruct (decide (k = strip pid)); [done|]. exfalso. apply Hnew.
          revert Hk. unfold upsert_pending.
          destruct (pending_transactions db !! strip pid) as [r0|];
            [destruct (p_status r0)|]; by rewrite ?lookup_insert_ne.
        - destruct (complete_pending_spec pid e db) as [Heq | (r0 & Hne & Hr0 & _ & Heq)];
            rewrite Heq in Hk; simpl in Hk; [done|].
          exists pid. split; [|done].
          destruct (decide (k = strip pid)); [done|]. exfalso. apply Hnew.
          by rewrite lookup_insert_ne in Hk.
        - destruct (find_and_complete_cases pid e db) as [Heq | (r0 & Hr0 & _ & Heq)];
            rewrite Heq in Hk; simpl in Hk; [done|].
          exfalso. apply Hnew.
          destruct (decide (k = strip pid)) as [->|]; [by rewrite Hr0|].
          by rewrite lookup_insert_ne in Hk. }
      split; [done|apply strip_idem].
    + assert (processed_payments (ledger_exec c e db) = processed_payments db) as ->;
        [|done].
      destruct c as [pid u a m | pid | pid]; simpl.
      * by destruct (create_payload_pending_spec pid u a m e db) as [-> | (_ & ->)].
      * by destruct (complete_pending_spec pid e db) as [-> | (r0 & _ & _ & _ & ->)].
      * by destruct (find_and_complete_cases pid e db) as [-> | (r0 & _ & _ & ->)].
  - clear Hpend. revert db Hproc.
    induction claims as [|[pid e] rest IH]; intros db Hproc; [done|].
    simpl. apply IH. intros k Hk.
    destruct (claim_cases pid e db) as [Heq | (Hfree & Hne & Heq)];
      rewrite Heq in Hk; simpl in Hk; [by apply Hproc|].
    destruct (decide (k = strip pid)) as [->|Hk'].
    + split; [done|apply strip_idem].
    + rewrite lookup_insert_ne in Hk by done. by apply Hproc.
Qed.

Lemma stored_payment_ids_trimmed_witness :
  trimmed_keys (pending_transactions
                  (run_ledger [(CallCreate "  p7 " 7 None ∅, mkEnv 1 []);
                               (CallCreate "   " 7 None ∅, mkEnv 2 [])] empty_db))
  /\ trimmed_keys (processed_payments
                     (run_claims [(" p7", mkEnv 3 []); ("", mkEnv 4 [])] empty_db)).
Proof.
  apply stored_payment_ids_trimmed; intros k [x Hk]; discriminate Hk.
Defined.

(** ** Storage failures *)

Lemma retry_sqlite_not_ok {A : Type} (none : A) (work : Db -> A * Db)
    (e : env) (db : Db) :
  ~ storage_ok e ->
  _retry_sqlite none work attempts (env_faults e) db = (SqlError, db).
Proof.
  intros Hno.
  destruct (retry_sqlite_cases none work attempts (env_faults e) db) as [H | H];
    [unfold attempts; lia|done|].
  exfalso. apply Hno. eapply retry_sqlite_ok_inv; [|exact H]. unfold attempts. lia.
Qed.

(** X6. A storage failure is all or nothing. When the attempts of a call do
    not go through (the database stays locked for five attempts, or another
    SQLite error comes up), [create_payload_pending], [_complete_pending] and
    [claim_processed_payment] return [False],
    [find_and_complete_pending_transaction] returns [None], and the database
    is as it was; a payment id whose claim failed this way can still be
    claimed by a later call. *)
Theorem storage_failure_changes_nothing (payment_id : string) (e : env) (db : Db) :
  ~ storage_ok e ->
  (forall user_id amount_rub metadata,
      create_payload_pending payment_id user_id amount_rub metadata e db = (false, db))
  /\ _complete_pending payment_id e db = (false, db)
  /\ find_and_complete_pending_transaction payment_id e db = (None, db)
  /\ claim_processed_payment payment_id e db = (false, db)
  /\ (forall e',
        storage_ok e' -> strip payment_id <> "" ->
        processed_payments db !! strip payment_id = None ->
        (claim_processed_payment payment_id e'
           (claim_processed_payment payment_id e db).2).1 = true).
Proof.
  intros Hno.
  assert (claim_processed_payment payment_id e db = (false, db)) as Hclaim.
  { unfold claim_processed_payment. destruct (decide (strip payment_id = "")); [done|].
    by rewrite retry_sqlite_not_ok. }
  repeat split.
  - intros user_id amount_rub metadata. unfold create_payload_pending.
    destruct (decide (strip payment_id = "")); [done|]. by rewrite retry_sqlite_not_ok.
  - unfold _complete_pending.
    destruct (decide (strip payment_id = "")); [done|]. by rewrite retry_sqlite_not_ok.
  - unfold find_and_complete_pending_transaction.
    destruct (decide (strip payment_id = "")); [done|]. by rewrite retry_sqlite_not_ok.
  - exact Hclaim.
  - intros e' Hok Hne Hfree. rewrite Hclaim. cbn [snd].
    unfold claim_processed_payment. destruct (decide (strip payment_id = "")); [done|].
    rewrite retry_sqlite_storage_ok by done. cbv beta.
    unfold insert_or_ignore_processed. by rewrite Hfree.
Qed.

Lemma storage_failure_changes_nothing_witness :
  find_and_complete_pending_transaction "p1" (mkEnv 5 [Failed]) ledger_example =
    (None, ledger_example)
  /\ claim_processed_payment "p1" (mkEnv 5 [Failed]) ledger_example =
       (false, ledger_example).
Proof.
  destruct (storage_failure_changes_nothing "p1" (mkEnv 5 [Failed]) ledger_example)
    as (_ & _ & H3 & H4 & _); [|by split].
  intros (k & _ & Hk). destruct k; discriminate Hk.
Defined.

(** ** The table of commissions *)

Lemma has_commission_false_iff b pid t :
  has_commission b pid t = false <-> (b, pid) ∉ commission_keys t.
Proof.
  unfold has_commission, commission_keys. induction t as [|r t IH]; simpl.
  - split; [intros _; apply not_elem_of_nil|done].
  - rewrite orb_false_iff, IH, not_elem_of_cons, andb_false_iff,
      !bool_decide_eq_false.
    split.
    + intros [[H|H] Ht]; (split; [|done]); intros [= Hb Hp]; by apply H.
    + intros [Hne Ht]. split; [|done].
      destruct (decide (c_bot_id r = b)) as [Hb|]; [|by left].
      right. intros Hp. apply Hne. by rewrite Hb, Hp.
Qed.

(** X7. What the accrual refuses. A call of [accrue_partner_commission] that
    returns [True] was made for a managed bot (an id above zero), with a
    card-like payment method, a payment id that is not blank, an amount, a
    percent and a commission above zero, on a table without a row for the
    pair, and it appended exactly that one row; in particular a payment from
    the stored balance is never counted. The commission is the one the code
    computes in floats: the product of the amount and the percent, divided
    by 100, each rounded to a float, and then rounded to the hundredth.
    Every other call returns [False] and changes nothing. *)
Theorem accrue_partner_commission_guards
    (bot_id : Z) (payment_id : string) (user_id : Z) (amount_rub : Q)
    (payment_method : option string) (percent : option Q) (e : env) (db : Db) :
  let call := accrue_partner_commission bot_id payment_id user_id amount_rub
                payment_method percent e db in
  let p := default FRANCHISE_PERCENT_DEFAULT percent in
  let com := py_round2 (fdiv (fmul amount_rub p) 100) in
  (call.1 = true ->
   (0 < bot_id)%Z /\ _is_card_payment_method payment_method = true /\
   lower (strip (default "" payment_method)) <> "balance" /\
   strip payment_id <> "" /\ (0 < amount_rub)%Q /\ (0 < p)%Q /\ (0 < com)%Q /\
   has_commission bot_id (strip payment_id) (partner_commissions db) = false /\
   call.2 = set_commissions
              (partner_commissions db ++
                 [mkCommission bot_id (strip payment_id) user_id amount_rub p com
                               (or_none payment_method) (env_now e)]) db)
  /\ (call.1 = false -> call.2 = db).
Proof.
  intros call p com. subst call. unfold accrue_partner_commission. fold p com.
  destruct (bot_id <=? 0)%Z eqn:Hb; [by split|].
  destruct (_is_card_payment_method payment_method) eqn:Hcard; [|by split].
  cbn [negb].
  destruct (decide (strip payment_id = "")); [by split|].
  destruct (Qle_bool amount_rub 0) eqn:Ha; [by split|].
  destruct (Qle_bool p 0) eqn:Hp; [by split|].
  destruct (Qle_bool com 0) eqn:Hc; [by split|].
  destruct (env_faults e); [|by split].
  destruct (has_commission bot_id (strip payment_id) (partner_commissions db)) eqn:Hh;
    [by split|].
  split; [|done]. intros _.
  assert (forall x, Qle_bool x 0 = false -> (0 < x)%Q) as Hpos.
  { intros x Hx. apply Qnot_le_lt. intros Hle. apply Qle_bool_iff in Hle. congruence. }
  repeat split; try done; try (by apply Hpos); try lia.
  intros Hbal. revert Hcard. unfold _is_card_payment_method. rewrite Hbal.
  done.
Qed.

Lemma accrue_partner_commission_guards_witness :
  (accrue_partner_commission 3 "pay-1" 42 300 (Some " Balance ") None (mkEnv 50 [])
     empty_db).2 = empty_db.
Proof.
  apply (accrue_partner_commission_guards 3 "pay-1" 42 300 (Some " Balance ") None
           (mkEnv 50 []) empty_db).
  reflexivity.
Defined.

Lemma accrue_partner_commission_guards_aux
    bot_id payment_id user_id amount_rub payment_method percent e db :
  let call := accrue_partner_commission bot_id payment_id user_id amount_rub
                payment_method percent e db in
  (call.1 = true ->
   (0 < bot_id)%Z /\ strip payment_id <> "" /\
   (0 < py_round2 (fdiv (fmul amount_rub (default FRANCHISE_PERCENT_DEFAULT percent))
                        100))%Q /\
   has_commission bot_id (strip payment_id) (partner_commissions db) = false /\
   call.2 = set_commissions
              (partner_commissions db ++
                 [mkCommission bot_id (strip payment_id) user_id amount_rub
                    (default FRANCHISE_PERCENT_DEFAULT percent)
                    (py_round2 (fdiv (fmul amount_rub
                                            (default FRANCHISE_PERCENT_DEFAULT percent)) 100))
                    (or_none payment_method) (env_now e)]) db)
  /\ (call.1 = false -> call.2 = db).
Proof.
  intros call. subst call. unfold accrue_partner_commission.
  repeat (match goal with
          | |- context [if ?c then _ else _] => destruct c eqn:?
          | |- context [match env_faults e with _ => _ end] => destruct (env_faults e)
          end; try (by split)).
  split; [|done]. intros _. repeat split; try done; try lia.
  apply Qnot_le_lt. intros Hle. apply Qle_bool_iff in Hle. congruence.
Qed.

(** X8. The table of commissions stays well formed. When
    [partner_commissions] holds one row at most for each pair
    [(bot_id, payment_id)], every row being of a managed bot, with a payment
    id and a commission above zero, it is still so after
    [accrue_partner_commission], whatever the arguments. *)
Theorem accrue_keeps_commissions_wf
    (bot_id : Z) (payment_id : string) (user_id : Z) (amount_rub : Q)
    (payment_method : option string) (percent : option Q) (e : env) (db : Db) :
  commissions_wf (partner_commissions db) ->
  commissions_wf
    (partner_commissions
       (accrue_partner_commission bot_id payment_id user_id amount_rub
          payment_method percent e db).2).
Proof.
  intros [Hnd Hall].
  pose proof (accrue_partner_commission_guards_aux bot_id payment_id user_id
                amount_rub payment_method percent e db) as Haux.
  destruct (accrue_partner_commission bot_id payment_id user_id amount_rub
              payment_method percent e db) as [[|] db'] eqn:Hcall; cbn [fst snd] in *.
  - destruct Haux as [H _]. destruct (H eq_refl) as (Hb & Hpid & Hcom & Hh & ->).
    cbn [partner_commissions set_commissions]. split.
    + unfold commission_keys. rewrite map_app. simpl.
      apply NoDup_app. split; [done|]. split.
      * intros x Hx. rewrite list_elem_of_singleton. intros ->.
        by apply has_commission_false_iff in Hh.
      * apply NoDup_singleton.
    + apply Forall_app. split; [done|]. by repeat constructor.
  - destruct Haux as [_ H]. rewrite (H eq_refl). by split.
Qed.

Lemma accrue_keeps_commissions_wf_witness :
  commissions_wf
    (partner_commissions
       (accrue_partner_commission 3 "pay-1" 42 300 (Some "YooKassa") None
          (mkEnv 50 []) empty_db).2).
Proof.
  apply accrue_keeps_commissions_wf. split; constructor.
Defined.

(** ** The stored balance, up and down *)

Lemma deduct_from_balance_cases user_id amount e db :
  deduct_from_balance user_id amount e db = (true, db) \/
  deduct_from_balance user_id amount e db = (false, db) \/
  exists balance,
    users db !! user_id = Some (Some balance) /\ (0 < amount)%Q /\
    (amount <= balance)%Q /\
    deduct_from_balance user_id amount e db =
      (true, set_users (<[user_id := Some (balance - amount)%Q]> (users db)) db).
Proof.
  unfold deduct_from_balance.
  destruct (Qle_bool amount 0) eqn:Hz; [by left|].
  assert (0 < amount)%Q as Hpos.
  { apply Qnot_le_lt. intros Hle. apply Qle_bool_iff in Hle. congruence. }
  destruct (env_faults e); [|by right; left].
  destruct (users db !! user_id) as [[balance|]|] eqn:Hu.
  - destruct (Qlt_bool balance amount) eqn:Hlt; [by right; left|].
    apply Qlt_bool_false_iff in Hlt. right. right. by exists balance.
  - assert (Qlt_bool 0 amount = true) as -> by by apply Qlt_bool_iff.
    by right; left.
  - assert (Qlt_bool 0 amount = true) as -> by by apply Qlt_bool_iff.
    by right; left.
Qed.



Lemma balance_exec_nonneg c e db :
  credit_only c -> balances_nonneg db -> balances_nonneg (balance_exec c e db).
Proof.
  intros Hc Hnn. destruct c as [user_id amount | user_id amount]; simpl.
  - unfold add_to_balance. destruct (env_faults e); [|done].
    destruct (users db !! user_id) as [balance|] eqn:Hu; [|done].
    intros u b. cbn [snd users set_users].
    destruct (decide (u = user_id)) as [->|Hne].
    + rewrite lookup_insert_eq. intros [= <-]. simpl in Hc.
      destruct balance as [q|]; simpl; [specialize (Hnn _ _ Hu)|]; lra.
    + rewrite lookup_insert_ne by done. apply Hnn.
  - destruct (deduct_from_balance_cases user_id amount e db)
      as [-> | [-> | (balance & Hu & Hpos & Hle & ->)]]; [done|done|].
    intros u b. cbn [snd users set_users].
    destruct (decide (u = user_id)) as [->|Hne].
    + rewrite lookup_insert_eq. intros [= <-]. lra.
    + rewrite lookup_insert_ne by done. apply Hnn.
Qed.

(** X10. Balances never go below zero. When no stored balance is negative,
    none is after any history of [add_to_balance] calls with amounts that are
    not negative and of [deduct_from_balance] calls with any amounts, under
    any storage faults. *)
Theorem balances_stay_nonneg (calls : list (balance_call * env)) (db : Db) :
  Forall (fun ce => credit_only ce.1) calls ->
  balances_nonneg db ->
  balances_nonneg (run_balance calls db).
Proof.
  revert db. induction calls as [|[c e] rest IH]; intros db Hall Hnn; [done|].
  apply Forall_cons in Hall as [Hc Hall]. simpl.
  apply IH; [done|]. by apply balance_exec_nonneg.
Qed.

Lemma balances_stay_nonneg_witness :
  balances_nonneg
    (run_balance [(CallDeduct 42 300, mkEnv 1 []);
                  (CallDeduct 42 300, mkEnv 2 []);
                  (CallAdd 42 50, mkEnv 3 [])] users_example).
Proof.
  apply balances_stay_nonneg.
  - repeat constructor; simpl; unfold Qle; simpl; lia.
  - intros u b Hu. unfold users_example in Hu. cbn [users set_users] in Hu.
    destruct (decide (u = 42%Z)) as [->|Hne].
    + rewrite lookup_insert_eq in Hu. injection Hu as <-. unfold Qle. simpl. lia.
    + rewrite lookup_insert_ne in Hu by done. discriminate Hu.
Defined.

(** ** TON transactions, from intent to completion *)

Lemma find_and_complete_ton_cases float_of_str payment_id amount_ton e db :
  let call := find_and_complete_ton_transaction float_of_str payment_id amount_ton e db in
  call = (Returned None, db) \/ call = (Raised, db) \/
  exists row meta,
    transactions db !! strip payment_id = Some row /\ t_status row = "pending" /\
    load_meta (t_metadata row) = Some meta /\
    call = (Returned (Some (setdefault "payment_id" (JStr (strip payment_id)) meta)),
            set_transactions
              (<[strip payment_id := mkTx (t_user_id row) "paid" (t_amount_rub row)
                                          amount_ton (Some "TON") (Some "TON")
                                          (t_metadata row)]> (transactions db)) db).
Proof.
  intros call. subst call. unfold find_and_complete_ton_transaction.
  destruct (decide (strip payment_id = "")); [by left|].
  destruct (env_faults e); [|by left].
  destruct (transactions db !! strip payment_id) as [row|] eqn:Hrow; [|by left].
  destruct (bool_decide (t_status row = "pending")) eqn:Hst; [|by left].
  apply bool_decide_eq_true in Hst. cbn [negb].
  destruct (load_meta (t_metadata row)) as [meta|] eqn:Hmeta; [|by right; left].
  match goal with |- context [if ?c then _ else _] => destruct c end; [by left|].
  right. right. by exists row, meta.
Qed.

(** X11. A TON transaction is completed once. After a call of
    [find_and_complete_ton_transaction] that returned metadata the row is
    paid, and every later call for the same id, whatever the amount and the
    storage, returns [None] and leaves the database as it is; a call for an
    id that has no row returns [None] and changes nothing. *)
Theorem ton_completed_once
    (float_of_str : string -> option Q) (payment_id : string)
    (amount_ton : option Q) (e : env) (db : Db) :
  let call := find_and_complete_ton_transaction float_of_str payment_id amount_ton e db in
  (forall m,
      call.1 = Returned (Some m) ->
      (t_status <$> transactions call.2 !! strip payment_id) = Some "paid" /\
      forall payment_id' amount_ton' e',
        strip payment_id' = strip payment_id ->
        find_and_complete_ton_transaction float_of_str payment_id' amount_ton' e' call.2
          = (Returned None, call.2))
  /\ (transactions db !! strip payment_id = None -> call = (Returned None, db)).
Proof.
  intros call. split.
  - intros m Hm.
    destruct (find_and_complete_ton_cases float_of_str payment_id amount_ton e db)
      as [Heq | [Heq | (row & meta & Hrow & Hst & Hmeta & Heq)]];
      fold call in Heq; rewrite Heq in Hm |- *; [done|done|].
    cbn [snd transactions set_transactions]. rewrite lookup_insert_eq.
    split; [done|]. intros payment_id' amount_ton' e' Hid.
    unfold find_and_complete_ton_transaction. rewrite Hid.
    destruct (decide (strip payment_id = "")); [done|].
    destruct (env_faults e'); [|done].
    cbn [transactions set_transactions]. by rewrite lookup_insert_eq.
  - intros Hnone. subst call. unfold find_and_complete_ton_transaction.
    destruct (decide (strip payment_id = "")); [done|].
    destruct (env_faults e); [|done]. by rewrite Hnone.
Qed.

Lemma ton_completed_once_witness :
  let call := find_and_complete_ton_transaction no_float "t1" (Some (201 # 100)%Q)
                (mkEnv 3 []) ton_example in
  find_and_complete_ton_transaction no_float " t1 " (Some 2%Q) (mkEnv 4 []) call.2 =
    (Returned None, call.2).
Proof.
  intros call.
  destruct (ton_completed_once no_float "t1" (Some (201 # 100)%Q) (mkEnv 3 [])
              ton_example) as [H _].
  destruct (H (setdefault "payment_id" (JStr "t1")
                 {["expected_amount_ton" := JNum 2%Q]})) as [_ H2]; [reflexivity|].
  apply H2. reflexivity.
Defined.

(** X12. A TON intent is stored once and completes to its own metadata.
    [create_pending_transaction] for an id that has a row already returns 0
    and changes nothing, so that a paid transaction is never opened again;
    for a new id, with a working storage, it returns the id of the new row,
    and a call of [find_and_complete_ton_transaction] whose amount passes the
    check of that metadata then returns the metadata as stored, with the
    payment id under [payment_id] when the metadata has no such key. *)
Theorem ton_intent_round_trip
    (float_of_str : string -> option Q) (payment_id : string) (user_id : Z)
    (amount_rub : Q) (metadata : Meta) (rowid : Z) (e1 e2 : env) (db : Db) :
  (is_Some (transactions db !! strip payment_id) ->
   create_pending_transaction payment_id user_id amount_rub metadata rowid e1 db =
     (0%Z, db))
  /\ (forall amount_ton,
        strip payment_id <> "" ->
        transactions db !! strip payment_id = None ->
        env_faults e1 = [] -> env_faults e2 = [] ->
        match expected_amount_ton float_of_str metadata with
        | None => True
        | Some exp_val =>
            exists amt, amount_ton = Some amt /\
                        (Qabs (fsub amt exp_val) <= ton_tolerance exp_val)%Q
        end ->
        let created :=
          create_pending_transaction payment_id user_id amount_rub metadata rowid e1 db in
        created.1 = rowid /\
        (find_and_complete_ton_transaction float_of_str payment_id amount_ton e2
           created.2).1 =
          Returned (Some (setdefault "payment_id" (JStr (strip payment_id)) metadata))).
Proof.
  split.
  - intros [row Hrow]. unfold create_pending_transaction.
    destruct (decide (strip payment_id = "")); [done|].
    destruct (env_faults e1); [|done]. by rewrite Hrow.
  - intros amount_ton Hne Hfree Hf1 Hf2 Hamount created. subst created.
    unfold create_pending_transaction.
    destruct (decide (strip payment_id = "")); [done|].
    rewrite Hf1, Hfree. cbn [fst snd]. split; [done|].
    unfold find_and_complete_ton_transaction.
    destruct (decide (strip payment_id = "")); [done|].
    rewrite Hf2. cbn [transactions set_transactions]. rewrite lookup_insert_eq.
    cbn [t_status t_metadata load_meta]. rewrite bool_decide_eq_true_2 by done.
    cbn [negb].
    destruct (expected_amount_ton float_of_str metadata) as [exp_val|]; [|done].
    destruct Hamount as (amt & -> & Hle).
    apply Qlt_bool_false_iff in Hle. by rewrite Hle.
Qed.

Lemma ton_intent_round_trip_witness :
  let created := create_pending_transaction "t2" 42 300
                   {["expected_amount_ton" := JNum 2%Q]} 17 (mkEnv 1 []) empty_db in
  created.1 = 17%Z /\
  (find_and_complete_ton_transaction no_float "t2" (Some 2%Q) (mkEnv 2 []) created.2).1
    = Returned (Some (setdefault "payment_id" (JStr (strip "t2"))
                        {["expected_amount_ton" := JNum 2%Q]})).
Proof.
  apply (ton_intent_round_trip no_float "t2" 42 300
           {["expected_amount_ton" := JNum 2%Q]} 17 (mkEnv 1 []) (mkEnv 2 []) empty_db);
    try reflexivity; [done|].
  exists 2%Q. split; [reflexivity|]. vm_compute. discriminate.
Defined.

(** X13. The amount check applies only to metadata that names an amount.
    For a pending TON transaction whose metadata is a dict without an
    expected amount, or with one that does not convert to a number,
    [find_and_complete_ton_transaction] completes the transaction whatever
    amount is reported, a missing one included, and records that amount;
    when the stored metadata is JSON but not a dict, the call raises and the
    row stays pending. *)
Theorem ton_without_expected_amount
    (float_of_str : string -> option Q) (payment_id : string)
    (amount_ton : option Q) (e : env) (db : Db) (row : tx_row) :
  strip payment_id <> "" ->
  env_faults e = [] ->
  transactions db !! strip payment_id = Some row ->
  t_status row = "pending" ->
  let call := find_and_complete_ton_transaction float_of_str payment_id amount_ton e db in
  (forall meta,
      load_meta (t_metadata row) = Some meta ->
      expected_amount_ton float_of_str meta = None ->
      call.1 = Returned (Some (setdefault "payment_id" (JStr (strip payment_id)) meta)) /\
      transactions call.2 !! strip payment_id =
        Some (mkTx (t_user_id row) "paid" (t_amount_rub row) amount_ton
                   (Some "TON") (Some "TON") (t_metadata row)))
  /\ (load_meta (t_metadata row) = None -> call = (Raised, db)).
Proof.
  intros Hne Hf Hrow Hst call. subst call.
  unfold find_and_complete_ton_transaction.
  destruct (decide (strip payment_id = "")); [done|].
  rewrite Hf, Hrow, Hst. rewrite bool_decide_eq_true_2 by done. cbn [negb].
  split.
  - intros meta -> ->. cbn [fst snd transactions set_transactions].
    by rewrite lookup_insert_eq.
  - by intros ->.
Qed.

Lemma ton_without_expected_amount_witness :
  (find_and_complete_ton_transaction no_float "t3" None (mkEnv 2 [])
     (set_transactions
        (<["t3" := mkTx 42 "pending" 300 None None None (RawOther (JArr []))]> ∅)
        empty_db))
  = (Raised,
     set_transactions
       (<["t3" := mkTx 42 "pending" 300 None None None (RawOther (JArr []))]> ∅)
       empty_db).
Proof.
  apply (ton_without_expected_amount no_float "t3" None (mkEnv 2 [])
           (set_transactions
              (<["t3" := mkTx 42 "pending" 300 None None None (RawOther (JArr []))]> ∅)
              empty_db)
           (mkTx 42 "pending" 300 None None None (RawOther (JArr []))));
    try reflexivity. done.
Defined.

(** ** Reconciliation, on the whole table *)

Lemma sync_step_frame se acc key :
  let db := acc.2 in
  let db' := (sync_step se acc key).2 in
  pending_transactions db' = pending_transactions db /\
  processed_payments db' = processed_payments db /\
  transactions db' = transactions db /\ users db' = users db /\
  partner_commissions db' = partner_commissions db.
Proof.
  destruct acc as [removed db], key as [key_id row]. cbn [snd].
  unfold sync_step, delete_key_by_id, update_key_missing.
  repeat case_match; simplify_eq; done.
Qed.

Lemma sync_fold_frame se (l : list (Z * key_row)) acc :
  let db := acc.2 in
  let db' := (fold_left (sync_step se) l acc).2 in
  pending_transactions db' = pending_transactions db /\
  processed_payments db' = processed_payments db /\
  transactions db' = transactions db /\ users db' = users db /\
  partner_commissions db' = partner_commissions db.
Proof.
  revert acc. induction l as [|key l IH]; intros acc; [done|].
  simpl. destruct (IH (sync_step se acc key)) as (H1 & H2 & H3 & H4 & H5).
  destruct (sync_step_frame se acc key) as (G1 & G2 & G3 & G4 & G5).
  cbn zeta in *. repeat split; congruence.
Qed.

Lemma key_after_columns se k row row' :
  key_after se k row = Some row' ->
  k_user_id row' = k_user_id row /\ k_key_email row' = k_key_email row /\
  k_expire_at_ms row' = k_expire_at_ms row.
Proof.
  unfold key_after. repeat case_match; by intros [= <-].
Qed.

(** X14. A pass of [sync_user_keys_with_remnawave] writes nothing but the
    missing mark of the user's own keys. Every table other than [vpn_keys] is
    as before; the keys of other users are as before; no key appears; and a
    key of the user that is still there has the owner, the e-mail and the
    expiry it had. *)
Theorem sync_writes_only_the_mark (user_id : Z) (se : sync_env) (db : Db) :
  let db' := (sync_user_keys_with_remnawave user_id se db).2 in
  (pending_transactions db' = pending_transactions db /\
   processed_payments db' = processed_payments db /\
   transactions db' = transactions db /\ users db' = users db /\
   partner_commissions db' = partner_commissions db)
  /\ (forall k row,
        vpn_keys db !! k = Some row -> k_user_id row <> user_id ->
        vpn_keys db' !! k = Some row)
  /\ (forall k row',
        vpn_keys db' !! k = Some row' ->
        exists row,
          vpn_keys db !! k = Some row /\
          k_user_id row' = k_user_id row /\ k_key_email row' = k_key_email row /\
          k_expire_at_ms row' = k_expire_at_ms row).
Proof.
  intros db'. split; [|split].
  - apply (sync_fold_frame se (get_user_keys user_id db) (0%nat, db)).
  - intros k row Hrow Hu. subst db'. rewrite sync_lookup, Hrow.
    by destruct (decide (k_user_id row = user_id)).
  - intros k row'. subst db'. rewrite sync_lookup.
    destruct (vpn_keys db !! k) as [row|]; [|done].
    destruct (decide (k_user_id row = user_id)).
    + intros Hk. exists row. split; [done|]. by eapply key_after_columns.
    + intros [= <-]. by exists row.
Qed.

Lemma sync_step_count se acc key :
  ((sync_step se acc key).1 + size (vpn_keys (sync_step se acc key).2) =
   acc.1 + size (vpn_keys acc.2))%nat.
Proof.
  destruct acc as [removed db], key as [key_id row]. cbn [fst snd].
  assert (forall value now fails,
            size (vpn_keys (update_key_missing key_id value now fails db).2) =
            size (vpn_keys db)) as Hupd.
  { intros value now fails. unfold update_key_missing. destruct fails; [done|].
    destruct (vpn_keys db !! key_id) as [r|] eqn:Hr; [|done].
    cbn [snd vpn_keys set_keys]. by apply map_size_insert_Some. }
  unfold sync_step.
  destruct (se_exists se key_id row); try done;
    destruct (key_id =? 0)%Z; try done.
  - destruct (missing_truthy _); [|done]. cbn [fst snd]. by rewrite Hupd.
  - destruct (_parse_missing_dt _) as [t|]; [|cbn [fst snd]; by rewrite Hupd].
    destruct (grace <? se_now_dt se - t)%Z; [|cbn [fst snd]; by rewrite Hupd].
    unfold delete_key_by_id. destruct (se_write_fails se key_id); [done|].
    destruct (vpn_keys db !! key_id) as [r|] eqn:Hr; [|done].
    cbn [fst snd vpn_keys set_keys].
    rewrite map_size_delete_Some by done.
    assert (size (vpn_keys db) <> 0%nat).
    { apply map_size_non_empty_iff. intros Hempty. rewrite Hempty in Hr.
      by rewrite lookup_empty in Hr. }
    lia.
Qed.

(** X15. The count [sync_user_keys_with_remnawave] returns is the number of
    rows it deleted: the count plus the number of keys after the pass is the
    number of keys before it. *)
Theorem sync_removed_count (user_id : Z) (se : sync_env) (db : Db) :
  let pass := sync_user_keys_with_remnawave user_id se db in
  (pass.1 + size (vpn_keys pass.2) = size (vpn_keys db))%nat.
Proof.
  intros pass. subst pass. unfold sync_user_keys_with_remnawave.
  change (size (vpn_keys db)) with ((0%nat, db).1 + size (vpn_keys (0%nat, db).2))%nat.
  generalize (0%nat, db). induction (get_user_keys user_id db) as [|key l IH];
    intros acc; [done|].
  simpl. rewrite IH. apply sync_step_count.
Qed.

Lemma sync_writes_only_the_mark_witness :
  vpn_keys (sync_user_keys_with_remnawave 8 (all_missing_at (25 * hour_us))
              keys_example).2 !! 1%Z = Some key_row_example.
Proof.
  destruct (sync_writes_only_the_mark 8 (all_missing_at (25 * hour_us)) keys_example)
    as (_ & H & _).
  apply H; [reflexivity|]. vm_compute. discriminate.
Defined.

(** ** Fulfillment, run after run *)

(** A run on a payment id that is in [processed_payments] does nothing. *)
Lemma process_claimed_noop float_of_str int_of_str pe metadata db payment_id :
  payment_id_of metadata = Some payment_id ->
  is_Some (processed_payments db !! payment_id) ->
  let r := process_successful_payment float_of_str int_of_str pe metadata db in
  run_db r = db /\ run_actions r = [] /\ past_claim (run_end r) = false.
Proof.
  intros Hpid [t Ht] r.
  assert (claim_processed_payment payment_id (pe_claim pe) db = (false, db)) as Hclaim.
  { apply (claim_taken _ _ _ t). by rewrite (payment_id_of_stripped metadata). }
  subst r. unfold process_successful_payment. rewrite Hpid, Hclaim.
  repeat case_match; simpl in *; try discriminate; auto.
Qed.

(** A run that went past the claim: the claim succeeded, and the database
    of the run is the one the claim and the commission left. *)
Lemma process_past_claim float_of_str int_of_str pe metadata db :
  let r := process_successful_payment float_of_str int_of_str pe metadata db in
  past_claim (run_end r) = true ->
  exists user_id price payment_id,
    payment_id_of metadata = Some payment_id /\ payment_id <> "" /\
    (claim_processed_payment payment_id (pe_claim pe) db).1 = true /\
    run_db r =
      accrue_for_payment int_of_str pe metadata payment_id user_id price
        (claim_processed_payment payment_id (pe_claim pe) db).2.
Proof.
  intros r. subst r. unfold process_successful_payment.
  destruct (py_int int_of_str (dict_get "user_id" metadata)) as [user_id|];
    [|by repeat case_match].
  destruct (py_float float_of_str (dict_get "price" metadata)) as [price|]; [|done].
  destruct (payment_id_of metadata) as [payment_id|]; [|done].
  destruct (decide (payment_id = "")); [done|].
  destruct (claim_processed_payment payment_id (pe_claim pe) db)
    as [claimed db1] eqn:Hclaim.
  destruct claimed; [|done]. cbn [negb]. intros _.
  exists user_id, price, payment_id. rewrite Hclaim. cbn [fst snd].
  repeat split; try done.
  repeat case_match; done.
Qed.

Lemma after_provision_past pe user_id action price key_id days_to_add :
  past_claim (after_provision pe user_id action price key_id days_to_add).2 = true.
Proof.
  unfold after_provision, key_creation_failure. repeat case_match; done.
Qed.

(** A run that did not go past the claim did nothing. *)
Lemma process_not_past_claim float_of_str int_of_str pe metadata db :
  let r := process_successful_payment float_of_str int_of_str pe metadata db in
  past_claim (run_end r) = false ->
  run_actions r = [] /\ (run_end r = EndDuplicate \/ run_db r = db).
Proof.
  intros r. subst r. unfold process_successful_payment.
  destruct (py_int int_of_str (dict_get "user_id" metadata)) as [user_id|];
    [|by repeat case_match; auto].
  destruct (py_float float_of_str (dict_get "price" metadata)) as [price|]; [|by auto].
  destruct (payment_id_of metadata) as [payment_id|]; [|by auto].
  destruct (decide (payment_id = "")); [by auto|].
  destruct (claim_processed_payment payment_id (pe_claim pe) db) as [claimed db1].
  destruct claimed; [|by auto]. cbn [negb].
  destruct (json_is_str (dict_get "action" metadata) "top_up"); [done|].
  match goal with |- context [match ?c with Some _ => _ | None => _ end] =>
    destruct c as [candidate_email|] end; [|done].
  destruct (plan_limits _) as [[traffic_limit_bytes traffic_limit_strategy] hwid].
  match goal with |- context [after_provision ?a ?b ?c ?d ?e ?f] =>
    pose proof (after_provision_past a b c d e f) as Hpast;
    destruct (after_provision a b c d e f) as [notes how] end.
  cbn [run_end snd] in *. congruence.
Qed.

(** X16. A payment is fulfilled by one run. A run of
    [process_successful_payment] that went past the claim, whether it
    provisioned a key, credited a top-up, found no key to extend or failed
    at the panel, found the payment id of the metadata missing from
    [processed_payments] and has put it there. On every database that holds
    that id (no function deletes from the table), every later run on the
    same metadata, in whatever environment, returns at the claim: the
    database is unchanged and nothing is sent or provisioned. A run that
    stopped before the claim, on metadata it cannot read or without a
    payment id, has changed nothing either. *)
Theorem fulfillment_runs_once
    (float_of_str : string -> option Q) (int_of_str : string -> option Z)
    (pe : pay_env) (metadata : Meta) (db : Db) :
  let r := process_successful_payment float_of_str int_of_str pe metadata db in
  (past_claim (run_end r) = true ->
   exists payment_id,
     payment_id_of metadata = Some payment_id /\
     processed_payments db !! payment_id = None /\
     is_Some (processed_payments (run_db r) !! payment_id) /\
     forall pe' db2,
       is_Some (processed_payments db2 !! payment_id) ->
       let r' := process_successful_payment float_of_str int_of_str pe' metadata db2 in
       run_db r' = db2 /\ run_actions r' = [] /\ run_end r' = EndDuplicate)
  /\ (run_end r = EndBadMetadata \/ run_end r = EndMissingPaymentId \/
      run_end r = EndRaised ->
      run_db r = db /\ run_actions r = []).
Proof.
  intros r. split.
  - intros Hpast.
    destruct (process_past_claim float_of_str int_of_str pe metadata db Hpast)
      as (user_id & price & payment_id & Hpid & Hne & Hclaim & Hdb).
    fold r in Hdb. exists payment_id.
    pose proof (payment_id_of_stripped metadata payment_id Hpid) as Hstrip.
    destruct (claim_cases payment_id (pe_claim pe) db) as [Heq | (Hfree & _ & Heq)];
      rewrite Heq in Hclaim; [done|].
    rewrite Hstrip in Hfree. split; [done|]. split; [done|]. split.
    { rewrite Hdb.
      destruct (accrue_for_payment_frame int_of_str pe metadata payment_id user_id
                  price (claim_processed_payment payment_id (pe_claim pe) db).2)
        as (_ & -> & _).
      rewrite Heq. cbn [snd processed_payments set_processed].
      rewrite Hstrip, lookup_insert_eq. by eexists. }
    intros pe' db2 Hin r'.
    destruct (process_claimed_noop float_of_str int_of_str pe' metadata db2
                payment_id Hpid Hin) as (H1 & H2 & _).
    fold r' in H1, H2. repeat split; try done.
    destruct Hin as [t Ht].
    assert (claim_processed_payment payment_id (pe_claim pe') db2 = (false, db2))
      as Hclaim'.
    { apply (claim_taken _ _ _ t). by rewrite Hstrip. }
    subst r'. unfold process_successful_payment. rewrite Hpid, Hclaim'.
    destruct (py_int int_of_str (dict_get "user_id" metadata)) as [u|] eqn:Hu.
    2:{ revert Hpast. subst r. unfold process_successful_payment. rewrite Hu.
        by repeat case_match. }
    destruct (py_float float_of_str (dict_get "price" metadata)) as [p|] eqn:Hp.
    2:{ revert Hpast. subst r. unfold process_successful_payment. by rewrite Hu, Hp. }
    by destruct (decide (payment_id = "")).
  - intros Hend. subst r.
    destruct (process_not_past_claim float_of_str int_of_str pe metadata db)
      as [Hact [Hdup | Hdb]].
    + by destruct Hend as [-> | [-> | ->]].
    + rewrite Hdup in Hend. destruct Hend as [? | [? | ?]]; discriminate.
    + done.
Qed.

Lemma fulfillment_runs_once_witness :
  let r := process_successful_payment no_float no_int pay_env_example
             metadata_example empty_db in
  exists payment_id,
    payment_id_of metadata_example = Some payment_id /\
    processed_payments empty_db !! payment_id = None /\
    is_Some (processed_payments (run_db r) !! payment_id) /\
    forall pe' db2,
      is_Some (processed_payments db2 !! payment_id) ->
      let r' := process_successful_payment no_float no_int pe' metadata_example db2 in
      run_db r' = db2 /\ run_actions r' = [] /\ run_end r' = EndDuplicate.
Proof.
  intros r.
  destruct (fulfillment_runs_once no_float no_int pay_env_example metadata_example
              empty_db) as [H _].
  apply H. reflexivity.
Defined.

(** ** The calls to the panel *)

Lemma filter_no_call (l : list action_out) :
  (forall a, ~ In (CreateOrUpdateKey a) l) -> List.filter is_provision_call l = [].
Proof.
  induction l as [|x l IH]; [done|]. intros H. simpl.
  destruct x; simpl; try (apply IH; intros a Ha; apply (H a); by right).
  exfalso. apply (H args). by left.
Qed.

Lemma after_provision_at pe user_id action price key_id days_to_add :
  at_provisioning (after_provision pe user_id action price key_id days_to_add).2 = true.
Proof.
  unfold after_provision, key_creation_failure.
  repeat case_match; simplify_eq; done.
Qed.

(** X17. The provisioning client is called once at most in a run of
    [process_successful_payment], and exactly in the runs that end at the
    provisioning, with its result or with the handling of its failure. A
    run that returns at the metadata, at the claim of a payment already
    processed, at a top-up or at a key to extend that is not found makes no
    call. *)
Theorem provisioning_called_at_most_once
    (float_of_str : string -> option Q) (int_of_str : string -> option Z)
    (pe : pay_env) (metadata : Meta) (db : Db) :
  let r := process_successful_payment float_of_str int_of_str pe metadata db in
  provision_calls r = if at_provisioning (run_end r) then 1%nat else 0%nat.
Proof.
  intros r. subst r. unfold provision_calls, process_successful_payment.
  destruct (py_int int_of_str (dict_get "user_id" metadata)) as [user_id|];
    [|by repeat case_match].
  destruct (py_float float_of_str (dict_get "price" metadata)) as [price|]; [|done].
  destruct (payment_id_of metadata) as [payment_id|]; [|done].
  destruct (decide (payment_id = "")); [done|].
  destruct (claim_processed_payment payment_id (pe_claim pe) db) as [claimed db1].
  destruct claimed; [|done]. cbn [negb].
  set (deleted := if json_truthy (dict_get "chat_id" metadata) &&
                     json_truthy (dict_get "message_id" metadata)
                  then _ else _).
  assert (List.filter is_provision_call deleted = []) as Hdel.
  { subst deleted. by destruct (_ && _). }
  destruct (json_is_str (dict_get "action" metadata) "top_up").
  { cbn [run_actions run_end at_provisioning]. by rewrite Hdel. }
  match goal with |- context [match ?c with Some _ => _ | None => _ end] =>
    destruct c as [candidate_email|] end.
  2:{ cbn [run_actions run_end at_provisioning].
      by rewrite !List.filter_app, Hdel. }
  destruct (plan_limits _) as [[traffic_limit_bytes traffic_limit_strategy] hwid].
  match goal with |- context [after_provision ?a ?b ?c ?d ?e ?f] =>
    pose proof (after_provision_no_call a b c d e f) as Htail;
    pose proof (after_provision_at a b c d e f) as Hat;
    destruct (after_provision a b c d e f) as [notes how] end.
  cbn [run_actions run_end fst snd] in *. rewrite Hat.
  rewrite !List.filter_app, Hdel, (filter_no_call notes).
  - done.
  - intros a. apply Htail.
Qed.

(** ** The day count of a call *)

Lemma resolve_days_to_add_cases plan_months plan_days months duration_days_meta :
  ((0 <= months)%Z ->
   (0 < resolve_days_to_add plan_months plan_days months duration_days_meta)%Z)
  /\ ((plan_months <= 0)%Z -> (plan_days <= 0)%Z -> (duration_days_meta <= 0)%Z ->
      resolve_days_to_add plan_months plan_days months duration_days_meta =
        if (months =? 0)%Z then 30%Z else (months * 30)%Z).
Proof.
  unfold resolve_days_to_add, _compute_days_to_add. cbn [default].
  repeat case_match; split; intros; unfold id in *; lia.
Qed.

(** X18. The day count passed to the provisioning client is above zero
    whenever the month count of the metadata is not negative: an order
    without a positive day or month count, on the plan and in the metadata,
    gets 30 days. With no positive count on the plan and no positive day
    count in the metadata, the call carries 30 days for the month count 0
    and 30 days a month otherwise, a negative month count included. *)
Theorem days_to_add_positive
    (float_of_str : string -> option Q) (int_of_str : string -> option Z)
    (pe : pay_env) (metadata : Meta) (db : Db) (args : provision_args) :
  In (CreateOrUpdateKey args)
     (run_actions (process_successful_payment float_of_str int_of_str pe metadata db)) ->
  let months := order_months int_of_str metadata in
  ((0 <= months)%Z -> (0 < pa_days_to_add args)%Z)
  /\ ((order_plan_months int_of_str pe metadata <= 0)%Z ->
      (order_plan_days int_of_str pe metadata <= 0)%Z ->
      (order_duration_days int_of_str metadata <= 0)%Z ->
      pa_days_to_add args = if (months =? 0)%Z then 30%Z else (months * 30)%Z).
Proof.
  intros Hin months.
  destruct (provisioning_call_inv float_of_str int_of_str pe metadata db args Hin)
    as (_ & _ & _ & _ & _ & _ & _ & _ & _ & -> & _).
  apply resolve_days_to_add_cases.
Qed.

Lemma days_to_add_positive_witness :
  (0 < pa_days_to_add provision_args_example)%Z.
Proof.
  assert (In (CreateOrUpdateKey provision_args_example)
            (run_actions (process_successful_payment no_float no_int
                            pay_env_plan_example metadata_plan_example empty_db)))
    as Hin by (vm_compute; tauto).
  apply (days_to_add_positive no_float no_int pay_env_plan_example
           metadata_plan_example empty_db provision_args_example Hin).
  vm_compute. discriminate.
Defined.

(** ** The expiry of an extended key *)

Lemma json_is_str_eq v s : json_is_str v s = true -> v = JStr s.
Proof.
  destruct v; try done. simpl. by intros ->%bool_decide_eq_true.
Qed.

(** X19. A key is extended from its current expiry. In a run for the action
    [extend] that calls the provisioning client, the read of the key of the
    order has worked, the key is in [vpn_keys], and the call carries its
    e-mail as [get_key_by_id] returns it (from the column [email], or else
    [key_email], trimmed and in lower case), which is not empty. For a key
    id other than 0 the expiry the call carries is the later of the stored
    expiry and the clock, plus the day count, so that days that remain on
    the key are not lost and a key that ran out is extended from now; when
    the second read of the key, for its expiry, fails, the expiry is the
    clock plus the day count. For every other action that gets to the call,
    the call carries no expiry. *)
Theorem extend_from_current_expiry
    (float_of_str : string -> option Q) (int_of_str : string -> option Z)
    (pe : pay_env) (metadata : Meta) (db : Db) (args : provision_args) :
  In (CreateOrUpdateKey args)
     (run_actions (process_successful_payment float_of_str int_of_str pe metadata db)) ->
  let action := dict_get "action" metadata in
  let key_id := _to_int int_of_str (dict_get "key_id" metadata) 0 in
  let added := (pa_days_to_add args * 86400000)%Z in
  (json_is_str action "extend" = false -> pa_expiry_timestamp_ms args = None)
  /\ (json_is_str action "extend" = true ->
      pe_key_read_fails pe = false /\
      exists row email,
        vpn_keys db !! key_id = Some row /\
        get_key_by_id key_id false db = Some (_normalize_key_row row) /\
        k_key_email (_normalize_key_row row) = Some email /\ email <> "" /\
        pa_email args = Some email /\
        (key_id = 0%Z -> pa_expiry_timestamp_ms args = None) /\
        (key_id <> 0%Z ->
         exists expiry,
           pa_expiry_timestamp_ms args = Some expiry /\
           expiry =
             (Z.max (if pe_expiry_read_fails pe then 0
                     else default 0 (k_expire_at_ms row)) (pe_now_ms pe) + added)%Z /\
           (pe_now_ms pe + added <= expiry)%Z /\
           (pe_expiry_read_fails pe = false ->
            forall exp_ms, k_expire_at_ms row = Some exp_ms ->
                           (exp_ms + added <= expiry)%Z))).
Proof.
  intros Hin action key_id added. subst action key_id added. revert Hin.
  unfold process_successful_payment.
  destruct (py_int int_of_str (dict_get "user_id" metadata)) as [user_id|];
    [|by repeat case_match].
  destruct (py_float float_of_str (dict_get "price" metadata)) as [price|]; [|done].
  destruct (payment_id_of metadata) as [payment_id|]; [|done].
  destruct (decide (payment_id = "")); [done|].
  pose proof (claim_frame payment_id (pe_claim pe) db) as (_ & _ & _ & _ & Hkeys1).
  destruct (claim_processed_payment payment_id (pe_claim pe) db) as [claimed db1].
  destruct claimed; [|done]. cbn [negb snd] in *.
  pose proof (accrue_for_payment_frame int_of_str pe metadata payment_id user_id
                price db1) as (_ & _ & _ & _ & Hkeys2).
  cbn zeta in Hkeys2. rewrite Hkeys1 in Hkeys2. clear Hkeys1.
  set (db2 := accrue_for_payment int_of_str pe metadata payment_id user_id price db1)
    in *.
  set (deleted := if json_truthy (dict_get "chat_id" metadata) &&
                     json_truthy (dict_get "message_id" metadata)
                  then _ else _).
  assert (forall a, ~ In (CreateOrUpdateKey a) deleted) as Hdel.
  { intros a. subst deleted. destruct (_ && _); simpl; [|tauto].
    intros [H|[]]; discriminate. }
  destruct (json_is_str (dict_get "action" metadata) "top_up").
  { simpl. intros Hin. by apply Hdel in Hin. }
  set (sent := deleted ++ [_]).
  assert (forall a, ~ In (CreateOrUpdateKey a) sent) as Hsent.
  { intros a. subst sent. rewrite in_app_iff. simpl.
    intros [H | [H|[]]]; [by apply Hdel in H|discriminate]. }
  unfold get_key_by_id. rewrite Hkeys2.
  set (key_id := _to_int int_of_str (dict_get "key_id" metadata) 0).
  destruct (json_is_str (dict_get "action" metadata) "extend") eqn:Hext.
  - apply json_is_str_eq in Hext as Hact. rewrite Hact. cbn [json_is_str].
    rewrite !bool_decide_eq_false_2 by done.
    destruct (pe_key_read_fails pe) eqn:Hread; cbn [mbind option_bind].
    { simpl. rewrite in_app_iff. simpl.
      intros [H | [H|[]]]; [by apply Hsent in H|discriminate]. }
    destruct (vpn_keys db !! key_id) as [row|] eqn:Hrow;
      cbn [fmap option_fmap option_map mbind option_bind].
    2:{ simpl. rewrite in_app_iff. simpl.
        intros [H | [H|[]]]; [by apply Hsent in H|discriminate]. }
    destruct (k_key_email (_normalize_key_row row)) as [email|] eqn:Hemail.
    2:{ simpl. rewrite in_app_iff. simpl.
        intros [H | [H|[]]]; [by apply Hsent in H|discriminate]. }
    destruct (decide (email = "")) as [|Hne].
    { simpl. rewrite in_app_iff. simpl.
      intros [H | [H|[]]]; [by apply Hsent in H|discriminate]. }
    destruct (plan_limits _) as [[traffic_limit_bytes traffic_limit_strategy] hwid].
    match goal with |- context [after_provision ?a ?b ?c ?d ?e ?f] =>
      pose proof (after_provision_no_call a b c d e f) as Htail;
      destruct (after_provision a b c d e f) as [notes how] end.
    cbn [run_actions fst] in *.
    rewrite <- !app_assoc. rewrite !in_app_iff. simpl.
    intros [H | [[H|[]] | H]]; [by apply Hsent in H| |by apply Htail in H].
    injection H as H. subst args.
    cbn [pa_days_to_add pa_email pa_expiry_timestamp_ms].
    split; [done|]. intros _. split; [done|]. exists row, email.
    assert (k_expire_at_ms (_normalize_key_row row) = k_expire_at_ms row) as Hexp.
    { unfold _normalize_key_row. by destruct (_normalize_email _). }
    repeat split; try done.
    + intros ->. by rewrite Z.eqb_refl.
    + intros Hk. apply Z.eqb_neq in Hk. rewrite Hk. cbn [negb andb].
      destruct (pe_expiry_read_fails pe);
        cbn [fmap option_fmap option_map mbind option_bind]; rewrite ?Hexp.
      * eexists. split; [done|]. split; [done|]. split; [simpl; lia|done].
      * eexists. split; [done|]. split; [done|]. split; [lia|].
        intros _ exp_ms ->. simpl. lia.
  - cbn [andb].
    match goal with |- context [match ?c with Some _ => _ | None => _ end] =>
      destruct c as [candidate_email|] end.
    2:{ simpl. rewrite in_app_iff. simpl.
        intros [H | [H|[]]]; [by apply Hsent in H|discriminate]. }
    destruct (plan_limits _) as [[traffic_limit_bytes traffic_limit_strategy] hwid].
    match goal with |- context [after_provision ?a ?b ?c ?d ?e ?f] =>
      pose proof (after_provision_no_call a b c d e f) as Htail;
      destruct (after_provision a b c d e f) as [notes how] end.
    cbn [run_actions fst] in *.
    rewrite <- !app_assoc. rewrite !in_app_iff. simpl.
    intros [H | [[H|[]] | H]]; [by apply Hsent in H| |by apply Htail in H].
    injection H as H. subst args. by split.
Qed.

Lemma extend_from_current_expiry_witness :
  exists expiry,
    pa_expiry_timestamp_ms provision_args_extend_example = Some expiry /\
    (5000 + pa_days_to_add provision_args_extend_example * 86400000 <= expiry)%Z.
Proof.
  assert (In (CreateOrUpdateKey provision_args_extend_example)
            (run_actions (process_successful_payment no_float no_int
                            pay_env_plan_example metadata_extend_example
                            extend_db_example)))
    as Hin by (vm_compute; tauto).
  destruct (extend_from_current_expiry no_float no_int pay_env_plan_example
              metadata_extend_example extend_db_example
              provision_args_extend_example Hin) as [_ H].
  destruct (H eq_refl) as (_ & row & email & Hrow & _ & _ & _ & _ & _ & Hexp).
  destruct Hexp as (expiry & Hsome & _ & _ & Hle); [vm_compute; discriminate|].
  exists expiry. split; [exact Hsome|]. apply Hle; [reflexivity|].
  vm_compute in Hrow. by injection Hrow as <-.
Defined.

(** ** From the ledger to the fulfillment *)

(** A run stops for the payment id only when the metadata has none. *)
Lemma process_stops_for_id float_of_str int_of_str pe metadata db :
  let r := process_successful_payment float_of_str int_of_str pe metadata db in
  (run_end r = EndMissingPaymentId -> payment_id_of metadata = Some "") /\
  (run_end r = EndRaised -> payment_id_of metadata = None).
Proof.
  intros r. subst r. unfold process_successful_payment.
  destruct (py_int int_of_str (dict_get "user_id" metadata)) as [user_id|];
    [|by repeat case_match].
  destruct (py_float float_of_str (dict_get "price" metadata)) as [price|]; [|done].
  destruct (payment_id_of metadata) as [payment_id|]; [|done].
  destruct (decide (payment_id = "")) as [->|]; [done|].
  destruct (claim_processed_payment payment_id (pe_claim pe) db) as [claimed db1].
  destruct claimed; [|done]. cbn [negb].
  destruct (json_is_str (dict_get "action" metadata) "top_up"); [done|].
  match goal with |- context [match ?c with Some _ => _ | None => _ end] =>
    destruct c as [candidate_email|] end; [|done].
  destruct (plan_limits _) as [[traffic_limit_bytes traffic_limit_strategy] hwid].
  match goal with |- context [after_provision ?a ?b ?c ?d ?e ?f] =>
    pose proof (after_provision_past a b c d e f) as Hpast;
    destruct (after_provision a b c d e f) as [notes how] end.
  cbn [run_end snd] in *. split; intros ->; done.
Qed.

(** X20. The metadata completed out of the ledger carries the id of the
    ledger. When [find_and_complete_pending_transaction] returns the
    metadata of a row stored without a [payment_id] of its own, the payment
    id [process_successful_payment] reads in it is the trimmed id of the
    ledger, which is not empty. So no run on that metadata stops for a
    missing payment id; a run that goes past the claim found that id
    missing from [processed_payments] and has put it there; and on a
    database that holds the id the run changes and sends nothing. *)
Theorem completed_metadata_carries_id
    (payment_id : string) (e : env) (db db1 : Db) (m : Meta) :
  find_and_complete_pending_transaction payment_id e db = (Some m, db1) ->
  (forall row, pending_transactions db !! strip payment_id = Some row ->
               p_metadata row !! "payment_id" = None) ->
  let pid := strip payment_id in
  pid <> "" /\ payment_id_of m = Some pid /\
  forall float_of_str int_of_str pe db2,
    let r := process_successful_payment float_of_str int_of_str pe m db2 in
    run_end r <> EndMissingPaymentId /\ run_end r <> EndRaised /\
    (past_claim (run_end r) = true ->
     processed_payments db2 !! pid = None /\
     is_Some (processed_payments (run_db r) !! pid)) /\
    (is_Some (processed_payments db2 !! pid) ->
     run_db r = db2 /\ run_actions r = []).
Proof.
  intros Hcall Hmeta pid.
  assert (pid <> "") as Hne.
  { intros Hempty. revert Hcall. unfold find_and_complete_pending_transaction.
    fold pid. by destruct (decide (pid = "")). }
  assert (payment_id_of m = Some pid) as Hpid.
  { destruct (find_and_complete_cases payment_id e db) as [Heq | (row & Hrow & _ & Heq)];
      rewrite Heq in Hcall; [done|].
    injection Hcall as <- _. fold pid. unfold setdefault.
    rewrite (Hmeta row Hrow). unfold payment_id_of, dict_get.
    rewrite lookup_insert_eq.
    change (default JNull (Some (JStr pid))) with (JStr pid). cbn [json_truthy].
    rewrite bool_decide_eq_false_2 by done. cbn [negb].
    subst pid. by rewrite strip_idem. }
  split; [done|]. split; [done|].
  intros float_of_str int_of_str pe db2 r.
  assert (strip pid = pid) as Hstrip by apply strip_idem.
  split; [|split; [|split]].
  - intros Hend.
    destruct (process_stops_for_id float_of_str int_of_str pe m db2) as [H _].
    specialize (H Hend). rewrite Hpid in H. by injection H.
  - intros Hend.
    destruct (process_stops_for_id float_of_str int_of_str pe m db2) as [_ H].
    specialize (H Hend). by rewrite Hpid in H.
  - intros Hpast.
    destruct (process_past_claim float_of_str int_of_str pe m db2 Hpast)
      as (user_id & price & pid' & Hpid' & _ & Hclaim & Hdb).
    rewrite Hpid in Hpid'. injection Hpid' as <-. fold r in Hdb.
    destruct (claim_cases pid (pe_claim pe) db2) as [Heq | (Hfree & _ & Heq)];
      rewrite Heq in Hclaim; [done|].
    rewrite Hstrip in Hfree. split; [done|].
    rewrite Hdb.
    destruct (accrue_for_payment_frame int_of_str pe m pid user_id price
                (claim_processed_payment pid (pe_claim pe) db2).2)
      as (_ & -> & _).
    rewrite Heq. cbn [snd processed_payments set_processed].
    rewrite Hstrip, lookup_insert_eq. by eexists.
  - intros Hin.
    destruct (process_claimed_noop float_of_str int_of_str pe m db2 pid Hpid Hin)
      as (H1 & H2 & _).
    by fold r in H1, H2.
Qed.

Lemma completed_metadata_carries_id_witness :
  payment_id_of (setdefault "payment_id" (JStr "p1") (p_metadata ledger_row_example)) =
    Some "p1".
Proof.
  refine (proj1 (proj2 (completed_metadata_carries_id " p1 " (mkEnv 20 [])
                          ledger_example
                          (find_and_complete_pending_transaction " p1 " (mkEnv 20 [])
                             ledger_example).2
                          (setdefault "payment_id" (JStr "p1")
                             (p_metadata ledger_row_example)) _ _))).
  - vm_compute. reflexivity.
  - intros row. vm_compute. by intros [= <-].
Defined.
